(** * Deepfake-detection server: response shaping, demo fallback, upload
      validation and upload cleanup

    A shallow embedding of the server side of the application
    ([server/routes/analyze.ts], [server/index.ts], [shared/api.ts]).

    Conventions of the embedding:
    - a JavaScript [number] is a rational ([Q]), and comparisons are the
      exact ones, a threshold being the decimal as it is written in the
      source. The arithmetic whose result is a score, an age or a
      figure on display (the demo scores, the age of an upload, the percent
      and the average of the client) is the binary64 one: [Num.add],
      [Num.sub], [Num.mul] and [Num.div] round the exact result to the
      nearest binary64 number, and [Num.lit] is the binary64 number that a
      decimal literal denotes. The fields that a demo response fills with
      further draws (the model breakdown, the kind-specific objects) are
      computed exactly;
    - string literals stay strings, object literals are association lists
      in source order ([JsVal]);
    - [Math.random()], [Date.now()], the outbound HTTP calls and thrown
      exceptions are threaded through a state-and-exception monad [M];
      [process.env], the vendor's answers and the file sizes on disk are
      parameters of the [Server] section;
    - [console.log] and the two-second [setTimeout] of the audio path are
      left out: they change no value that is returned. *)

From Stdlib Require Import QArith Qminmax Qround Qpower Lqa ZArith Lia Bool Ascii
  String.
From stdpp Require Import base option list gmap strings pretty.

Open Scope string_scope.
Open Scope list_scope.
Open Scope Z_scope.
Open Scope Q_scope.

(** ** Numbers *)

Module Num.

(** [x >= y], [x > y] and [x < y] on numbers, as booleans. *)
Definition geb (x y : Q) : bool := Qle_bool y x.
Definition gtb (x y : Q) : bool := negb (Qle_bool x y).
Definition ltb (x y : Q) : bool := negb (Qle_bool y x).

(** [x === 0], used for the truthiness of a number. *)
Definition is_zero (x : Q) : bool := Qeq_bool x 0.

Lemma geb_true x y : geb x y = true <-> y <= x.
Proof. unfold geb. apply Qle_bool_iff. Qed.

Lemma geb_false x y : geb x y = false <-> x < y.
Proof.
  unfold geb. split; intros H.
  - apply Qnot_le_lt. intros Hle. apply Qle_bool_iff in Hle. congruence.
  - destruct (Qle_bool y x) eqn:E; [|reflexivity].
    apply Qle_bool_iff in E. lra.
Qed.

Lemma gtb_true x y : gtb x y = true <-> y < x.
Proof.
  unfold gtb. rewrite negb_true_iff. apply (geb_false y x).
Qed.

Lemma gtb_false x y : gtb x y = false <-> x <= y.
Proof.
  unfold gtb. rewrite negb_false_iff. apply Qle_bool_iff.
Qed.

Lemma ltb_true x y : ltb x y = true <-> x < y.
Proof. apply (gtb_true y x). Qed.

Lemma ltb_false x y : ltb x y = false <-> y <= x.
Proof. apply (gtb_false y x). Qed.

(** *** Binary64 arithmetic

    The sum, the difference, the product and the quotient of two numbers
    are the exact ones rounded to the nearest binary64 number, and a
    decimal literal of the source denotes the binary64 number nearest to
    it. *)

(** The integer nearest to [x], the even one of the two when [x] lies
    half-way. *)
Definition rne (x : Q) : Z :=
  let f := Qfloor x in
  match Qcompare (x - inject_Z f) (1 # 2) with
  | Lt => f
  | Gt => (f + 1)%Z
  | Eq => if Z.even f then f else (f + 1)%Z
  end.

(** The integer [e] with [2^e <= x < 2^(e+1)], for a positive [x]. *)
Definition ilog2 (x : Q) : Z :=
  let k := (Z.log2 (Qnum x) - Z.log2 (Zpos (Qden x)))%Z in
  if Qle_bool (2 ^ k) x then k else (k - 1)%Z.

(** The distance between the binary64 numbers around a positive [x]: 52
    binary places below its leading digit, and [2^-1074] for a subnormal
    [x]. *)
Definition ulp (x : Q) : Q := 2 ^ (Z.max (ilog2 x) (-1022) - 52).

Definition round_pos (x : Q) : Q := inject_Z (rne (x / ulp x)) * ulp x.

(** The binary64 number nearest to [x], ties to even (IEEE 754
    round-to-nearest-even; no overflow to infinity: the magnitudes of the
    application stay far below [2^1024]). *)
Definition round64 (x : Q) : Q :=
  match Qcompare x 0 with
  | Eq => 0
  | Gt => Qred (round_pos x)
  | Lt => Qred (- round_pos (- x))
  end.


Lemma rne_bounds x : (Qfloor x <= rne x <= Qfloor x + 1)%Z.
Proof.
  unfold rne. cbv zeta.
  destruct (Qcompare (x - inject_Z (Qfloor x)) (1 # 2)); [| lia | lia].
  destruct (Z.even (Qfloor x)); lia.
Qed.

Lemma rne_comp x y : x == y -> rne x = rne y.
Proof.
  intros H. unfold rne. cbv zeta.
  rewrite (Qfloor_comp _ _ H).
  assert (Hc : Qcompare (x - inject_Z (Qfloor y)) (1 # 2)
               = Qcompare (y - inject_Z (Qfloor y)) (1 # 2)).
  { apply Qcompare_comp; [rewrite H |]; reflexivity. }
  rewrite Hc. reflexivity.
Qed.

Lemma rne_Z n : rne (inject_Z n) = n.
Proof.
  unfold rne. cbv zeta. rewrite Qfloor_Z.
  destruct (Qcompare_spec (inject_Z n - inject_Z n) (1 # 2)) as [H | H | H];
    [lra | reflexivity | lra].
Qed.

Lemma rne_le x y : x <= y -> (rne x <= rne y)%Z.
Proof.
  intros Hle.
  pose proof (Qfloor_resp_le _ _ Hle) as Hfloor.
  destruct (Z.eq_dec (Qfloor x) (Qfloor y)) as [Heq | Hne].
  - unfold rne. cbv zeta. rewrite Heq.
    destruct (Qcompare_spec (x - inject_Z (Qfloor y)) (1 # 2)) as [Hx | Hx | Hx];
      destruct (Qcompare_spec (y - inject_Z (Qfloor y)) (1 # 2)) as [Hy | Hy | Hy];
      try lia; try lra; destruct (Z.even (Qfloor y)); lia.
  - pose proof (rne_bounds x). pose proof (rne_bounds y). lia.
Qed.

Lemma pow2_pos e : 0 < 2 ^ e.
Proof. apply Qpower_0_lt. reflexivity. Qed.

Lemma pow2_plus a b : 2 ^ (a + b) == 2 ^ a * 2 ^ b.
Proof. apply Qpower_plus. discriminate. Qed.

Lemma pow2_le a b : (a <= b)%Z -> 2 ^ a <= 2 ^ b.
Proof. intros H. apply Qpower_le_compat_l; [exact H | discriminate]. Qed.

Lemma pow2_lt_inv a b : 2 ^ a < 2 ^ b -> (a < b)%Z.
Proof. intros H. apply (Qpower_lt_compat_l_inv 2); [exact H | reflexivity]. Qed.

Lemma pow2_Z a : (0 <= a)%Z -> inject_Z (2 ^ a) == 2 ^ a.
Proof. intros H. apply (Zpower_Qpower 2 a H). Qed.

Lemma ilog2_spec x : 0 < x -> 2 ^ ilog2 x <= x < 2 ^ (ilog2 x + 1).
Proof.
  intros Hx. unfold ilog2. cbv zeta.
  destruct x as [n d]. cbn [Qnum Qden].
  assert (Hn : (0 < n)%Z).
  { unfold Qlt in Hx. cbn in Hx. lia. }
  set (a := Z.log2 n). set (b := Z.log2 (Z.pos d)).
  destruct (Z.log2_spec n Hn) as [Ha1 Ha2]. fold a in Ha1, Ha2.
  destruct (Z.log2_spec (Z.pos d) eq_refl) as [Hb1 Hb2]. fold b in Hb1, Hb2.
  assert (Ha : (0 <= a)%Z) by apply Z.log2_nonneg.
  assert (Hb : (0 <= b)%Z) by apply Z.log2_nonneg.
  set (x := n # d) in *.
  assert (Hxd : x * inject_Z (Z.pos d) == inject_Z n).
  { unfold x, Qeq, Qmult, inject_Z. cbn. lia. }
  rewrite Zle_Qle in Ha1, Hb1. rewrite Zlt_Qlt in Ha2, Hb2.
  rewrite pow2_Z in Ha1, Hb1 by lia.
  unfold Z.succ in Ha2, Hb2.
  rewrite pow2_Z in Ha2, Hb2 by lia.
  set (N := inject_Z n) in *. set (D := inject_Z (Z.pos d)) in *.
  pose proof (pow2_pos a) as Hpa. pose proof (pow2_pos b) as Hpb.
  pose proof (pow2_pos (a - b)) as Hpk.
  pose proof (pow2_pos (a - b - 1)) as Hpk'.
  pose proof (pow2_pos (a - b + 1)) as Hpk''.
  assert (H1 : 2 ^ (a - b + 1) * 2 ^ b == 2 ^ (a + 1)).
  { rewrite <- pow2_plus. replace (a - b + 1 + b)%Z with (a + 1)%Z by lia.
    reflexivity. }
  assert (H2 : 2 ^ (a - b - 1) * 2 ^ (b + 1) == 2 ^ a).
  { rewrite <- pow2_plus. replace (a - b - 1 + (b + 1))%Z with a by lia.
    reflexivity. }
  assert (H3 : 2 ^ (a - b - 1 + 1) == 2 ^ (a - b)).
  { replace (a - b - 1 + 1)%Z with (a - b)%Z by lia. reflexivity. }
  assert (Hupper : x < 2 ^ (a - b + 1)).
  { apply Qnot_le_lt. intros Hge.
    assert (2 ^ (a - b + 1) * 2 ^ b <= x * D).
    { apply Qmult_le_compat_nonneg; split; lra. }
    lra. }
  assert (Hlower : 2 ^ (a - b - 1) <= x).
  { apply Qnot_lt_le. intros Hlt.
    assert (x * D < 2 ^ (a - b - 1) * D).
    { apply Qmult_lt_compat_r; lra. }
    assert (2 ^ (a - b - 1) * D <= 2 ^ (a - b - 1) * 2 ^ (b + 1)).
    { apply Qmult_le_compat_nonneg; split; lra. }
    lra. }
  destruct (Qle_bool (2 ^ (a - b)) x) eqn:E.
  - apply Qle_bool_iff in E. split; [exact E | exact Hupper].
  - split; [exact Hlower |]. rewrite H3.
    apply Qnot_le_lt. intros Hle. apply Qle_bool_iff in Hle. congruence.
Qed.

Lemma ilog2_unique x e : 2 ^ e <= x < 2 ^ (e + 1) -> ilog2 x = e.
Proof.
  intros [Hlow Hhigh].
  assert (Hx : 0 < x) by (pose proof (pow2_pos e); lra).
  destruct (ilog2_spec x Hx) as [Hlow' Hhigh'].
  assert (ilog2 x < e + 1)%Z by (apply pow2_lt_inv; lra).
  assert (e < ilog2 x + 1)%Z by (apply pow2_lt_inv; lra).
  lia.
Qed.

Lemma ilog2_le x y : 0 < x -> x <= y -> (ilog2 x <= ilog2 y)%Z.
Proof.
  intros Hx Hle.
  destruct (ilog2_spec x Hx) as [Hlow _].
  destruct (ilog2_spec y ltac:(lra)) as [_ Hhigh].
  assert (ilog2 x < ilog2 y + 1)%Z by (apply pow2_lt_inv; lra).
  lia.
Qed.

Lemma ilog2_comp x y : 0 < x -> x == y -> ilog2 x = ilog2 y.
Proof.
  intros Hx Heq. symmetry. apply ilog2_unique.
  rewrite <- Heq. apply ilog2_spec. exact Hx.
Qed.

Lemma ulp_pos x : 0 < ulp x.
Proof. apply pow2_pos. Qed.

Lemma round_pos_nonneg x : 0 < x -> 0 <= round_pos x.
Proof.
  intros Hx. unfold round_pos. pose proof (ulp_pos x) as Hu.
  apply Qmult_le_0_compat; [| lra].
  change 0 with (inject_Z 0). rewrite <- Zle_Qle.
  transitivity (Qfloor (x / ulp x)); [| apply rne_bounds].
  change 0%Z with (Qfloor (inject_Z 0)) at 1. apply Qfloor_resp_le.
  change (inject_Z 0) with 0. apply Qle_shift_div_l; lra.
Qed.

(** A number below [2^(E+1)] is rounded, with the spacing [2^(E-52)], to at
    most [2^(E+1)], and one from [2^E] on to at least [2^E]. *)
Lemma round_at_upper x E :
  x <= 2 ^ (E + 1) -> inject_Z (rne (x / 2 ^ (E - 52))) * 2 ^ (E - 52) <= 2 ^ (E + 1).
Proof.
  intros Hx. pose proof (pow2_pos (E - 52)) as Hu.
  assert (Hp : 2 ^ (E + 1) == inject_Z (2 ^ 53) * 2 ^ (E - 52)).
  { rewrite pow2_Z by lia. rewrite <- pow2_plus.
    replace (53 + (E - 52))%Z with (E + 1)%Z by lia. reflexivity. }
  rewrite Hp. apply Qmult_le_compat_r; [| lra].
  rewrite <- Zle_Qle. rewrite <- (rne_Z (2 ^ 53)). apply rne_le.
  apply Qle_shift_div_r; [exact Hu | lra].
Qed.

Lemma round_at_lower x E :
  2 ^ E <= x -> 2 ^ E <= inject_Z (rne (x / 2 ^ (E - 52))) * 2 ^ (E - 52).
Proof.
  intros Hx. pose proof (pow2_pos (E - 52)) as Hu.
  assert (Hp : 2 ^ E == inject_Z (2 ^ 52) * 2 ^ (E - 52)).
  { rewrite pow2_Z by lia. rewrite <- pow2_plus.
    replace (52 + (E - 52))%Z with E by lia. reflexivity. }
  rewrite Hp at 1. apply Qmult_le_compat_r; [| lra].
  rewrite <- Zle_Qle. rewrite <- (rne_Z (2 ^ 52)) at 1. apply rne_le.
  apply Qle_shift_div_l; [exact Hu | lra].
Qed.

Lemma round_pos_le x y : 0 < x -> x <= y -> round_pos x <= round_pos y.
Proof.
  intros Hx Hle.
  assert (Hy : 0 < y) by lra.
  pose proof (ilog2_le x y Hx Hle) as He.
  destruct (ilog2_spec x Hx) as [_ Hxhigh].
  destruct (ilog2_spec y Hy) as [Hylow _].
  unfold round_pos, ulp.
  set (ex := Z.max (ilog2 x) (-1022)). set (ey := Z.max (ilog2 y) (-1022)).
  destruct (Z.eq_dec ex ey) as [Heq | Hne].
  - rewrite Heq. pose proof (pow2_pos (ey - 52)) as Hu.
    apply Qmult_le_compat_r; [| lra].
    rewrite <- Zle_Qle. apply rne_le.
    apply Qmult_le_compat_r; [exact Hle |].
    apply Qlt_le_weak, Qinv_lt_0_compat. exact Hu.
  - assert (Hlt : (ex < ey)%Z) by (unfold ex, ey in *; lia).
    assert (Hey : ey = ilog2 y) by (unfold ex, ey in *; lia).
    apply Qle_trans with (2 ^ (ex + 1)).
    + apply round_at_upper.
      apply Qle_trans with (2 ^ (ilog2 x + 1)); [lra |].
      apply pow2_le. unfold ex. lia.
    + apply Qle_trans with (2 ^ ey); [apply pow2_le; lia |].
      apply round_at_lower. rewrite Hey. exact Hylow.
Qed.

Lemma round_pos_comp x y : 0 < x -> x == y -> round_pos x == round_pos y.
Proof.
  intros Hx Heq. unfold round_pos, ulp.
  rewrite (ilog2_comp x y Hx Heq).
  set (u := 2 ^ (Z.max (ilog2 y) (-1022) - 52)).
  rewrite (rne_comp (x / u) (y / u)); [reflexivity |].
  rewrite Heq. reflexivity.
Qed.

Lemma round64_pos x : 0 < x -> round64 x == round_pos x.
Proof.
  intros Hx. unfold round64.
  destruct (Qcompare_spec x 0) as [H | H | H]; [lra | lra | apply Qred_correct].
Qed.

Lemma round64_neg x : x < 0 -> round64 x == - round_pos (- x).
Proof.
  intros Hx. unfold round64.
  destruct (Qcompare_spec x 0) as [H | H | H]; [lra | apply Qred_correct | lra].
Qed.

Lemma round64_zero x : x == 0 -> round64 x = 0.
Proof.
  intros Hx. unfold round64.
  destruct (Qcompare_spec x 0) as [H | H | H]; [reflexivity | lra | lra].
Qed.

(** Rounding is monotone. *)
Lemma round64_le x y : x <= y -> round64 x <= round64 y.
Proof.
  intros Hle.
  destruct (Q_dec x 0) as [[Hx | Hx] | Hx];
    destruct (Q_dec y 0) as [[Hy | Hy] | Hy]; try lra.
  - rewrite (round64_neg x Hx), (round64_neg y Hy).
    apply Qopp_le_compat. apply round_pos_le; lra.
  - rewrite (round64_neg x Hx), (round64_pos y Hy).
    pose proof (round_pos_nonneg (- x) ltac:(lra)).
    pose proof (round_pos_nonneg y Hy). lra.
  - rewrite (round64_neg x Hx), (round64_zero y Hy).
    pose proof (round_pos_nonneg (- x) ltac:(lra)). lra.
  - rewrite (round64_pos x Hx), (round64_pos y Hy).
    apply round_pos_le; assumption.
  - rewrite (round64_zero x Hx), (round64_pos y Hy).
    apply round_pos_nonneg. exact Hy.
  - rewrite (round64_zero x Hx), (round64_zero y Hy). lra.
Qed.

(** Equal rationals are rounded to the same fraction. *)
Lemma round64_comp x y : x == y -> round64 x = round64 y.
Proof.
  intros Heq. unfold round64.
  rewrite (Qcompare_comp x y Heq 0 0 (Qeq_refl 0)).
  destruct (Qcompare_spec y 0) as [H | H | H]; [reflexivity | |].
  - apply Qred_complete. apply Qopp_comp.
    apply round_pos_comp; [lra | rewrite Heq; reflexivity].
  - apply Qred_complete. apply round_pos_comp; [lra | exact Heq].
Qed.

(** The integers up to [2^53] are binary64 numbers. *)
Lemma round64_Z n : (0 <= n <= 2 ^ 53)%Z -> round64 (inject_Z n) == inject_Z n.
Proof.
  intros [Hlow Hhigh].
  destruct (Z.eq_dec n 0%Z) as [-> | Hne]; [reflexivity |].
  assert (Hn : 0 < inject_Z n).
  { change 0 with (inject_Z 0). rewrite <- Zlt_Qlt. lia. }
  rewrite (round64_pos _ Hn). unfold round_pos, ulp.
  destruct (ilog2_spec _ Hn) as [He1 He2].
  set (e := ilog2 (inject_Z n)) in *.
  assert (He : (0 <= e <= 53)%Z).
  { split.
    - assert (0 < e + 1)%Z; [| lia]. apply pow2_lt_inv.
      apply Qle_lt_trans with (inject_Z n); [| exact He2].
      change (2 ^ 0) with (inject_Z 1). rewrite <- Zle_Qle. lia.
    - assert (e < 54)%Z; [| lia]. apply pow2_lt_inv.
      apply Qle_lt_trans with (inject_Z n); [exact He1 |].
      apply Qle_lt_trans with (inject_Z (2 ^ 53)); [rewrite <- Zle_Qle; lia |].
      rewrite pow2_Z by lia. apply Qpower_lt_compat_l; [lia | reflexivity]. }
  replace (Z.max e (-1022)) with e by lia.
  pose proof (pow2_pos (e - 52)) as Hu.
  destruct (Z.eq_dec e 53%Z) as [He53 | He53].
  - assert (Hn53 : n = (2 ^ 53)%Z).
    { rewrite He53 in He1. rewrite <- pow2_Z in He1 by lia.
      rewrite <- Zle_Qle in He1. lia. }
    rewrite He53, Hn53. vm_compute. reflexivity.
  - assert (Huv : 2 ^ (e - 52) * 2 ^ (52 - e) == 1).
    { rewrite <- pow2_plus. replace (e - 52 + (52 - e))%Z with 0%Z by lia.
      reflexivity. }
    set (u := 2 ^ (e - 52)) in *. set (v := 2 ^ (52 - e)) in *.
    assert (Hdiv : inject_Z n / u == inject_Z (n * 2 ^ (52 - e))).
    { rewrite inject_Z_mult. rewrite (pow2_Z (52 - e)) by lia. fold v.
      assert (Hx : inject_Z n * v == inject_Z n / u * (u * v)) by (field; lra).
      rewrite Hx.
      rewrite Huv. ring. }
    rewrite (rne_comp _ _ Hdiv), rne_Z.
    rewrite inject_Z_mult. rewrite (pow2_Z (52 - e)) by lia. fold v.
    assert (Hx : inject_Z n * v * u == inject_Z n * (u * v)) by ring.
    rewrite Hx, Huv. ring.
Qed.

(** A decimal literal of the source. *)
Definition lit (x : Q) : Q := round64 x.

(** [x + y], [x - y], [x * y] and [x / y] as the machine computes them;
    the source divides by numbers other than zero only. *)
Definition add (x y : Q) : Q := round64 (x + y).
Definition sub (x y : Q) : Q := round64 (x - y).
Definition mul (x y : Q) : Q := round64 (x * y).
Definition div (x y : Q) : Q := round64 (x / y).

(** [r * a + b] for a draw [r] of the unit interval and a positive scale
    [a]: between [b] and [a + b], both as the machine has them. *)
Lemma scaled_draw (a b r : Q) :
  0 <= a -> 0 <= r <= 1 ->
  round64 b <= add (mul r a) b <= round64 (round64 a + b).
Proof.
  intros Ha [Hlow Hhigh].
  assert (H0 : 0 <= mul r a).
  { change 0 with (round64 0). apply round64_le.
    apply Qmult_le_0_compat; assumption. }
  assert (H1 : mul r a <= round64 a).
  { apply round64_le. rewrite <- (Qmult_1_l a) at 2.
    apply Qmult_le_compat_r; assumption. }
  split; apply round64_le; lra.
Qed.

End Num.

Notation "x >=? y" := (Num.geb x y) (at level 70, no associativity) : Q_scope.
Notation "x >? y" := (Num.gtb x y) (at level 70, no associativity) : Q_scope.
Notation "x <? y" := (Num.ltb x y) (at level 70, no associativity) : Q_scope.

(** Case analysis on the boolean comparisons of a goal or a hypothesis,
    leaving the order facts in the context for [lra]. *)
Ltac num_cases :=
  repeat match goal with
  | |- context [Num.geb ?x ?y] =>
      let E := fresh "E" in
      destruct (Num.geb x y) eqn:E;
      [apply Num.geb_true in E | apply Num.geb_false in E]
  | |- context [Num.gtb ?x ?y] =>
      let E := fresh "E" in
      destruct (Num.gtb x y) eqn:E;
      [apply Num.gtb_true in E | apply Num.gtb_false in E]
  | |- context [Num.ltb ?x ?y] =>
      let E := fresh "E" in
      destruct (Num.ltb x y) eqn:E;
      [apply Num.ltb_true in E | apply Num.ltb_false in E]
  | H : context [Num.geb ?x ?y] |- _ =>
      let E := fresh "E" in
      destruct (Num.geb x y) eqn:E;
      [apply Num.geb_true in E | apply Num.geb_false in E]
  | H : context [Num.gtb ?x ?y] |- _ =>
      let E := fresh "E" in
      destruct (Num.gtb x y) eqn:E;
      [apply Num.gtb_true in E | apply Num.gtb_false in E]
  | H : context [Num.ltb ?x ?y] |- _ =>
      let E := fresh "E" in
      destruct (Num.ltb x y) eqn:E;
      [apply Num.ltb_true in E | apply Num.ltb_false in E]
  end.

(** ** Confidence buckets ([server/routes/analyze.ts], helper functions) *)

Definition getRiskLevel (confidence : Q) : string :=
  if confidence >=? 0.8 then "CRITICAL"
  else if confidence >=? 0.6 then "HIGH"
  else if confidence >=? 0.4 then "MEDIUM"
  else if confidence >=? 0.2 then "LOW"
  else "LOW".

Definition getConfidenceCategory (confidence : Q) : string :=
  if confidence >=? 0.9 then "VERY_HIGH"
  else if confidence >=? 0.7 then "HIGH"
  else if confidence >=? 0.5 then "MEDIUM"
  else if confidence >=? 0.3 then "LOW"
  else "VERY_LOW".

Definition generateRecommendations (confidence : Q) (riskLevel : string)
  : list string :=
  if confidence >=? 0.8 then
    [ "üö® CRITICAL: Very high probability of deepfake detected";
      "Exercise extreme caution - this media is likely manipulated";
      "Verify source and context immediately";
      "Consider additional verification methods";
      "Document findings for security purposes" ]
  else if confidence >=? 0.6 then
    [ "‚ö†Ô∏è HIGH: High probability of deepfake detected";
      "Approach with extreme caution";
      "Verify media source and authenticity thoroughly";
      "Look for additional verification clues";
      "Consider professional analysis if critical" ]
  else if confidence >=? 0.4 then
    [ "üîç MEDIUM: Moderate manipulation indicators detected";
      "Some suspicious patterns identified";
      "Verify source and check for metadata inconsistencies";
      "Compare with known authentic versions if available";
      "Proceed with caution" ]
  else if confidence >=? 0.2 then
    [ "‚úÖ LOW: Minimal manipulation indicators";
      "Media appears mostly authentic";
      "Continue to verify source and context";
      "Monitor for any new detection methods" ]
  else
    [ "‚úÖ VERY LOW: No significant manipulation detected";
      "Media appears authentic based on current analysis";
      "Continue to verify source and context";
      "Monitor for any new detection methods" ].

Definition generateLimitations (isDemo : bool) (confidence : Q)
  : list string :=
  (if isDemo then
     [ "Analysis performed in demo mode - results are simulated";
       "Real API credentials required for accurate detection";
       "Demo scores are randomly generated for demonstration purposes" ]
   else [])
  ++ (if confidence <? 0.3 then
        [ "Low confidence score may indicate unclear or ambiguous results";
          "Consider re-analyzing with different media or higher resolution";
          "Some manipulation techniques may evade current detection methods" ]
      else [])
  ++ [ "Analysis based on current AI model capabilities";
       "New manipulation techniques may not be detected";
       "Results should be considered alongside other verification methods";
       "Professional verification recommended for critical applications" ].

(** ** JavaScript values

    Objects keep their fields in source order; a later field of the same
    name replaces an earlier one ([Js.set]), as in an object literal with a
    spread. *)

#[local] Set Warnings "-register-all".

Inductive JsVal : Type :=
| JUndefined
| JNull
| JBool (b : bool)
| JNum (q : Q)
| JStr (s : string)
| JArr (items : list JsVal)
| JObj (fields : list (string * JsVal)).

Module Js.

Fixpoint assoc (k : string) (fs : list (string * JsVal)) : JsVal :=
  match fs with
  | [] => JUndefined
  | (k', v) :: rest => if String.eqb k k' then v else assoc k rest
  end.

(** [v?.k]: the field [k] of an object, [undefined] for everything else.
    The plain access [v.k] is used by the source only on objects it has
    just built, where the two coincide. *)
Definition get (v : JsVal) (k : string) : JsVal :=
  match v with
  | JObj fs => assoc k fs
  | _ => JUndefined
  end.

(** [v?.[i]] and [v?.length] on arrays. *)
Definition index (v : JsVal) (i : nat) : JsVal :=
  match v with
  | JArr items => nth i items JUndefined
  | _ => JUndefined
  end.

Definition length (v : JsVal) : JsVal :=
  match v with
  | JArr items => JNum (inject_Z (Z.of_nat (List.length items)))
  | JStr s => JNum (inject_Z (Z.of_nat (String.length s)))
  | _ => JUndefined
  end.

(** [k in v] for an own field. *)
Fixpoint has_key (k : string) (fs : list (string * JsVal)) : bool :=
  match fs with
  | [] => false
  | (k', _) :: rest => String.eqb k k' || has_key k rest
  end.

Definition has (v : JsVal) (k : string) : bool :=
  match v with
  | JObj fs => has_key k fs
  | _ => false
  end.

Fixpoint set (k : string) (v : JsVal) (fs : list (string * JsVal))
  : list (string * JsVal) :=
  match fs with
  | [] => [(k, v)]
  | (k', v') :: rest =>
      if String.eqb k k' then (k', v) :: rest else (k', v') :: set k v rest
  end.

(** [{ ...base, k1: v1, ..., kn: vn }] *)
Definition spread (base : JsVal) (extra : list (string * JsVal)) : JsVal :=
  JObj (fold_left (fun fs kv => set (fst kv) (snd kv) fs) extra
          match base with JObj fs => fs | _ => [] end).

Definition truthy (v : JsVal) : bool :=
  match v with
  | JUndefined | JNull => false
  | JBool b => b
  | JNum q => negb (Num.is_zero q)
  | JStr s => negb (String.eqb s "")
  | JArr _ | JObj _ => true
  end.

(** [a || b] and [a ?? b] *)
Definition or (a b : JsVal) : JsVal := if truthy a then a else b.

Definition coalesce (a b : JsVal) : JsVal :=
  match a with
  | JUndefined | JNull => b
  | _ => a
  end.

(** [v > q] against a number literal: numbers compare, [null] and the
    booleans convert to 0 and 1, and every other value converts to [NaN],
    for which the comparison is false (numeric strings are not parsed). *)
Definition gtb (v : JsVal) (q : Q) : bool :=
  match v with
  | JNum x => x >? q
  | JNull => 0 >? q
  | JBool true => 1 >? q
  | JBool false => 0 >? q
  | _ => false
  end.

(** [Object.keys(v)] *)
Definition keys (v : JsVal) : list string :=
  match v with
  | JObj fs => List.map fst fs
  | _ => []
  end.

Definition strings (l : list string) : JsVal := JArr (List.map JStr l).
Definition numbers (l : list Q) : JsVal := JArr (List.map JNum l).

End Js.

Notation "o ?. k" := (Js.get o k) (at level 19, left associativity).
Infix "|?" := Js.or (at level 51, left associativity).
Infix "??" := Js.coalesce (at level 51, left associativity).

(** ** The world of a request: random draws, clock, outbound calls, throw *)

(** What a thrown value can be: an [Error] with its message, or an axios
    error with the vendor's response when there was one. *)
Record AxiosResponse := mkAxiosResponse {
  ar_status : Z;
  ar_data : JsVal;
  ar_headers : JsVal
}.

Inductive Exn :=
| JsError (message : string)
| AxiosError (message : string) (response : option AxiosResponse).

Definition exn_message (e : Exn) : string :=
  match e with
  | JsError m => m
  | AxiosError m _ => m
  end.

Record World := mkWorld {
  rngCalls : nat;            (* how many times Math.random() was called *)
  clockCalls : nat;          (* how many times Date.now() was called *)
  outbound : list string     (* URLs of the HTTP requests sent, oldest first *)
}.

Definition world0 : World := mkWorld 0 0 [].

Inductive Outcome (A : Type) :=
| Returned (a : A)
| Thrown (e : Exn).
Arguments Returned {A} a.
Arguments Thrown {A} e.

Definition M (A : Type) : Type := World -> Outcome A * World.

Definition ret {A} (a : A) : M A := fun w => (Returned a, w).

Definition bind {A B} (m : M A) (f : A -> M B) : M B :=
  fun w =>
    match m w with
    | (Returned a, w') => f a w'
    | (Thrown e, w') => (Thrown e, w')
    end.

Definition throw {A} (e : Exn) : M A := fun w => (Thrown e, w).

(** [try { m } catch (error) { handler error }] *)
Definition try_catch {A} (m : M A) (handler : Exn -> M A) : M A :=
  fun w =>
    match m w with
    | (Returned a, w') => (Returned a, w')
    | (Thrown e, w') => handler e w'
    end.

Notation "x <- m ;; k" := (bind m (fun x => k))
  (at level 100, m at next level, right associativity).
Notation "m ;;; k" := (bind m (fun _ => k))
  (at level 100, right associativity).

Definition result {A} (r : Outcome A * World) : Outcome A := fst r.
Definition final {A} (r : Outcome A * World) : World := snd r.

(** ** Supported file types ([shared/api.ts]) *)

Definition includes (l : list string) (x : string) : bool :=
  existsb (String.eqb x) l.

Definition SUPPORTED_IMAGE_TYPES : list string :=
  ["image/jpeg"; "image/png"; "image/webp"].
Definition SUPPORTED_VIDEO_TYPES : list string :=
  ["video/mp4"; "video/webm"; "video/mov"].
Definition SUPPORTED_AUDIO_TYPES : list string :=
  ["audio/wav"; "audio/mp3"; "audio/m4a"; "audio/ogg"].

Definition ALL_SUPPORTED_TYPES : list string :=
  SUPPORTED_IMAGE_TYPES ++ SUPPORTED_VIDEO_TYPES ++ SUPPORTED_AUDIO_TYPES.

Definition getFileCategory (mimeType : string) : string :=
  if includes SUPPORTED_IMAGE_TYPES mimeType then "image"
  else if includes SUPPORTED_VIDEO_TYPES mimeType then "video"
  else if includes SUPPORTED_AUDIO_TYPES mimeType then "audio"
  else "unsupported".

(** ** The vendor's answer

    The body of a Sightengine answer. The fields the server computes with
    are given with their types (a score, where present, is a number);
    [sd_body] is the whole document, from which the pass-through fields
    are read. *)

Record SightengineData := mkSightengineData {
  sd_status : string;                    (* data.status *)
  sd_deepfake_prob : option Q;           (* data.deepfake?.prob *)
  sd_type_deepfake : option Q;           (* data.type?.deepfake *)
  sd_error_message : option string;      (* data.error?.message *)
  sd_frames : option (list (option Q));  (* data.data?.frames, when an array:
                                            frame?.type?.deepfake per frame *)
  sd_body : JsVal
}.

(** How a call to [axios.post] ends: it resolves with the body of a 2xx
    answer, or it rejects. *)
Inductive HttpOutcome :=
| Resolves (data : SightengineData)
| Rejects (error : Exn).

Definition SIGHTENGINE_CHECK : string :=
  "https://api.sightengine.com/1.0/check.json".
Definition SIGHTENGINE_VIDEO_CHECK : string :=
  "https://api.sightengine.com/1.0/video/check-sync.json".

(** [a || d] and [a ?? d] where [a] is an optional number or string. *)
Definition num_or (a : option Q) (d : Q) : Q :=
  match a with
  | Some q => if Num.is_zero q then d else q
  | None => d
  end.

Definition num_coalesce (a : option Q) (d : Q) : Q :=
  match a with
  | Some q => q
  | None => d
  end.

Definition str_or (a : option string) (d : string) : string :=
  match a with
  | Some s => if String.eqb s "" then d else s
  | None => d
  end.

(** [Math.max(...scores)] of a non-empty list, and the sum of a list. *)
Definition max_list (d : Q) (l : list Q) : Q :=
  match l with
  | [] => d
  | x :: rest => fold_left Qmax rest x
  end.

Definition sum_list (l : list Q) : Q := fold_left Qplus l 0.

Fixpoint mapM {A B} (f : A -> M B) (l : list A) : M (list B) :=
  match l with
  | [] => ret []
  | x :: rest => y <- f x ;; ys <- mapM f rest ;; ret (y :: ys)
  end.

Definition floor (x : Q) : Q := inject_Z (Qfloor x).

(** [req.file] as multer leaves it once the upload is stored, and the
    answer of a route: [res.status(code).json(body)]. *)
Record MulterFile := mkMulterFile {
  originalname : string;
  mimetype : string;
  size : Z;
  filename : string;
  path : string
}.

Record Response := mkResponse {
  statusCode : Z;
  body : JsVal
}.

Definition json (body : JsVal) : Response := mkResponse 200 body.

Section Server.

(** The values [Math.random()] and [Date.now()] return, call after call. *)
Variable random : nat -> Q.
Variable now : nat -> Z.
(** [process.env]. *)
Variable env : gmap string string.
(** The size of the file at a path ([fs.statSync(path).size]), if any. *)
Variable statSync : string -> option Z.
(** What the vendor answers to a POST to a URL. *)
Variable axios : string -> HttpOutcome.
(** [String(x)] for a number [x]. *)
Variable numberToString : Q -> string.

Definition Math_random : M Q :=
  fun w => (Returned (random (rngCalls w)),
            mkWorld (S (rngCalls w)) (clockCalls w) (outbound w)).

Definition Date_now : M Z :=
  fun w => (Returned (now (clockCalls w)),
            mkWorld (rngCalls w) (S (clockCalls w)) (outbound w)).

(** [await axios.post(url, form, ...)]: the request goes out, and the
    call returns the body or throws. *)
Definition axios_post (url : string) : M SightengineData :=
  fun w =>
    let w' := mkWorld (rngCalls w) (clockCalls w) (outbound w ++ [url]) in
    match axios url with
    | Resolves data => (Returned data, w')
    | Rejects error => (Thrown error, w')
    end.

Definition fs_statSync (path : string) : M Z :=
  match statSync path with
  | Some size => ret size
  | None =>
      throw (JsError ("ENOENT: no such file or directory, stat '"
                      +:+ path +:+ "'"))
  end.

(** [!!process.env[name]] *)
Definition configured (name : string) : bool :=
  match env !! name with
  | Some value => negb (String.eqb value "")
  | None => false
  end.

(** Conversion to a string, as in a template literal. *)
Fixpoint toString (v : JsVal) : string :=
  match v with
  | JUndefined => "undefined"
  | JNull => "null"
  | JBool true => "true"
  | JBool false => "false"
  | JNum q => numberToString q
  | JStr s => s
  | JArr items =>
      String.concat ","
        (List.map (fun x => match x with
                            | JUndefined | JNull => ""
                            | _ => toString x
                            end) items)
  | JObj _ => "[object Object]"
  end.

(** *** generateModelBreakdown *)

Definition generateModelBreakdown (confidence : Q) : M JsVal :=
  let isHighConfidence := confidence >? 0.7 in
  r <- Math_random ;;
  let genAI := Qmin (Qmax (confidence * 0.15 + r * 0.05) 0) 0.2 in
  r <- Math_random ;;
  let faceManipulation :=
    if isHighConfidence
    then Qmin (confidence + (r * 0.05 - 0.025)) 1
    else Qmax (confidence * 0.3 + (r * 0.05 - 0.025)) 0 in
  let generateDiffusionScores : M JsVal :=
    if confidence <? 0.3 then
      fields <- mapM (fun '(name, scale) =>
                        r <- Math_random ;; ret (name, JNum (r * scale)))
                  [ ("stableDiffusion", 0.08); ("dalle", 0.05);
                    ("midjourney", 0.06); ("firefly", 0.04);
                    ("flux", 0.05); ("imagen", 0.04);
                    ("ideogram", 0.03); ("other", 0.07);
                    ("wan", 0.02); ("reve", 0.03);
                    ("recraft", 0.04); ("qwen", 0.02);
                    ("gpt4o", 0.03) ] ;;
      ret (JObj fields)
    else
      let baseProb := confidence * 0.7 in
      let variation : M Q := r <- Math_random ;; ret (r * 0.15 - 0.075) in
      fields <- mapM (fun '(name, share) =>
                        v <- variation ;;
                        ret (name, JNum (Qmax 0 (Qmin 1 (baseProb * share + v)))))
                  [ ("stableDiffusion", 0.40); ("dalle", 0.28);
                    ("midjourney", 0.35); ("firefly", 0.18);
                    ("flux", 0.22); ("imagen", 0.20);
                    ("ideogram", 0.15); ("other", 0.12);
                    ("wan", 0.10); ("reve", 0.11);
                    ("recraft", 0.13); ("qwen", 0.09);
                    ("gpt4o", 0.16) ] ;;
      ret (JObj fields) in
  let generateGANScores : M JsVal :=
    let ganBase :=
      if isHighConfidence then confidence * 0.5 else confidence * 0.15 in
    r1 <- Math_random ;;
    r2 <- Math_random ;;
    ret (JObj
           [ ("styleGAN", JNum (Qmax 0 (Qmin 1 (ganBase + (r1 * 0.12 - 0.06)))));
             ("other", JNum (Qmax 0 (Qmin 1 (ganBase * 0.35 + (r2 * 0.10 - 0.05))))) ]) in
  diffusion <- generateDiffusionScores ;;
  gan <- generateGANScores ;;
  r <- Math_random ;;
  ret (JObj
         [ ("genAI", JNum genAI);
           ("faceManipulation", JNum faceManipulation);
           ("diffusion", diffusion);
           ("gan", gan);
           ("other", JObj
              [ ("faceManipulation",
                  JNum (if isHighConfidence
                        then Qmin (confidence + (r * 0.05 - 0.025)) 1
                        else Qmax (confidence * 0.3 + (r * 0.05 - 0.025)) 0));
                ("deepfakeSwap",
                  JNum (if isHighConfidence
                        then Qmin (confidence * 0.85) 1
                        else Qmax (confidence * 0.2) 0));
                ("expression",
                  JNum (if isHighConfidence
                        then Qmin (confidence * 0.65) 1
                        else Qmax (confidence * 0.15) 0)) ]) ]).

(** [errorMessage ? [errorMessage] : undefined] *)
Definition processingWarnings (errorMessage : option string) : JsVal :=
  match errorMessage with
  | Some m => if String.eqb m "" then JUndefined else Js.strings [m]
  | None => JUndefined
  end.

(** [isDemo ? Math.random() * scale : (fallback || 0)] *)
Definition demo_or (isDemo : bool) (scale : Q) (fallback : JsVal) : M JsVal :=
  if isDemo
  then r <- Math_random ;; ret (JNum (r * scale))
  else ret (fallback |? JNum 0).

Definition analysisQuality_of (isDemo : bool) : JsVal :=
  JStr (if isDemo then "DEMO" else "API").

Definition confidenceFactor (factor : string) (weight : Q)
    (description impact : string) : JsVal :=
  JObj [ ("factor", JStr factor); ("weight", JNum weight);
         ("description", JStr description); ("impact", JStr impact) ].

(** *** generateEnhancedImageResponse *)

Definition generateEnhancedImageResponse (confidence : Q) (isDemo : bool)
    (metadata rawApiData : JsVal) (errorMessage : option string) : M JsVal :=
  let riskLevel := getRiskLevel confidence in
  let confidenceCategory := getConfidenceCategory confidence in
  let recommendations := generateRecommendations confidence riskLevel in
  let limitations := generateLimitations isDemo confidence in
  let technicalAnalysis :=
    JObj [ ("resolution",
             JStr (toString (metadata?."width" |? JStr "unknown") +:+ "x"
                   +:+ toString (metadata?."height" |? JStr "unknown")));
           ("colorDepth", JNum 24);
           ("compressionType", metadata?."format" |? JStr "unknown");
           ("exifData", rawApiData?."media"?."exif" |? JNull) ] in
  faceDetection <-
    (if isDemo then
       r1 <- Math_random ;;
       r2 <- Math_random ;;
       ret (JObj [ ("facesDetected", JNum (floor (r1 * 3) + 1));
                   ("faceQuality", JNum (r2 * 0.5 + 0.5));
                   ("facialFeatures", Js.strings ["eyes"; "nose"; "mouth"]) ])
     else
       let faces := rawApiData?."faces" in
       ret (JObj [ ("facesDetected", Js.length faces |? JNum 0);
                   ("faceQuality",
                     (Js.index faces 0)?."quality" |? JNum 0.8);
                   ("facialFeatures",
                     (Js.index faces 0)?."features"
                     |? Js.strings ["eyes"; "nose"; "mouth"]) ])) ;;
  compressionArtifacts <-
    demo_or isDemo 0.3 (rawApiData?."compression_artifacts") ;;
  editingSigns <- demo_or isDemo 0.4 (rawApiData?."editing_signs") ;;
  metadataInconsistencies <-
    demo_or isDemo 0.2 (rawApiData?."metadata_inconsistencies") ;;
  let manipulationIndicators :=
    JObj [ ("compressionArtifacts", compressionArtifacts);
           ("editingSigns", editingSigns);
           ("metadataInconsistencies", metadataInconsistencies) ] in
  modelBreakdown <- generateModelBreakdown confidence ;;
  ret (JObj
    [ ("status", JStr "success");
      ("deepfake", JObj [ ("prob", JNum confidence);
                          ("deepfake_score", JNum confidence) ]);
      ("metadata", metadata);
      ("raw_response", rawApiData);
      ("detection_details", JObj [ ("face_deepfake", JNum confidence) ]);
      ("riskLevel", JStr riskLevel);
      ("confidenceCategory", JStr confidenceCategory);
      ("analysisQuality", analysisQuality_of isDemo);
      ("modelBreakdown", modelBreakdown);
      ("processingDetails", JObj
         [ ("apiProvider", JStr "Sightengine");
           ("modelsUsed", Js.strings ["deepfake"]);
           ("processingMethod", JStr "AI-powered visual analysis");
           ("qualityScore", JNum (if isDemo then 0.6 else 0.9));
           ("confidenceFactors", JArr
              [ confidenceFactor "Visual Consistency" 0.4
                  "Analysis of image artifacts and inconsistencies"
                  (if confidence >? 0.7 then "NEGATIVE" else "POSITIVE");
                confidenceFactor "Face Detection Quality" 0.3
                  "Quality and number of detected faces"
                  (if Js.gtb (faceDetection?."faceQuality") 0.7
                   then "POSITIVE" else "NEGATIVE");
                confidenceFactor "Technical Metadata" 0.3
                  "File format and compression analysis"
                  "NEUTRAL" ]);
           ("processingWarnings", processingWarnings errorMessage) ]);
      ("recommendations", Js.strings recommendations);
      ("limitations", Js.strings limitations);
      ("imageAnalysis", JObj [ ("faceDetection", faceDetection);
                               ("manipulationIndicators", manipulationIndicators);
                               ("technicalAnalysis", technicalAnalysis) ]) ]).

(** *** generateEnhancedVideoResponse *)

Definition generateEnhancedVideoResponse (confidence : Q) (isDemo : bool)
    (metadata rawApiData : JsVal) (errorMessage : option string) : M JsVal :=
  let riskLevel := getRiskLevel confidence in
  let confidenceCategory := getConfidenceCategory confidence in
  let recommendations := generateRecommendations confidence riskLevel in
  let limitations := generateLimitations isDemo confidence in
  let technicalAnalysis :=
    JObj [ ("resolution", metadata?."resolution" |? JStr "unknown");
           ("duration", metadata?."duration" |? JStr "unknown");
           ("fps", metadata?."fps" |? JStr "unknown");
           ("framesAnalyzed", metadata?."frames_analyzed" |? JNum 0);
           ("maxFrameScore", metadata?."max_frame_score" |? JNum 0) ] in
  frameAnalysis <-
    (if isDemo then
       r0 <- Math_random ;;
       frameScores <- mapM (fun _ : nat =>
                              r <- Math_random ;; ret (r * 0.8))
                        (seq 0 5) ;;
       r1 <- Math_random ;;
       r2 <- Math_random ;;
       ret (JObj [ ("totalFrames", JNum (floor (r0 * 30) + 10));
                   ("frameScores", Js.numbers frameScores);
                   ("maxScore", JNum (r1 * 0.8));
                   ("averageScore", JNum (r2 * 0.6)) ])
     else
       let frame_analysis :=
         rawApiData?."detection_details"?."frame_analysis" in
       let frame_scores := frame_analysis?."frame_scores" in
       ret (JObj [ ("totalFrames", frame_analysis?."total_frames" |? JNum 0);
                   ("frameScores", frame_scores |? JArr []);
                   ("maxScore", frame_analysis?."max_score" |? JNum 0);
                   ("averageScore",
                     match frame_scores with
                     | JArr (x :: rest) =>
                         JNum (sum_list
                                 (List.map (fun v => match v with
                                                     | JNum q => q
                                                     | _ => 0
                                                     end) (x :: rest))
                               / inject_Z (Z.of_nat (List.length (x :: rest))))
                     | _ => JNum 0
                     end) ])) ;;
  temporalInconsistencies <-
    demo_or isDemo 0.4 (rawApiData?."temporal_artifacts") ;;
  frameEditingSigns <- demo_or isDemo 0.3 (rawApiData?."frame_editing") ;;
  compressionArtifacts <-
    demo_or isDemo 0.3 (rawApiData?."compression_artifacts") ;;
  audioVideoSync <- demo_or isDemo 0.2 (rawApiData?."av_sync") ;;
  let manipulationIndicators :=
    JObj [ ("temporalInconsistencies", temporalInconsistencies);
           ("frameEditingSigns", frameEditingSigns);
           ("compressionArtifacts", compressionArtifacts);
           ("audioVideoSync", audioVideoSync) ] in
  modelBreakdown <- generateModelBreakdown confidence ;;
  ret (JObj
    [ ("status", JStr "success");
      ("deepfake", JObj [ ("prob", JNum confidence);
                          ("deepfake_score", JNum confidence) ]);
      ("metadata", metadata);
      ("raw_response", rawApiData);
      ("detection_details", JObj [ ("face_deepfake", JNum confidence);
                                   ("frame_analysis", frameAnalysis) ]);
      ("riskLevel", JStr riskLevel);
      ("confidenceCategory", JStr confidenceCategory);
      ("analysisQuality", analysisQuality_of isDemo);
      ("modelBreakdown", modelBreakdown);
      ("processingDetails", JObj
         [ ("apiProvider", JStr "Sightengine");
           ("modelsUsed", Js.strings ["deepfake"]);
           ("processingMethod", JStr "AI-powered video frame analysis");
           ("qualityScore", JNum (if isDemo then 0.6 else 0.9));
           ("confidenceFactors", JArr
              [ confidenceFactor "Frame Consistency" 0.4
                  "Analysis of temporal consistency across video frames"
                  (if confidence >? 0.7 then "NEGATIVE" else "POSITIVE");
                confidenceFactor "Frame Analysis Coverage" 0.3
                  "Number and quality of analyzed frames"
                  (if Js.gtb (frameAnalysis?."totalFrames") 20
                   then "POSITIVE" else "NEGATIVE");
                confidenceFactor "Temporal Artifacts" 0.3
                  "Detection of time-based manipulation indicators"
                  "NEUTRAL" ]);
           ("processingWarnings", processingWarnings errorMessage) ]);
      ("recommendations", Js.strings recommendations);
      ("limitations", Js.strings limitations);
      ("videoAnalysis", JObj [ ("frameAnalysis", frameAnalysis);
                               ("manipulationIndicators", manipulationIndicators);
                               ("technicalAnalysis", technicalAnalysis) ]) ]).

(** *** generateEnhancedAudioResponse *)

Definition generateEnhancedAudioResponse (confidence : Q)
    (isDeepfake isDemo : bool) (metadata rawApiData : JsVal)
    (errorMessage : option string) : M JsVal :=
  let riskLevel := getRiskLevel confidence in
  let confidenceCategory := getConfidenceCategory confidence in
  let recommendations := generateRecommendations confidence riskLevel in
  let limitations := generateLimitations isDemo confidence in
  audioAnalysis <-
    (if isDemo then
       r1 <- Math_random ;; r2 <- Math_random ;; r3 <- Math_random ;;
       r4 <- Math_random ;; r5 <- Math_random ;; r6 <- Math_random ;;
       r7 <- Math_random ;; r8 <- Math_random ;;
       ret (JObj
         [ ("voiceCharacteristics", JObj
              [ ("naturalness", JNum (r1 * 0.5 + 0.3));
                ("consistency", JNum (r2 * 0.4 + 0.4));
                ("backgroundNoise", JNum (r3 * 0.3)) ]);
           ("syntheticIndicators", JObj
              [ ("artificialPatterns", JNum (r4 * 0.6));
                ("frequencyAnomalies", JNum (r5 * 0.5));
                ("temporalInconsistencies", JNum (r6 * 0.4)) ]);
           ("qualityMetrics", JObj
              [ ("clarity", JNum (r7 * 0.5 + 0.4));
                ("stability", JNum (r8 * 0.6 + 0.3)) ]) ])
     else
       let voice := rawApiData?."voice_characteristics" in
       let synthetic := rawApiData?."synthetic_indicators" in
       let quality := rawApiData?."quality_metrics" in
       ret (JObj
         [ ("voiceCharacteristics", JObj
              [ ("naturalness", voice?."naturalness" |? JNum 0.7);
                ("consistency", voice?."consistency" |? JNum 0.8);
                ("backgroundNoise", voice?."background_noise" |? JNum 0.2) ]);
           ("syntheticIndicators", JObj
              [ ("artificialPatterns",
                  synthetic?."artificial_patterns" |? JNum 0.3);
                ("frequencyAnomalies",
                  synthetic?."frequency_anomalies" |? JNum 0.2);
                ("temporalInconsistencies",
                  synthetic?."temporal_inconsistencies" |? JNum 0.3) ]);
           ("qualityMetrics", JObj
              [ ("clarity", quality?."clarity" |? JNum 0.8);
                ("stability", quality?."stability" |? JNum 0.7) ]) ])) ;;
  ret (JObj
    [ ("status", JStr "success");
      ("is_synthetic", JBool isDeepfake);
      ("confidence", JNum confidence);
      ("metadata", metadata);
      ("raw_response", rawApiData);
      ("riskLevel", JStr riskLevel);
      ("confidenceCategory", JStr confidenceCategory);
      ("analysisQuality", analysisQuality_of isDemo);
      ("processingDetails", JObj
         [ ("apiProvider", JStr "Resemble AI");
           ("modelsUsed", Js.strings ["voice_synthesis_detection"]);
           ("processingMethod", JStr "AI-powered audio pattern analysis");
           ("qualityScore", JNum (if isDemo then 0.6 else 0.9));
           ("confidenceFactors", JArr
              [ confidenceFactor "Voice Naturalness" 0.4
                  "Analysis of voice characteristics and natural patterns"
                  (if Js.gtb (audioAnalysis?."voiceCharacteristics"?."naturalness") 0.7
                   then "POSITIVE" else "NEGATIVE");
                confidenceFactor "Synthetic Indicators" 0.4
                  "Detection of artificial voice synthesis patterns"
                  (if Js.gtb (audioAnalysis?."syntheticIndicators"?."artificialPatterns") 0.5
                   then "NEGATIVE" else "POSITIVE");
                confidenceFactor "Audio Quality" 0.2
                  "Overall audio clarity and stability metrics"
                  "NEUTRAL" ]);
           ("processingWarnings", processingWarnings errorMessage) ]);
      ("recommendations", Js.strings recommendations);
      ("limitations", Js.strings limitations);
      ("audioAnalysis", audioAnalysis) ]).

(** *** The three analyses *)

(** The demo score of the image path (credentials missing, or vendor call
    failed) and of the video path with credentials missing:
    [isLikelyDeepfake = Math.random() > 0.8], then
    [Math.random() * 0.3 + 0.7] or [Math.random() * 0.4 + 0.1], in binary64
    arithmetic. *)
Definition demoScore : M Q :=
  r <- Math_random ;;
  let isLikelyDeepfake := r >? Num.lit 0.8 in
  if isLikelyDeepfake
  then r' <- Math_random ;; ret (Num.add (Num.mul r' (Num.lit 0.3)) (Num.lit 0.7))
  else r' <- Math_random ;; ret (Num.add (Num.mul r' (Num.lit 0.4)) (Num.lit 0.1)).

(** The demo score in the [catch] of the video path. *)
Definition videoErrorDemoScore : M Q :=
  r <- Math_random ;;
  let isLikelyDeepfake := r >? Num.lit 0.8 in
  if isLikelyDeepfake
  then r' <- Math_random ;;
       ret (Num.add (Num.mul r' (Num.lit 0.25)) (Num.lit 0.05))
  else r' <- Math_random ;;
       ret (Num.add (Num.mul r' (Num.lit 0.35)) (Num.lit 0.65)).

Definition credentialsMissing : bool :=
  negb (configured "SIGHTENGINE_USER") || negb (configured "SIGHTENGINE_SECRET").

Definition demoImageMetadata : JsVal :=
  JObj [ ("width", JNum 1024); ("height", JNum 768); ("format", JStr "demo") ].

Definition demoVideoMetadata : JsVal :=
  JObj [ ("duration", JNum 15.6); ("fps", JNum 30);
         ("resolution", JStr "1920x1080") ].

Definition response_status (error : Exn) : option Z :=
  match error with
  | AxiosError _ (Some r) => Some (ar_status r)
  | _ => None
  end.

Definition analyzeImage (filePath : string) : M JsVal :=
  if credentialsMissing then
    confidence <- demoScore ;;
    generateEnhancedImageResponse confidence true demoImageMetadata JNull
      (Some "Sightengine API credentials not configured")
  else
    size <- fs_statSync filePath ;;
    if (size =? 0)%Z then throw (JsError "Uploaded file is empty")
    else if (size >? 10 * 1024 * 1024)%Z
    then throw (JsError "File size exceeds 10MB limit")
    else
      try_catch
        (data <- axios_post SIGHTENGINE_CHECK ;;
         if String.eqb (sd_status data) "success" then
           let deepfakeScore :=
             num_or (sd_deepfake_prob data) (num_or (sd_type_deepfake data) 0) in
           let media := (sd_body data)?."media" in
           generateEnhancedImageResponse deepfakeScore false
             (JObj [ ("width", media?."width" |? JStr "unknown");
                     ("height", media?."height" |? JStr "unknown");
                     ("format", media?."format" |? JStr "unknown") ])
             (sd_body data) None
         else
           throw (JsError (str_or (sd_error_message data)
                             "Sightengine API returned unsuccessful status")))
        (fun error =>
           (match error with
            | AxiosError _ (Some r) =>
                if (ar_status r =? 429)%Z then
                  let retryAfter := (ar_headers r)?."retry-after" |? JStr "60" in
                  throw (JsError ("API rate limit exceeded. Please wait "
                                  +:+ toString retryAfter
                                  +:+ " seconds before trying again."))
                else ret tt
            | _ => ret tt
            end) ;;;
           let errorDetails :=
             match error with
             | JsError _ => "API call failed"
             | AxiosError message response =>
                 let status := response_status error in
                 if bool_decide (status = Some 400%Z)
                 then "Bad request - check file format and size"
                 else if bool_decide (status = Some 401%Z)
                 then "Authentication failed - check API credentials"
                 else if bool_decide (status = Some 413%Z)
                 then "File too large - exceeds API limits"
                 else
                   "HTTP "
                   +:+ toString (match status with
                                 | Some s => JNum (inject_Z s)
                                 | None => JUndefined
                                 end)
                   +:+ ": "
                   +:+ toString (match response with
                                 | Some r => (ar_data r)?."error"
                                 | None => JUndefined
                                 end |? JStr message)
             end in
           confidence <- demoScore ;;
           generateEnhancedImageResponse confidence true demoImageMetadata
             JNull (Some errorDetails)).

Definition analyzeVideo (filePath : string) : M JsVal :=
  if credentialsMissing then
    confidence <- demoScore ;;
    generateEnhancedVideoResponse confidence true demoVideoMetadata JNull
      (Some "Sightengine API credentials not configured")
  else
    try_catch
      (data <- axios_post SIGHTENGINE_VIDEO_CHECK ;;
       if String.eqb (sd_status data) "success" then
         let frames := default [] (sd_frames data) in
         let frameDeepfakeScores :=
           List.filter (fun score => score >=? 0)
             (List.map (fun frame => num_coalesce frame 0) frames) in
         let maxFrameDeepfake := max_list 0 frameDeepfakeScores in
         let summaryDeepfake :=
           num_coalesce (sd_deepfake_prob data)
             (num_coalesce (sd_type_deepfake data) 0) in
         let finalDeepfakeScore := Qmax maxFrameDeepfake summaryDeepfake in
         let body := sd_body data in
         let media := body?."media" in
         let frames_length := JNum (inject_Z (Z.of_nat (List.length frames))) in
         generateEnhancedVideoResponse finalDeepfakeScore false
           (JObj
              [ ("duration",
                  media?."duration" ?? body?."duration" ?? JStr "unknown");
                ("fps", media?."fps" ?? body?."fps" ?? JStr "unknown");
                ("resolution",
                  JStr (toString (media?."width" ?? body?."width" ?? JStr "?")
                        +:+ "x"
                        +:+ toString (media?."height" ?? body?."height"
                                      ?? JStr "?")));
                ("frames_analyzed", frames_length);
                ("max_frame_score", JNum maxFrameDeepfake) ])
           (Js.spread body
              [ ("detection_details", JObj
                   [ ("face_deepfake", JNum finalDeepfakeScore);
                     ("frame_analysis", JObj
                        [ ("total_frames", frames_length);
                          ("frame_scores", Js.numbers frameDeepfakeScores);
                          ("max_score", JNum maxFrameDeepfake) ]) ]) ])
           None
       else
         throw (JsError (str_or (sd_error_message data)
                           "Sightengine Video API returned unsuccessful status")))
      (fun error =>
         confidence <- videoErrorDemoScore ;;
         generateEnhancedVideoResponse confidence true demoVideoMetadata
           JNull (Some (exn_message error))).

Definition analyzeAudio (filePath : string) : M JsVal :=
  r <- Math_random ;;
  let isSynthetic := r >? 0.5 in
  confidence <-
    (if isSynthetic
     then r' <- Math_random ;;
          ret (Num.add (Num.mul r' (Num.lit 0.25)) (Num.lit 0.7))
     else r' <- Math_random ;;
          ret (Num.add (Num.mul r' (Num.lit 0.2)) (Num.lit 0.75))) ;;
  generateEnhancedAudioResponse confidence isSynthetic true
    (JObj [ ("duration", JNum 8.5); ("sample_rate", JNum 44100);
            ("channels", JNum 2) ])
    JUndefined None.

(** *** handleAnalyze *)

(** The fields every branch of the [switch] copies from the vendor-side
    response and from [req.file]. *)
Definition fileMetadata (apiResponse : JsVal) (file : MulterFile) : JsVal :=
  Js.spread (apiResponse?."metadata")
    [ ("file_name", JStr (originalname file));
      ("saved_filename", JStr (filename file));
      ("file_size", JNum (inject_Z (size file)));
      ("file_type", JStr (mimetype file)) ].

Definition handleAnalyze (file : option MulterFile) : M Response :=
  try_catch
    (match file with
     | None =>
         ret (mkResponse 400
                (JObj [ ("success", JBool false);
                        ("error", JStr "No file uploaded") ]))
     | Some file =>
         let category := getFileCategory (mimetype file) in
         let filePath := path file in
         startTime <- Date_now ;;
         analysisResult <-
           (if String.eqb category "image" then
              apiResponse <- analyzeImage filePath ;;
              finished <- Date_now ;;
              ret (JObj
                [ ("type", JStr "image");
                  ("isDeepfake",
                    JBool (Js.gtb (apiResponse?."deepfake"?."prob") 0.7));
                  ("confidence", apiResponse?."deepfake"?."prob");
                  ("analysisTime", JNum (inject_Z (finished - startTime)));
                  ("sightengineData", apiResponse);
                  ("metadata", fileMetadata apiResponse file);
                  ("riskLevel", apiResponse?."riskLevel");
                  ("confidenceCategory", apiResponse?."confidenceCategory");
                  ("analysisQuality", apiResponse?."analysisQuality");
                  ("modelBreakdown", apiResponse?."modelBreakdown");
                  ("processingDetails", apiResponse?."processingDetails");
                  ("recommendations", apiResponse?."recommendations");
                  ("limitations", apiResponse?."limitations");
                  ("imageAnalysis", apiResponse?."imageAnalysis") ])
            else if String.eqb category "video" then
              apiResponse <- analyzeVideo filePath ;;
              finished <- Date_now ;;
              ret (JObj
                [ ("type", JStr "video");
                  ("isDeepfake",
                    JBool (Js.gtb (apiResponse?."deepfake"?."prob") 0.7));
                  ("confidence", apiResponse?."deepfake"?."prob");
                  ("analysisTime", JNum (inject_Z (finished - startTime)));
                  ("sightengineData", apiResponse);
                  ("metadata", fileMetadata apiResponse file);
                  ("riskLevel", apiResponse?."riskLevel");
                  ("confidenceCategory", apiResponse?."confidenceCategory");
                  ("analysisQuality", apiResponse?."analysisQuality");
                  ("modelBreakdown", apiResponse?."modelBreakdown");
                  ("processingDetails", apiResponse?."processingDetails");
                  ("recommendations", apiResponse?."recommendations");
                  ("limitations", apiResponse?."limitations");
                  ("videoAnalysis", apiResponse?."videoAnalysis") ])
            else if String.eqb category "audio" then
              apiResponse <- analyzeAudio filePath ;;
              finished <- Date_now ;;
              ret (JObj
                [ ("type", JStr "audio");
                  ("isDeepfake", apiResponse?."is_synthetic");
                  ("confidence", apiResponse?."confidence");
                  ("analysisTime", JNum (inject_Z (finished - startTime)));
                  ("resembleData", apiResponse);
                  ("metadata", fileMetadata apiResponse file);
                  ("riskLevel", apiResponse?."riskLevel");
                  ("confidenceCategory", apiResponse?."confidenceCategory");
                  ("analysisQuality", apiResponse?."analysisQuality");
                  ("processingDetails", apiResponse?."processingDetails");
                  ("recommendations", apiResponse?."recommendations");
                  ("limitations", apiResponse?."limitations");
                  ("audioAnalysis", apiResponse?."audioAnalysis") ])
            else throw (JsError "Unsupported file type")) ;;
         ret (json (JObj [ ("success", JBool true);
                           ("result", analysisResult) ]))
     end)
    (fun error =>
       ret (mkResponse 500
              (JObj [ ("success", JBool false);
                      ("error", JStr (exn_message error)) ]))).

End Server.

(** ** Upload validation (the multer configuration of
       [server/routes/analyze.ts]) *)

Definition lower (c : ascii) : ascii :=
  let n := nat_of_ascii c in
  if (65 <=? n)%nat && (n <=? 90)%nat then ascii_of_nat (n + 32) else c.

(** [s.toLowerCase()], on the ASCII letters. *)
Fixpoint toLowerCase (s : string) : string :=
  match s with
  | EmptyString => EmptyString
  | String c rest => String (lower c) (toLowerCase rest)
  end.

(** [s.includes(sub)] *)
Definition str_includes (s sub : string) : bool :=
  match String.index 0 sub s with
  | Some _ => true
  | None => false
  end.

(** The suffix of [s] that starts at its last dot, if it has a dot. *)
Fixpoint last_dot_suffix (s : string) : option string :=
  match s with
  | EmptyString => None
  | String c rest =>
      match last_dot_suffix rest with
      | Some t => Some t
      | None => if Ascii.eqb c "." then Some s else None
      end
  end.

(** [path.extname(name)] for a name without a path separator (the filter
    calls it after it has refused ['/'] and ['\']): from the last dot on,
    and empty when there is no dot, when the only dot comes first, and for
    [".."]. *)
Definition extname (name : string) : string :=
  match name with
  | String "." rest =>
      if String.eqb rest "." then ""
      else default "" (last_dot_suffix rest)
  | _ => default "" (last_dot_suffix name)
  end.

(** The file of a multipart request as the filter sees it. [part_size] is
    [file.size] at that moment (multer fills it in only after the file is
    stored, so it is normally [undefined]); [part_length] is the number of
    bytes the part really carries. *)
Record FilePart := mkFilePart {
  part_originalname : string;
  part_mimetype : string;
  part_size : option Z;
  part_length : Z
}.

(** What the filter passes to its callback: [cb(new Error(message))] or
    [cb(null, true)]. *)
Inductive FilterResult :=
| cb_error (message : string)
| cb_accept.

Definition suspiciousExtensions : list string :=
  [".exe"; ".bat"; ".cmd"; ".com"; ".pif"; ".scr"; ".vbs"; ".js"; ".jar"].

Definition fileFilter (file : option FilePart) : FilterResult :=
  match file with
  | None => cb_error "No file provided"
  | Some file =>
      if match part_size file with
         | Some s => (s >? 10 * 1024 * 1024)%Z
         | None => false
         end
      then cb_error "File size exceeds 10MB limit"
      else if match part_size file with
              | Some s => (s =? 0)%Z
              | None => false
              end
      then cb_error "File is empty"
      else
        let category := getFileCategory (part_mimetype file) in
        if String.eqb category "unsupported"
        then cb_error ("Unsupported file type: " +:+ part_mimetype file)
        else if String.eqb (part_originalname file) ""
                || (255 <? String.length (part_originalname file))%nat
        then cb_error "Invalid filename"
        else
          let filename := toLowerCase (part_originalname file) in
          if str_includes filename ".." || str_includes filename "/"
             || str_includes filename "\"
          then cb_error "Invalid filename - path traversal not allowed"
          else
            let fileExt := toLowerCase (extname filename) in
            if includes suspiciousExtensions fileExt
            then cb_error ("File type not allowed: " +:+ fileExt)
            else cb_accept
  end.

(** [limits.fileSize] *)
Definition limits_fileSize : Z := 10 * 1024 * 1024.

(** How [upload.single('file')] ends: it hands an error to the route's
    callback, or it leaves [req.file] (absent when the request carries no
    file). *)
Inductive UploadResult :=
| UploadError (message : string)
| Uploaded (file : option MulterFile).

Section Routes.

Variable random : nat -> Q.
Variable now : nat -> Z.
Variable env : gmap string string.
Variable statSync : string -> option Z.
Variable axios : string -> HttpOutcome.
Variable numberToString : Q -> string.
(** [process.cwd()] *)
Variable cwd : string.

(** [destination] of the disk storage. *)
Definition uploadsDir : string :=
  let isServerless :=
    bool_decide (env !! "VERCEL" = Some "1")
    || configured env "NOW_REGION" || configured env "SERVERLESS" in
  (if isServerless then "/tmp" else cwd) +:+ "/uploads".

(** [upload.single('file')], following multer: the filter is asked first;
    an accepted file is stored under the name the [filename] callback
    gives it ([timestamp-name.ext], the extension and the rest of the
    original name put together again), and a file longer than
    [limits.fileSize] makes the upload fail. *)
Definition upload_single (part : option FilePart) : M UploadResult :=
  match part with
  | None => ret (Uploaded None)
  | Some p =>
      match fileFilter (Some p) with
      | cb_error message => ret (UploadError message)
      | cb_accept =>
          timestamp <- Date_now now ;;
          let safeName :=
            numberToString (inject_Z timestamp) +:+ "-"
            +:+ part_originalname p in
          if (part_length p >? limits_fileSize)%Z
          then ret (UploadError "File too large")
          else
            ret (Uploaded
                   (Some (mkMulterFile (part_originalname p)
                            (part_mimetype p) (part_length p) safeName
                            (uploadsDir +:+ "/" +:+ safeName))))
      end
  end.

(** [app.post("/api/analyze", ...)] *)
Definition analyzeRoute (part : option FilePart) : M Response :=
  uploaded <- upload_single part ;;
  match uploaded with
  | UploadError message =>
      ret (mkResponse 400 (JObj [ ("success", JBool false);
                                  ("error", JStr message) ]))
  | Uploaded file =>
      handleAnalyze random now env statSync axios numberToString file
  end.

End Routes.

(** ** Cleanup of old uploads ([app.post("/api/cleanup-files")] of
       [server/index.ts])

    The uploads directory is a finite map from the names of its entries to
    what the handler can learn of them. *)

(** An entry of the directory: the modification time in milliseconds that
    [fs.statSync] reports, [None] when it throws (a dangling link), and
    whether [fs.unlinkSync] removes the entry or throws (as it does on a
    subdirectory, and on a file that may not be removed). *)
Record Entry := mkEntry {
  mtime : option Z;
  unlinks : bool
}.

(** A regular file that may be removed, as the disk storage writes them. *)
Definition regular (t : Z) : Entry := mkEntry (Some t) true.

(** What is at the path of the uploads directory: nothing; something that
    [fs.readdirSync] cannot list (a file, or a directory that may not be
    read); or a directory with its entries. *)
Inductive Uploads :=
| NoDirectory
| NotListable
| Directory (entries : gmap string Entry).

Section Cleanup.

Variable now : nat -> Z.

Record CleanupState := mkCleanupState {
  dir : gmap string Entry;   (* the directory as it is now *)
  clock : nat;               (* how many times Date.now() was called *)
  cleanedCount : nat
}.

(** [fs.readdirSync(uploadsDir)] *)
Definition readdirSync (d : gmap string Entry) : list string :=
  (map_to_list d).*1.

(** [(Date.now() - stats.mtime.getTime()) / (1000 * 60 * 60)], in binary64
    arithmetic. *)
Definition ageInHours (t mtime : Z) : Q :=
  Num.div (Num.sub (inject_Z t) (inject_Z mtime)) (1000 * 60 * 60).

(** One turn of the [for] loop; [None] when [fs.statSync] or
    [fs.unlinkSync] throws. *)
Definition cleanupStep (st : CleanupState) (file : string)
  : option CleanupState :=
  match dir st !! file with
  | None => None
  | Some entry =>
      match mtime entry with
      | None => None
      | Some modified =>
          if ageInHours (now (clock st)) modified >? 24
          then
            if unlinks entry
            then Some (mkCleanupState (delete file (dir st)) (S (clock st))
                         (S (cleanedCount st)))
            else None
          else Some (mkCleanupState (dir st) (S (clock st)) (cleanedCount st))
      end
  end.

(** The loop; the boolean tells whether it ran to its end ([true]) or an
    exception left it ([false]). What was deleted before stays deleted. *)
Fixpoint cleanupLoop (files : list string) (st : CleanupState)
  : CleanupState * bool :=
  match files with
  | [] => (st, true)
  | file :: rest =>
      match cleanupStep st file with
      | Some st' => cleanupLoop rest st'
      | None => (st, false)
      end
  end.

(** The handler: the answer, and the directory afterwards. *)
Definition cleanupFiles (uploads : Uploads) : Response * Uploads :=
  match uploads with
  | NoDirectory =>
      (json (JObj [ ("success", JBool true);
                    ("message", JStr "No uploads directory found") ]),
       NoDirectory)
  | NotListable =>
      (mkResponse 500 (JObj [ ("success", JBool false);
                              ("error", JStr "Cleanup failed") ]),
       NotListable)
  | Directory d =>
      let files := readdirSync d in
      match cleanupLoop files (mkCleanupState d 0 0) with
      | (st, true) =>
          (json (JObj
                   [ ("success", JBool true);
                     ("message",
                       JStr ("Cleaned up " +:+ pretty (cleanedCount st)
                             +:+ " old files"));
                     ("cleanedCount",
                       JNum (inject_Z (Z.of_nat (cleanedCount st)))) ]),
           Directory (dir st))
      | (st, false) =>
          (mkResponse 500 (JObj [ ("success", JBool false);
                                  ("error", JStr "Cleanup failed") ]),
           Directory (dir st))
      end
  end.

End Cleanup.

(** * Facts about the buckets *)



(** * Reasoning about runs

    [wp m Q E w]: run from the world [w], [m] returns a value and a world
    that satisfy [Q], or throws an exception and leaves a world that
    satisfy [E]. It is a total-correctness reading: every run of [M] ends. *)

Definition wp {A} (m : M A) (Q : A -> World -> Prop)
    (E : Exn -> World -> Prop) (w : World) : Prop :=
  match m w with
  | (Returned a, w') => Q a w'
  | (Thrown e, w') => E e w'
  end.

(** No exception leaves the computation. *)
Definition never {A} : A -> World -> Prop := fun _ _ => False.

Lemma wp_ret {A} (a : A) Q E w : Q a w -> wp (ret a) Q E w.
Proof. intros H. exact H. Qed.

Lemma wp_throw {A} (e : Exn) (Q : A -> World -> Prop) E w :
  E e w -> wp (throw e) Q E w.
Proof. intros H. exact H. Qed.

Lemma wp_bind {A B} (m : M A) (f : A -> M B) Q E w :
  wp m (fun a w' => wp (f a) Q E w') E w -> wp (bind m f) Q E w.
Proof.
  unfold wp, bind. destruct (m w) as [[a | e] w']; intros H; exact H.
Qed.

Lemma wp_try_catch {A} (m : M A) (handler : Exn -> M A) Q E w :
  wp m Q (fun e w' => wp (handler e) Q E w') w ->
  wp (try_catch m handler) Q E w.
Proof.
  unfold wp, try_catch. destruct (m w) as [[a | e] w']; intros H; exact H.
Qed.

Lemma wp_mono {A} (m : M A) (Q Q' : A -> World -> Prop)
    (E E' : Exn -> World -> Prop) w :
  wp m Q E w ->
  (forall a w', Q a w' -> Q' a w') ->
  (forall e w', E e w' -> E' e w') ->
  wp m Q' E' w.
Proof.
  unfold wp. destruct (m w) as [[a | e] w']; intros H HQ HE; auto.
Qed.

Lemma wp_returned {A} (m : M A) Q E w a w' :
  wp m Q E w -> m w = (Returned a, w') -> Q a w'.
Proof. unfold wp. intros H Hrun. rewrite Hrun in H. exact H. Qed.

Lemma wp_never_returns {A} (m : M A) Q w :
  wp m Q never w -> exists a w', m w = (Returned a, w') /\ Q a w'.
Proof.
  unfold wp. destruct (m w) as [[a | e] w']; intros H.
  - exists a, w'. split; [reflexivity | exact H].
  - destruct H.
Qed.

(** What a run may change: [frame w w'] says that from [w] to [w'] only
    random numbers were drawn; no request went out and the clock was not
    read. *)
Definition frame (w w' : World) : Prop :=
  outbound w' = outbound w /\ clockCalls w' = clockCalls w.

Lemma frame_refl w : frame w w.
Proof. split; reflexivity. Qed.

Lemma frame_trans w1 w2 w3 : frame w1 w2 -> frame w2 w3 -> frame w1 w3.
Proof. unfold frame. intros [-> ->] [-> ->]. split; reflexivity. Qed.

Create HintDb wp.
#[local] Hint Resolve frame_refl : wp.

Section Runs.

Variable random : nat -> Q.
Variable now : nat -> Z.
Variable env : gmap string string.
Variable statSync : string -> option Z.
Variable axios : string -> HttpOutcome.
Variable numberToString : Q -> string.

Lemma wp_Math_random (Q : Q -> World -> Prop) E w :
  Q (random (rngCalls w))
    (mkWorld (S (rngCalls w)) (clockCalls w) (outbound w)) ->
  wp (Math_random random) Q E w.
Proof. intros H. exact H. Qed.

(** [yields m P]: from every world, [m] returns a value that satisfies
    [P], throws nothing, and does no more than draw random numbers. *)
Definition yields {A} (m : M A) (P : A -> Prop) : Prop :=
  forall w, wp m (fun a w' => P a /\ frame w w') never w.

Definition any {A} : A -> Prop := fun _ => True.

Lemma yields_ret {A} (a : A) (P : A -> Prop) : P a -> yields (ret a) P.
Proof. intros H w. apply wp_ret. split; [exact H | apply frame_refl]. Qed.

Lemma yields_bind {A B} (m : M A) (f : A -> M B) (P : A -> Prop)
    (R : B -> Prop) :
  yields m P -> (forall a, P a -> yields (f a) R) -> yields (bind m f) R.
Proof.
  intros Hm Hf w. apply wp_bind.
  eapply wp_mono; [apply Hm | | intros ? ? Hnever; exact Hnever].
  intros a w1 [Pa F1]. cbv beta.
  eapply wp_mono; [apply (Hf a Pa) | | intros ? ? Hnever; exact Hnever].
  intros b w2 [Rb F2]. split; [exact Rb | eapply frame_trans; eassumption].
Qed.

Lemma yields_Math_random : yields (Math_random random) any.
Proof. intros w. apply wp_Math_random. repeat split. Qed.

Lemma yields_mapM {A B} (f : A -> M B) (l : list A) :
  (forall x, yields (f x) any) -> yields (mapM f l) any.
Proof.
  intros Hf. induction l as [| x rest IH].
  - apply yields_ret. exact I.
  - cbn [mapM]. eapply yields_bind; [apply Hf |]. intros y _.
    eapply yields_bind; [apply IH |]. intros ys _.
    apply yields_ret. exact I.
Qed.

Lemma yields_if {A} (b : bool) (m1 m2 : M A) (P : A -> Prop) :
  yields m1 P -> yields m2 P -> yields (if b then m1 else m2) P.
Proof. destruct b; auto. Qed.

Definition is_object (v : JsVal) : Prop := exists fields, v = JObj fields.

Lemma is_object_JObj fields : is_object (JObj fields).
Proof. exists fields. reflexivity. Qed.

#[local] Hint Resolve yields_Math_random is_object_JObj : wp.

(** One step through a computation built from draws. *)
Ltac yields_step :=
  lazymatch goal with
  | |- yields (bind (Math_random _) _) _ =>
      eapply yields_bind; [apply yields_Math_random | intros ? _]
  | |- yields (if _ then _ else _) _ => apply yields_if
  | |- yields (ret _) _ => apply yields_ret
  | |- yields (bind _ _) _ =>
      eapply yields_bind with (P := any);
      [solve [repeat yields_step; exact I] | intros ? _]
  end.

Lemma yields_demo_or isDemo scale fallback :
  yields (demo_or random isDemo scale fallback) any.
Proof. unfold demo_or. repeat yields_step; exact I. Qed.

Lemma generateModelBreakdown_yields confidence :
  yields (generateModelBreakdown random confidence) is_object.
Proof.
  unfold generateModelBreakdown. cbv zeta.
  do 2 yields_step.
  eapply yields_bind with (P := any).
  { apply yields_if.
    - eapply yields_bind; [| intros; apply yields_ret; exact I].
      apply yields_mapM. intros [name scale]. repeat yields_step. exact I.
    - eapply yields_bind; [| intros; apply yields_ret; exact I].
      apply yields_mapM. intros [name share]. repeat yields_step. exact I. }
  intros diffusion _.
  repeat yields_step. apply is_object_JObj.
Qed.

(** The fields the three vendor-side responses share. *)
Definition enhanced_fields (confidence : Q) (isDemo : bool)
    (metadata r : JsVal) : Prop :=
  r?."riskLevel" = JStr (getRiskLevel confidence) /\
  r?."confidenceCategory" = JStr (getConfidenceCategory confidence) /\
  r?."analysisQuality" = JStr (if isDemo then "DEMO" else "API") /\
  r?."recommendations"
    = Js.strings (generateRecommendations confidence (getRiskLevel confidence)) /\
  r?."limitations" = Js.strings (generateLimitations isDemo confidence) /\
  is_object (r?."processingDetails") /\
  r?."metadata" = metadata.

Definition image_response (confidence : Q) (isDemo : bool)
    (metadata r : JsVal) : Prop :=
  enhanced_fields confidence isDemo metadata r /\
  r?."deepfake"?."prob" = JNum confidence /\
  is_object (r?."modelBreakdown") /\
  is_object (r?."imageAnalysis") /\
  Js.keys (r?."imageAnalysis")
  = ["faceDetection"; "manipulationIndicators"; "technicalAnalysis"].

Definition video_response (confidence : Q) (isDemo : bool)
    (metadata r : JsVal) : Prop :=
  enhanced_fields confidence isDemo metadata r /\
  r?."deepfake"?."prob" = JNum confidence /\
  is_object (r?."modelBreakdown") /\
  is_object (r?."videoAnalysis") /\
  Js.keys (r?."videoAnalysis")
  = ["frameAnalysis"; "manipulationIndicators"; "technicalAnalysis"].

Definition audio_response (confidence : Q) (isDeepfake isDemo : bool)
    (metadata r : JsVal) : Prop :=
  enhanced_fields confidence isDemo metadata r /\
  r?."confidence" = JNum confidence /\
  r?."is_synthetic" = JBool isDeepfake /\
  is_object (r?."audioAnalysis") /\
  Js.keys (r?."audioAnalysis")
  = ["voiceCharacteristics"; "syntheticIndicators"; "qualityMetrics"].

Ltac response_fields :=
  unfold image_response, video_response, audio_response, enhanced_fields,
    analysisQuality_of;
  repeat split;
  first [ reflexivity | apply is_object_JObj | assumption ].

Lemma generateEnhancedImageResponse_yields confidence isDemo metadata raw err :
  yields (generateEnhancedImageResponse random numberToString confidence
            isDemo metadata raw err)
         (image_response confidence isDemo metadata).
Proof.
  unfold generateEnhancedImageResponse. cbv zeta.
  eapply yields_bind with (P := any).
  { apply yields_if; repeat yields_step; exact I. }
  intros faceDetection _.
  do 3 (eapply yields_bind; [apply yields_demo_or | intros ? _]).
  eapply yields_bind; [apply generateModelBreakdown_yields |].
  intros modelBreakdown Hobj.
  apply yields_ret. response_fields.
Qed.

Lemma generateEnhancedVideoResponse_yields confidence isDemo metadata raw err :
  yields (generateEnhancedVideoResponse random confidence isDemo metadata
            raw err)
         (video_response confidence isDemo metadata).
Proof.
  unfold generateEnhancedVideoResponse. cbv zeta.
  eapply yields_bind with (P := any).
  { apply yields_if.
    - yields_step.
      eapply yields_bind with (P := any).
      { apply yields_mapM. intros _. repeat yields_step. exact I. }
      intros frameScores _. repeat yields_step. exact I.
    - apply yields_ret. exact I. }
  intros frameAnalysis _.
  do 4 (eapply yields_bind; [apply yields_demo_or | intros ? _]).
  eapply yields_bind; [apply generateModelBreakdown_yields |].
  intros modelBreakdown Hobj.
  apply yields_ret. response_fields.
Qed.

Lemma generateEnhancedAudioResponse_yields confidence isDeepfake isDemo
    metadata raw err :
  yields (generateEnhancedAudioResponse random confidence isDeepfake isDemo
            metadata raw err)
         (audio_response confidence isDeepfake isDemo metadata).
Proof.
  unfold generateEnhancedAudioResponse. cbv zeta.
  eapply yields_bind
    with (P := fun v =>
                 Js.keys v
                 = ["voiceCharacteristics"; "syntheticIndicators"; "qualityMetrics"]).
  { apply yields_if; repeat yields_step; reflexivity. }
  intros audioAnalysis Hkeys.
  assert (Hobj : is_object audioAnalysis).
  { destruct audioAnalysis; try discriminate Hkeys. apply is_object_JObj. }
  apply yields_ret. response_fields.
Qed.

(** *** The demo scores as functions of the two draws they consume *)

Definition demoScoreOf (r1 r2 : Q) : Q :=
  if r1 >? Num.lit 0.8
  then Num.add (Num.mul r2 (Num.lit 0.3)) (Num.lit 0.7)
  else Num.add (Num.mul r2 (Num.lit 0.4)) (Num.lit 0.1).

Definition videoErrorDemoScoreOf (r1 r2 : Q) : Q :=
  if r1 >? Num.lit 0.8
  then Num.add (Num.mul r2 (Num.lit 0.25)) (Num.lit 0.05)
  else Num.add (Num.mul r2 (Num.lit 0.35)) (Num.lit 0.65).

Definition audioScoreOf (r1 r2 : Q) : Q :=
  if r1 >? 0.5
  then Num.add (Num.mul r2 (Num.lit 0.25)) (Num.lit 0.7)
  else Num.add (Num.mul r2 (Num.lit 0.2)) (Num.lit 0.75).

(** The first and the second draw made from a world on. *)
Definition draw1 (w : World) : Q := random (rngCalls w).
Definition draw2 (w : World) : Q := random (S (rngCalls w)).

Lemma demoScore_wp w :
  wp (demoScore random)
     (fun c w' => c = demoScoreOf (draw1 w) (draw2 w) /\ frame w w')
     never w.
Proof.
  unfold wp, demoScore, demoScoreOf, draw1, draw2, bind, Math_random, ret.
  cbn. destruct (random (rngCalls w) >? Num.lit 0.8); cbn; repeat split.
Qed.

Lemma videoErrorDemoScore_wp w :
  wp (videoErrorDemoScore random)
     (fun c w' => c = videoErrorDemoScoreOf (draw1 w) (draw2 w) /\ frame w w')
     never w.
Proof.
  unfold wp, videoErrorDemoScore, videoErrorDemoScoreOf, draw1, draw2, bind,
    Math_random, ret.
  cbn. destruct (random (rngCalls w) >? Num.lit 0.8); cbn; repeat split.
Qed.

(** *** The three analyses *)

(** The vendor answers the call to [url] with a body whose status is
    ["success"]. *)
Definition vendor_succeeds (url : string) : Prop :=
  exists data, axios url = Resolves data /\ sd_status data = "success".

(** From [w] to [w'] exactly the requests [urls] went out, and the clock
    was not read. *)
Definition sends (w w' : World) (urls : list string) : Prop :=
  outbound w' = outbound w ++ urls /\ clockCalls w' = clockCalls w.

Lemma frame_sends w w' : frame w w' -> sends w w' [].
Proof. intros [Ho Hc]. split; [rewrite app_nil_r; exact Ho | exact Hc]. Qed.

Lemma sends_frame w w1 w' urls : sends w w1 urls -> frame w1 w' -> sends w w' urls.
Proof. intros [Ho Hc] [Ho' Hc']. split; congruence. Qed.

Definition posted (w : World) (url : string) : World :=
  mkWorld (rngCalls w) (clockCalls w) (outbound w ++ [url]).

Lemma wp_axios_post url (Q : SightengineData -> World -> Prop) E w :
  (forall data, axios url = Resolves data -> Q data (posted w url)) ->
  (forall error, axios url = Rejects error -> E error (posted w url)) ->
  wp (axios_post axios url) Q E w.
Proof.
  intros HQ HE. unfold wp, axios_post.
  destruct (axios url) as [data | error]; [apply HQ | apply HE]; reflexivity.
Qed.

Lemma posted_sends w url : sends w (posted w url) [url].
Proof. split; reflexivity. Qed.

(** What the image analysis does, whatever the environment. *)
Lemma analyzeImage_wp filePath w :
  wp (analyzeImage random env statSync axios numberToString filePath)
     (fun r w' =>
        exists c isDemo metadata,
          image_response c isDemo metadata r /\
          (isDemo = true <->
             credentialsMissing env = true \/ ~ vendor_succeeds SIGHTENGINE_CHECK) /\
          (isDemo = true -> c = demoScoreOf (draw1 w) (draw2 w)) /\
          sends w w' (if credentialsMissing env then [] else [SIGHTENGINE_CHECK]))
     (fun e w' => credentialsMissing env = false /\ clockCalls w' = clockCalls w)
     w.
Proof.
  unfold analyzeImage. destruct (credentialsMissing env) eqn:Hmissing.
  - (* credentials missing *)
    apply wp_bind.
    eapply wp_mono; [apply demoScore_wp | | intros ? ? Hnever; destruct Hnever].
    intros c w1 [-> F1]. cbv beta.
    eapply wp_mono;
      [apply generateEnhancedImageResponse_yields | | intros ? ? Hnever; destruct Hnever].
    intros r w2 [Hr F2]. eexists; exists true; eexists.
    split; [exact Hr |]. split; [split; auto |]. split; [reflexivity |].
    apply frame_sends. eapply frame_trans; eassumption.
  - unfold fs_statSync. destruct (statSync filePath) as [size |].
    2: { apply wp_bind, wp_throw. split; reflexivity. }
    apply wp_bind, wp_ret.
    destruct (size =? 0)%Z; [apply wp_throw; split; reflexivity |].
    destruct (size >? 10 * 1024 * 1024)%Z; [apply wp_throw; split; reflexivity |].
    apply wp_try_catch, wp_bind, wp_axios_post.
    + (* the vendor answered *)
      intros data Hdata.
      destruct (String.eqb (sd_status data) "success") eqn:Hstatus.
      * apply String.eqb_eq in Hstatus.
        eapply wp_mono;
          [apply generateEnhancedImageResponse_yields | | intros ? ? Hnever; destruct Hnever].
        intros r w2 [Hr F2]. eexists; exists false; eexists.
        split; [exact Hr |]. split; [| split; [discriminate |]].
        -- split; [discriminate |]. intros [Habs | Hfails]; [discriminate |].
           exfalso. apply Hfails. exists data. split; assumption.
        -- eapply sends_frame; [apply posted_sends | exact F2].
      * apply String.eqb_neq in Hstatus.
        apply wp_throw, wp_bind, wp_ret, wp_bind.
        eapply wp_mono; [apply demoScore_wp | | intros ? ? Hnever; destruct Hnever].
        intros c w1 [-> F1]. cbv beta.
        eapply wp_mono;
          [apply generateEnhancedImageResponse_yields | | intros ? ? Hnever; destruct Hnever].
        intros r w2 [Hr F2]. eexists; exists true; eexists.
        split; [exact Hr |]. split; [| split; [reflexivity |]].
        -- split; [| reflexivity]. intros _. right. intros (d & Hd & Hs).
           rewrite Hdata in Hd. injection Hd as <-. contradiction.
        -- eapply sends_frame; [| exact F2].
           eapply sends_frame; [apply posted_sends | exact F1].
    + (* the call was rejected *)
      intros error Herror.
      assert (Hfails : ~ vendor_succeeds SIGHTENGINE_CHECK).
      { intros (d & Hd & _). rewrite Herror in Hd. discriminate. }
      assert (Hdemo : forall errorDetails,
        wp (confidence <- demoScore random;;
            generateEnhancedImageResponse random numberToString confidence
              true demoImageMetadata JNull (Some errorDetails))
           (fun r w' =>
              exists c isDemo metadata,
                image_response c isDemo metadata r /\
                (isDemo = true <-> false = true \/ ~ vendor_succeeds SIGHTENGINE_CHECK) /\
                (isDemo = true -> c = demoScoreOf (draw1 w) (draw2 w)) /\
                sends w w' [SIGHTENGINE_CHECK])
           (fun e w' => false = false /\ clockCalls w' = clockCalls w)
           (posted w SIGHTENGINE_CHECK)).
      { intros errorDetails. apply wp_bind.
        eapply wp_mono; [apply demoScore_wp | | intros ? ? Hnever; destruct Hnever].
        intros c w1 [-> F1]. cbv beta.
        eapply wp_mono;
          [apply generateEnhancedImageResponse_yields | | intros ? ? Hnever; destruct Hnever].
        intros r w2 [Hr F2]. eexists; exists true; eexists.
        split; [exact Hr |]. split; [| split; [reflexivity |]].
        - split; [intros _; right; exact Hfails | reflexivity].
        - eapply sends_frame; [| exact F2].
          eapply sends_frame; [apply posted_sends | exact F1]. }
      cbv beta. apply wp_bind.
      destruct error as [message | message [response |]].
      * apply wp_ret. apply Hdemo.
      * destruct (ar_status response =? 429)%Z.
        -- apply wp_throw. split; reflexivity.
        -- apply wp_ret. apply Hdemo.
      * apply wp_ret. apply Hdemo.
Qed.

(** What the video analysis does: it never throws. *)
Lemma analyzeVideo_wp filePath w :
  wp (analyzeVideo random env axios numberToString filePath)
     (fun r w' =>
        exists c isDemo metadata,
          video_response c isDemo metadata r /\
          (isDemo = true <->
             credentialsMissing env = true
             \/ ~ vendor_succeeds SIGHTENGINE_VIDEO_CHECK) /\
          (isDemo = true ->
             c = if credentialsMissing env
                 then demoScoreOf (draw1 w) (draw2 w)
                 else videoErrorDemoScoreOf (draw1 w) (draw2 w)) /\
          sends w w'
            (if credentialsMissing env then [] else [SIGHTENGINE_VIDEO_CHECK]))
     never w.
Proof.
  unfold analyzeVideo. destruct (credentialsMissing env) eqn:Hmissing.
  - apply wp_bind.
    eapply wp_mono; [apply demoScore_wp | | intros ? ? Hnever; destruct Hnever].
    intros c w1 [-> F1]. cbv beta.
    eapply wp_mono;
      [apply generateEnhancedVideoResponse_yields | | intros ? ? Hnever; destruct Hnever].
    intros r w2 [Hr F2]. eexists; exists true; eexists.
    split; [exact Hr |]. split; [split; auto |]. split; [reflexivity |].
    apply frame_sends. eapply frame_trans; eassumption.
  - assert (Hdemo : ~ vendor_succeeds SIGHTENGINE_VIDEO_CHECK ->
      forall message,
        wp (confidence <- videoErrorDemoScore random;;
            generateEnhancedVideoResponse random confidence true
              demoVideoMetadata JNull (Some message))
           (fun r w' =>
              exists c isDemo metadata,
                video_response c isDemo metadata r /\
                (isDemo = true <->
                   false = true \/ ~ vendor_succeeds SIGHTENGINE_VIDEO_CHECK) /\
                (isDemo = true -> c = videoErrorDemoScoreOf (draw1 w) (draw2 w)) /\
                sends w w' [SIGHTENGINE_VIDEO_CHECK])
           never (posted w SIGHTENGINE_VIDEO_CHECK)).
    { intros Hfails message. apply wp_bind.
      eapply wp_mono;
        [apply videoErrorDemoScore_wp | | intros ? ? Hnever; destruct Hnever].
      intros c w1 [-> F1]. cbv beta.
      eapply wp_mono;
        [apply generateEnhancedVideoResponse_yields | | intros ? ? Hnever; destruct Hnever].
      intros r w2 [Hr F2]. eexists; exists true; eexists.
      split; [exact Hr |]. split; [| split; [reflexivity |]].
      - split; [intros _; right; exact Hfails | reflexivity].
      - eapply sends_frame; [| exact F2].
        eapply sends_frame; [apply posted_sends | exact F1]. }
    apply wp_try_catch, wp_bind, wp_axios_post.
    + intros data Hdata.
      destruct (String.eqb (sd_status data) "success") eqn:Hstatus.
      * apply String.eqb_eq in Hstatus. cbv zeta.
        eapply wp_mono;
          [apply generateEnhancedVideoResponse_yields | | intros ? ? Hnever; destruct Hnever].
        intros r w2 [Hr F2]. eexists; exists false; eexists.
        split; [exact Hr |]. split; [| split; [discriminate |]].
        -- split; [discriminate |]. intros [Habs | Hfails]; [discriminate |].
           exfalso. apply Hfails. exists data. split; assumption.
        -- eapply sends_frame; [apply posted_sends | exact F2].
      * apply String.eqb_neq in Hstatus.
        apply wp_throw. apply Hdemo.
        intros (d & Hd & Hs). rewrite Hdata in Hd. injection Hd as <-.
        contradiction.
    + intros error Herror. cbv beta. apply Hdemo.
      intros (d & Hd & _). rewrite Herror in Hd. discriminate.
Qed.

(** What the audio analysis does: it never throws, and it sends nothing. *)
Lemma analyzeAudio_wp filePath w :
  wp (analyzeAudio random filePath)
     (fun r w' =>
        exists metadata,
          audio_response (audioScoreOf (draw1 w) (draw2 w))
            (draw1 w >? 0.5) true metadata r /\
          frame w w')
     never w.
Proof.
  unfold analyzeAudio. apply wp_bind, wp_Math_random. cbv zeta.
  apply wp_bind.
  assert (Hscore :
    wp (if random (rngCalls w) >? 0.5
        then r' <- Math_random random;;
             ret (Num.add (Num.mul r' (Num.lit 0.25)) (Num.lit 0.7))
        else r' <- Math_random random;;
             ret (Num.add (Num.mul r' (Num.lit 0.2)) (Num.lit 0.75)))
       (fun c w' =>
          c = audioScoreOf (draw1 w) (draw2 w) /\
          frame (mkWorld (S (rngCalls w)) (clockCalls w) (outbound w)) w')
       never (mkWorld (S (rngCalls w)) (clockCalls w) (outbound w))).
  { unfold audioScoreOf, draw1, draw2.
    destruct (random (rngCalls w) >? 0.5);
      apply wp_bind, wp_Math_random, wp_ret; repeat split. }
  eapply wp_mono; [exact Hscore | | intros ? ? Hnever; destruct Hnever].
  intros c w1 [-> F1]. cbv beta.
  eapply wp_mono;
    [apply generateEnhancedAudioResponse_yields | | intros ? ? Hnever; destruct Hnever].
  intros r w2 [Hr F2]. eexists. split; [exact Hr |].
  destruct F1 as [Ho1 Hc1], F2 as [Ho2 Hc2]. cbn in Ho1, Hc1.
  split; congruence.
Qed.

(** *** handleAnalyze *)

Lemma wp_Date_now (Q : Z -> World -> Prop) E w :
  Q (now (clockCalls w))
    (mkWorld (rngCalls w) (S (clockCalls w)) (outbound w)) ->
  wp (Date_now now) Q E w.
Proof. intros H. exact H. Qed.

Lemma get_is_object (r : JsVal) (k : string) (v : JsVal) :
  r?.k = v -> v <> JUndefined -> is_object r.
Proof.
  destruct r; cbn; intros <- Hv; try contradiction.
  apply is_object_JObj.
Qed.

(** The fields that tell the three kinds of result apart. *)
Definition kind_fields : list string :=
  ["sightengineData"; "resembleData";
   "imageAnalysis"; "videoAnalysis"; "audioAnalysis"].

(** [R] is the result object the handler builds for a file of the given
    kind: its discriminant, the fields of the base shape with their
    contents, and of the kind-specific fields exactly the two given. *)
Definition analysis_result (kind vendorField analysisField : string)
    (c : Q) (isDeepfake isDemo : bool) (R : JsVal) : Prop :=
  R?."type" = JStr kind /\
  R?."isDeepfake" = JBool isDeepfake /\
  R?."confidence" = JNum c /\
  (exists t, R?."analysisTime" = JNum (inject_Z t)) /\
  R?."riskLevel" = JStr (getRiskLevel c) /\
  R?."confidenceCategory" = JStr (getConfidenceCategory c) /\
  R?."analysisQuality" = JStr (if isDemo then "DEMO" else "API") /\
  is_object (R?."processingDetails") /\
  R?."recommendations"
    = Js.strings (generateRecommendations c (getRiskLevel c)) /\
  R?."limitations" = Js.strings (generateLimitations isDemo c) /\
  is_object (R?.vendorField) /\
  is_object (R?.analysisField) /\
  List.filter (Js.has R) kind_fields = [vendorField; analysisField].

Definition success_body (R : JsVal) : JsVal :=
  JObj [ ("success", JBool true); ("result", R) ].

Definition failure_body (message : string) : JsVal :=
  JObj [ ("success", JBool false); ("error", JStr message) ].

Lemma handleAnalyze_image file w :
  getFileCategory (mimetype file) = "image" ->
  wp (handleAnalyze random now env statSync axios numberToString (Some file))
     (fun res w' =>
        (exists R c isDemo,
           res = json (success_body R) /\
           analysis_result "image" "sightengineData" "imageAnalysis"
             c (c >? 0.7) isDemo R /\
           (isDemo = true <->
              credentialsMissing env = true
              \/ ~ vendor_succeeds SIGHTENGINE_CHECK) /\
           (isDemo = true -> c = demoScoreOf (draw1 w) (draw2 w)) /\
           outbound w'
           = outbound w
             ++ (if credentialsMissing env then [] else [SIGHTENGINE_CHECK]) /\
           Js.keys (R?."imageAnalysis")
           = ["faceDetection"; "manipulationIndicators"; "technicalAnalysis"])
        \/ (exists message,
              res = mkResponse 500 (failure_body message) /\
              credentialsMissing env = false))
     never w.
Proof.
  intros Hcategory. unfold handleAnalyze. rewrite Hcategory.
  rewrite String.eqb_refl.
  apply wp_try_catch, wp_bind, wp_Date_now, wp_bind, wp_bind.
  eapply wp_mono; [apply analyzeImage_wp | |].
  - intros r w1 (c & isDemo & metadata & Hr & Hiff & Hscore & Hsends & Hclock).
    cbv beta. apply wp_bind, wp_Date_now, wp_ret, wp_ret.
    destruct Hr as ((Hrisk & Hcat & Hquality & Hrecs & Hlims & Hdetails & _)
                    & Hprob & _ & Hanalysis & Hkeys).
    left. eexists; exists c, isDemo.
    split; [reflexivity |]. split; [| split; [exact Hiff |]; split; [exact Hscore |]].
    + assert (Hobj : is_object r).
      { apply (get_is_object r "riskLevel" _ Hrisk). discriminate. }
      destruct Hobj as [fields ->].
      unfold analysis_result. repeat split.
      * change (JBool (Js.gtb ((JObj fields)?."deepfake"?."prob") 0.7)
                = JBool (c >? 0.7)).
        rewrite Hprob. reflexivity.
      * exact Hprob.
      * eexists. reflexivity.
      * exact Hrisk.
      * exact Hcat.
      * exact Hquality.
      * exact Hdetails.
      * exact Hrecs.
      * exact Hlims.
      * apply is_object_JObj.
      * exact Hanalysis.
    + split; [exact Hsends | exact Hkeys].
  - intros e w1 [Hmissing _]. cbv beta. apply wp_ret. right.
    exists (exn_message e). split; [reflexivity | exact Hmissing].
Qed.

Lemma handleAnalyze_video file w :
  getFileCategory (mimetype file) = "video" ->
  wp (handleAnalyze random now env statSync axios numberToString (Some file))
     (fun res w' =>
        exists R c isDemo,
          res = json (success_body R) /\
          analysis_result "video" "sightengineData" "videoAnalysis"
            c (c >? 0.7) isDemo R /\
          (isDemo = true <->
             credentialsMissing env = true
             \/ ~ vendor_succeeds SIGHTENGINE_VIDEO_CHECK) /\
          (isDemo = true ->
             c = if credentialsMissing env
                 then demoScoreOf (draw1 w) (draw2 w)
                 else videoErrorDemoScoreOf (draw1 w) (draw2 w)) /\
          outbound w'
          = outbound w
            ++ (if credentialsMissing env then [] else [SIGHTENGINE_VIDEO_CHECK]) /\
          Js.keys (R?."videoAnalysis")
          = ["frameAnalysis"; "manipulationIndicators"; "technicalAnalysis"])
     never w.
Proof.
  intros Hcategory. unfold handleAnalyze. rewrite Hcategory.
  change (String.eqb "video" "image") with false.
  rewrite String.eqb_refl. cbv iota.
  apply wp_try_catch, wp_bind, wp_Date_now, wp_bind, wp_bind.
  eapply wp_mono; [apply analyzeVideo_wp | | intros ? ? Hnever; destruct Hnever].
  intros r w1 (c & isDemo & metadata & Hr & Hiff & Hscore & Hsends & Hclock).
  cbv beta. apply wp_bind, wp_Date_now, wp_ret, wp_ret.
  destruct Hr as ((Hrisk & Hcat & Hquality & Hrecs & Hlims & Hdetails & _)
                  & Hprob & _ & Hanalysis & Hkeys).
  eexists; exists c, isDemo.
  split; [reflexivity |]. split; [| split; [exact Hiff |]; split; [exact Hscore |]].
  - assert (Hobj : is_object r).
    { apply (get_is_object r "riskLevel" _ Hrisk). discriminate. }
    destruct Hobj as [fields ->].
    unfold analysis_result. repeat split.
    + change (JBool (Js.gtb ((JObj fields)?."deepfake"?."prob") 0.7)
              = JBool (c >? 0.7)).
      rewrite Hprob. reflexivity.
    + exact Hprob.
    + eexists. reflexivity.
    + exact Hrisk.
    + exact Hcat.
    + exact Hquality.
    + exact Hdetails.
    + exact Hrecs.
    + exact Hlims.
    + apply is_object_JObj.
    + exact Hanalysis.
  - split; [exact Hsends | exact Hkeys].
Qed.

Lemma handleAnalyze_audio file w :
  getFileCategory (mimetype file) = "audio" ->
  wp (handleAnalyze random now env statSync axios numberToString (Some file))
     (fun res w' =>
        exists R,
          res = json (success_body R) /\
          analysis_result "audio" "resembleData" "audioAnalysis"
            (audioScoreOf (draw1 w) (draw2 w)) (draw1 w >? 0.5) true R /\
          R?."resembleData"?."is_synthetic" = R?."isDeepfake" /\
          outbound w' = outbound w /\
          Js.keys (R?."audioAnalysis")
          = ["voiceCharacteristics"; "syntheticIndicators"; "qualityMetrics"])
     never w.
Proof.
  intros Hcategory. unfold handleAnalyze. rewrite Hcategory.
  change (String.eqb "audio" "image") with false.
  change (String.eqb "audio" "video") with false.
  rewrite String.eqb_refl. cbv iota.
  apply wp_try_catch, wp_bind, wp_Date_now, wp_bind, wp_bind.
  eapply wp_mono; [apply analyzeAudio_wp | | intros ? ? Hnever; destruct Hnever].
  intros r w1 (metadata & Hr & Hout & Hclock).
  cbv beta. apply wp_bind, wp_Date_now, wp_ret, wp_ret.
  destruct Hr as ((Hrisk & Hcat & Hquality & Hrecs & Hlims & Hdetails & _)
                  & Hconfidence & Hsynthetic & Hanalysis & Hkeys).
  eexists. split; [reflexivity |].
  split; [| split; [reflexivity | split; [exact Hout | exact Hkeys]]].
  assert (Hobj : is_object r).
  { apply (get_is_object r "riskLevel" _ Hrisk). discriminate. }
  destruct Hobj as [fields ->].
  unfold analysis_result. repeat split.
  - exact Hsynthetic.
  - exact Hconfidence.
  - eexists. reflexivity.
  - exact Hrisk.
  - exact Hcat.
  - exact Hquality.
  - exact Hdetails.
  - exact Hrecs.
  - exact Hlims.
  - apply is_object_JObj.
  - exact Hanalysis.
Qed.

(** Every other request is answered with [success: false]. *)
Lemma handleAnalyze_other file w :
  match file with
  | None => True
  | Some f => getFileCategory (mimetype f) = "unsupported"
  end ->
  wp (handleAnalyze random now env statSync axios numberToString file)
     (fun res w' =>
        exists message,
          body res = failure_body message /\
          (statusCode res = 400 \/ statusCode res = 500)%Z /\
          outbound w' = outbound w)
     never w.
Proof.
  intros Hfile. unfold handleAnalyze. apply wp_try_catch.
  destruct file as [f |].
  - rewrite Hfile.
    change (String.eqb "unsupported" "image") with false.
    change (String.eqb "unsupported" "video") with false.
    change (String.eqb "unsupported" "audio") with false.
    cbv iota.
    apply wp_bind, wp_Date_now, wp_bind, wp_throw, wp_ret.
    eexists. repeat split. right. reflexivity.
  - apply wp_ret. eexists. repeat split. left. reflexivity.
Qed.

(** The four categories, and nothing else. *)
Lemma getFileCategory_cases (mimeType : string) :
  getFileCategory mimeType = "image" \/ getFileCategory mimeType = "video" \/
  getFileCategory mimeType = "audio" \/ getFileCategory mimeType = "unsupported".
Proof.
  unfold getFileCategory.
  destruct (includes SUPPORTED_IMAGE_TYPES mimeType); [auto |].
  destruct (includes SUPPORTED_VIDEO_TYPES mimeType); [auto |].
  destruct (includes SUPPORTED_AUDIO_TYPES mimeType); auto.
Qed.

(** What a successful answer says about its result, kind by kind. *)
Definition image_outcome (w w' : World) (R : JsVal) : Prop :=
  exists c isDemo,
    analysis_result "image" "sightengineData" "imageAnalysis"
      c (c >? 0.7) isDemo R /\
    (isDemo = true <->
       credentialsMissing env = true \/ ~ vendor_succeeds SIGHTENGINE_CHECK) /\
    (isDemo = true -> c = demoScoreOf (draw1 w) (draw2 w)) /\
    outbound w'
    = outbound w ++ (if credentialsMissing env then [] else [SIGHTENGINE_CHECK]) /\
    Js.keys (R?."imageAnalysis")
    = ["faceDetection"; "manipulationIndicators"; "technicalAnalysis"].

Definition video_outcome (w w' : World) (R : JsVal) : Prop :=
  exists c isDemo,
    analysis_result "video" "sightengineData" "videoAnalysis"
      c (c >? 0.7) isDemo R /\
    (isDemo = true <->
       credentialsMissing env = true
       \/ ~ vendor_succeeds SIGHTENGINE_VIDEO_CHECK) /\
    (isDemo = true ->
       c = if credentialsMissing env
           then demoScoreOf (draw1 w) (draw2 w)
           else videoErrorDemoScoreOf (draw1 w) (draw2 w)) /\
    outbound w'
    = outbound w
      ++ (if credentialsMissing env then [] else [SIGHTENGINE_VIDEO_CHECK]) /\
    Js.keys (R?."videoAnalysis")
    = ["frameAnalysis"; "manipulationIndicators"; "technicalAnalysis"].

Definition audio_outcome (w w' : World) (R : JsVal) : Prop :=
  analysis_result "audio" "resembleData" "audioAnalysis"
    (audioScoreOf (draw1 w) (draw2 w)) (draw1 w >? 0.5) true R /\
  R?."resembleData"?."is_synthetic" = R?."isDeepfake" /\
  outbound w' = outbound w /\
  Js.keys (R?."audioAnalysis")
  = ["voiceCharacteristics"; "syntheticIndicators"; "qualityMetrics"].

(** X2: the handler always answers: whatever the request, the environment
    and the vendor do, it returns a response and lets no exception out. *)
Lemma handleAnalyze_returns file w :
  exists res w',
    handleAnalyze random now env statSync axios numberToString file w
    = (Returned res, w').
Proof.
  unfold handleAnalyze, try_catch.
  match goal with
  | |- context [match ?m w with _ => _ end] =>
      destruct (m w) as [[res | e] w1]
  end; eauto.
Qed.

(** An answer says [success: true], or it is an error envelope. *)
Lemma handleAnalyze_answers file w res w' :
  handleAnalyze random now env statSync axios numberToString file w
  = (Returned res, w') ->
  (body res)?."success" = JBool true
  \/ exists message, body res = failure_body message.
Proof.
  intros Hrun.
  assert (Hother :
    match file with
    | None => True
    | Some f => getFileCategory (mimetype f) = "unsupported"
    end -> exists message, body res = failure_body message).
  { intros Hfile.
    destruct (wp_returned _ _ _ _ _ _ (handleAnalyze_other file w Hfile) Hrun)
      as (message & Hbody & _).
    exists message. exact Hbody. }
  destruct file as [f |]; [| right; apply Hother; exact I].
  destruct (getFileCategory_cases (mimetype f)) as [Hc | [Hc | [Hc | Hc]]].
  - destruct (wp_returned _ _ _ _ _ _ (handleAnalyze_image f w Hc) Hrun)
      as [(R & _ & _ & -> & _) | (message & -> & _)].
    + left. reflexivity.
    + right. exists message. reflexivity.
  - destruct (wp_returned _ _ _ _ _ _ (handleAnalyze_video f w Hc) Hrun)
      as (R & _ & _ & -> & _).
    left. reflexivity.
  - destruct (wp_returned _ _ _ _ _ _ (handleAnalyze_audio f w Hc) Hrun)
      as (R & -> & _).
    left. reflexivity.
  - right. apply Hother. exact Hc.
Qed.

(** A successful answer comes from a file of one of the three supported
    kinds, and carries the result of that kind. *)
Lemma handleAnalyze_success file w res w' :
  handleAnalyze random now env statSync axios numberToString file w
  = (Returned res, w') ->
  (body res)?."success" = JBool true ->
  exists f R,
    file = Some f /\ res = json (success_body R) /\
    ((getFileCategory (mimetype f) = "image" /\ image_outcome w w' R) \/
     (getFileCategory (mimetype f) = "video" /\ video_outcome w w' R) \/
     (getFileCategory (mimetype f) = "audio" /\ audio_outcome w w' R)).
Proof.
  intros Hrun Hsuccess.
  assert (Hother :
    match file with
    | None => True
    | Some f => getFileCategory (mimetype f) = "unsupported"
    end -> False).
  { intros Hfile.
    destruct (wp_returned _ _ _ _ _ _ (handleAnalyze_other file w Hfile) Hrun)
      as (message & Hbody & _).
    rewrite Hbody in Hsuccess. discriminate. }
  destruct file as [f |]; [| destruct (Hother I)].
  exists f.
  destruct (getFileCategory_cases (mimetype f)) as [Hc | [Hc | [Hc | Hc]]].
  - destruct (wp_returned _ _ _ _ _ _ (handleAnalyze_image f w Hc) Hrun)
      as [(R & c & isDemo & -> & H) | (message & -> & _)]; [| discriminate].
    exists R. split; [reflexivity |]. split; [reflexivity |].
    left. split; [exact Hc |]. exists c, isDemo. exact H.
  - destruct (wp_returned _ _ _ _ _ _ (handleAnalyze_video f w Hc) Hrun)
      as (R & c & isDemo & -> & H).
    exists R. split; [reflexivity |]. split; [reflexivity |].
    right; left. split; [exact Hc |]. exists c, isDemo. exact H.
  - destruct (wp_returned _ _ _ _ _ _ (handleAnalyze_audio f w Hc) Hrun)
      as (R & -> & H).
    exists R. split; [reflexivity |]. split; [reflexivity |].
    right; right. split; [exact Hc | exact H].
  - destruct (Hother Hc).
Qed.

End Runs.

(** * The properties *)

(** ** Risk level *)


(** ** Determinism of the response shaping *)










(** ** Concrete requests

    A request used to run the handler on: every draw is one half, the
    credentials of both vendors are configured, the stored file is 2 kB
    long, and the vendor is down (every call is rejected with status 500). *)

Definition example_random : nat -> Q := fun _ => 0.5.

Definition example_now : nat -> Z := fun n => (1700000000000 + Z.of_nat n)%Z.

Definition example_env : gmap string string :=
  <["SIGHTENGINE_USER" := "user"]>
    (<["SIGHTENGINE_SECRET" := "secret"]>
       (<["RESEMBLE_API_KEY" := "key"]> ∅)).

Definition example_statSync : string -> option Z := fun _ => Some 2048%Z.

Definition vendor_down : string -> HttpOutcome :=
  fun _ =>
    Rejects (AxiosError "Request failed with status code 500"
               (Some (mkAxiosResponse 500 JNull JNull))).

Definition example_toString : Q -> string := fun q => pretty (Qfloor q).

Definition example_file (name mime : string) : MulterFile :=
  mkMulterFile name mime 2048 ("1700000000000-" +:+ name)
    ("/srv/app/uploads/1700000000000-" +:+ name).

(** The body of the answer of a run, and the world it leaves. *)
Definition answer (run : Outcome Response * World) : JsVal :=
  match result run with
  | Returned res => body res
  | Thrown _ => JUndefined
  end.

Definition example_run (axios : string -> HttpOutcome) (name mime : string)
  : Outcome Response * World :=
  handleAnalyze example_random example_now example_env example_statSync
    axios example_toString (Some (example_file name mime)) world0.

Definition response_of (run : Outcome Response * World) : Response :=
  match result run with
  | Returned res => res
  | Thrown _ => mkResponse 0 JUndefined
  end.

(** The three runs, evaluated. *)
Definition photo_run : Outcome Response * World :=
  Eval vm_compute in example_run vendor_down "photo.png" "image/png".

Definition clip_run : Outcome Response * World :=
  Eval vm_compute in example_run vendor_down "clip.mp4" "video/mp4".

Definition voice_run : Outcome Response * World :=
  Eval vm_compute in example_run vendor_down "voice.wav" "audio/wav".

(** ** Demo mode *)

(** An environment variable is absent: unset, or set to the empty string. *)
Definition absent (env : gmap string string) (name : string) : Prop :=
  env !! name = None \/ env !! name = Some "".

Lemma configured_absent env name :
  configured env name = false <-> absent env name.
Proof.
  unfold configured, absent. destruct (env !! name) as [value |].
  - rewrite negb_false_iff, String.eqb_eq. split.
    + intros ->. right. reflexivity.
    + intros [H | H]; [discriminate | congruence].
  - split; [left; reflexivity | reflexivity].
Qed.

Lemma credentialsMissing_absent env :
  credentialsMissing env = true <->
  absent env "SIGHTENGINE_USER" \/ absent env "SIGHTENGINE_SECRET".
Proof.
  unfold credentialsMissing.
  rewrite orb_true_iff, !negb_true_iff, !configured_absent. reflexivity.
Qed.

(** C2, as stated, fails: with the credentials of both vendors configured,
    an image whose vendor call is rejected and an audio clip both get demo
    data. *)
Lemma demo_despite_credentials :
  credentialsMissing example_env = false /\
  configured example_env "RESEMBLE_API_KEY" = true /\
  (answer (example_run vendor_down "photo.png" "image/png"))?."success"
  = JBool true /\
  (answer (example_run vendor_down "photo.png" "image/png"))
    ?."result"?."analysisQuality" = JStr "DEMO" /\
  (answer (example_run vendor_down "voice.wav" "audio/wav"))?."success"
  = JBool true /\
  (answer (example_run vendor_down "voice.wav" "audio/wav"))
    ?."result"?."analysisQuality" = JStr "DEMO".
Proof. vm_compute. repeat split. Qed.

(** C2, amended: in a successful answer, the result of an image or of a
    video is demo data exactly when a Sightengine credential is absent or
    the vendor call does not come back with the status ["success"]; the
    result of an audio clip is always demo data. *)
Theorem demo_iff_no_vendor_result random now env statSync axios
    numberToString file w res w' :
  handleAnalyze random now env statSync axios numberToString file w
  = (Returned res, w') ->
  (body res)?."success" = JBool true ->
  exists f,
    file = Some f /\
    let quality := (body res)?."result"?."analysisQuality" in
    let category := getFileCategory (mimetype f) in
    (quality = JStr "DEMO" \/ quality = JStr "API") /\
    (category = "image" ->
       (quality = JStr "DEMO" <->
          (absent env "SIGHTENGINE_USER" \/ absent env "SIGHTENGINE_SECRET")
          \/ ~ vendor_succeeds axios SIGHTENGINE_CHECK)) /\
    (category = "video" ->
       (quality = JStr "DEMO" <->
          (absent env "SIGHTENGINE_USER" \/ absent env "SIGHTENGINE_SECRET")
          \/ ~ vendor_succeeds axios SIGHTENGINE_VIDEO_CHECK)) /\
    (category = "audio" -> quality = JStr "DEMO").
Proof.
  intros Hrun Hsuccess.
  destruct (handleAnalyze_success _ _ _ _ _ _ _ _ _ _ Hrun Hsuccess)
    as (f & R & -> & -> & Hkind).
  exists f. split; [reflexivity |].
  change ((body (json (success_body R)))?."result") with R. cbv zeta.
  rewrite <- credentialsMissing_absent.
  destruct Hkind as [(Hc & c & isDemo & HR & Hiff & _)
                    | [(Hc & c & isDemo & HR & Hiff & _) | (Hc & HR & _)]];
    destruct HR as (_ & _ & _ & _ & _ & _ & Hquality & _);
    rewrite Hquality, Hc.
  - split; [destruct isDemo; auto |].
    split; [intros _ | split; discriminate].
    rewrite <- Hiff. destruct isDemo; split; congruence.
  - split; [destruct isDemo; auto |].
    split; [discriminate |]. split; [intros _ | discriminate].
    rewrite <- Hiff. destruct isDemo; split; congruence.
  - split; [auto |]. repeat split; discriminate.
Qed.

Lemma demo_iff_no_vendor_result_witness :
  exists f,
    Some (example_file "photo.png" "image/png") = Some f /\
    let quality :=
      (body (response_of photo_run))?."result"?."analysisQuality" in
    let category := getFileCategory (mimetype f) in
    (quality = JStr "DEMO" \/ quality = JStr "API") /\
    (category = "image" ->
       (quality = JStr "DEMO" <->
          (absent example_env "SIGHTENGINE_USER"
           \/ absent example_env "SIGHTENGINE_SECRET")
          \/ ~ vendor_succeeds vendor_down SIGHTENGINE_CHECK)) /\
    (category = "video" ->
       (quality = JStr "DEMO" <->
          (absent example_env "SIGHTENGINE_USER"
           \/ absent example_env "SIGHTENGINE_SECRET")
          \/ ~ vendor_succeeds vendor_down SIGHTENGINE_VIDEO_CHECK)) /\
    (category = "audio" -> quality = JStr "DEMO").
Proof.
  apply (demo_iff_no_vendor_result example_random example_now example_env
           example_statSync vendor_down example_toString
           (Some (example_file "photo.png" "image/png")) world0
           (response_of photo_run) (final photo_run)).
  - vm_compute. reflexivity.
  - vm_compute. reflexivity.
Defined.

(** ** Forwarding to the vendors *)

(** A vendor that answers every call with a score of 0.9. *)
Definition vendor_up : string -> HttpOutcome :=
  fun _ =>
    Resolves (mkSightengineData "success" (Some 0.9) None None None
                (JObj [ ("status", JStr "success");
                        ("deepfake", JObj [ ("prob", JNum 0.9) ]) ])).

(** C3, as stated, fails: with the Resemble key configured and the vendors
    answering, an image and a video are forwarded to Sightengine, and the
    audio clip is answered without any outbound request. *)
Lemma audio_sends_nothing :
  configured example_env "RESEMBLE_API_KEY" = true /\
  outbound (final (example_run vendor_up "photo.png" "image/png"))
  = [SIGHTENGINE_CHECK] /\
  outbound (final (example_run vendor_up "clip.mp4" "video/mp4"))
  = [SIGHTENGINE_VIDEO_CHECK] /\
  (answer (example_run vendor_up "voice.wav" "audio/wav"))?."success"
  = JBool true /\
  outbound (final (example_run vendor_up "voice.wav" "audio/wav")) = [].
Proof. vm_compute. repeat split. Qed.

(** C3, amended: the audio analysis never sends a request, whatever the
    environment, and returns demo data; the video analysis sends one
    request to Sightengine's [video/check-sync.json] exactly when both
    Sightengine credentials are configured, and so does, to [check.json],
    every image analysis that returns. *)
Theorem audio_is_never_forwarded random env statSync axios numberToString
    filePath w :
  (exists r w',
     analyzeAudio random filePath w = (Returned r, w') /\
     outbound w' = outbound w /\
     r?."analysisQuality" = JStr "DEMO") /\
  (exists r w',
     analyzeVideo random env axios numberToString filePath w = (Returned r, w') /\
     outbound w'
     = outbound w
       ++ (if credentialsMissing env then [] else [SIGHTENGINE_VIDEO_CHECK])) /\
  (forall r w',
     analyzeImage random env statSync axios numberToString filePath w
     = (Returned r, w') ->
     outbound w'
     = outbound w ++ (if credentialsMissing env then [] else [SIGHTENGINE_CHECK])).
Proof.
  split; [| split].
  - destruct (wp_never_returns _ _ _ (analyzeAudio_wp random filePath w))
      as (r & w' & Hrun & metadata & Hr & Hout & _).
    exists r, w'. split; [exact Hrun |]. split; [exact Hout |].
    destruct Hr as ((_ & _ & Hquality & _) & _). exact Hquality.
  - destruct (wp_never_returns _ _ _
                (analyzeVideo_wp random env axios numberToString filePath w))
      as (r & w' & Hrun & c & isDemo & metadata & _ & _ & _ & Hout & _).
    exists r, w'. split; [exact Hrun | exact Hout].
  - intros r w' Hrun.
    destruct (wp_returned _ _ _ _ _ _
                (analyzeImage_wp random env statSync axios numberToString
                   filePath w) Hrun)
      as (c & isDemo & metadata & _ & _ & _ & Hout & _).
    exact Hout.
Qed.

(** ** The shape of a successful answer *)



















(** X1: the kind-specific object of a result has three fields. For an image
    they are the ones [ImageAnalysisResult] declares; for a video and for
    an audio clip they are not the ones [VideoAnalysisResult] and
    [AudioAnalysisResult] declare: [temporalAnalysis], [technicalMetrics]
    and [synthesisIndicators] are not there. *)
Theorem analysis_object_fields random now env statSync axios
    numberToString file w res w' :
  handleAnalyze random now env statSync axios numberToString file w
  = (Returned res, w') ->
  (body res)?."success" = JBool true ->
  exists f,
    file = Some f /\
    let R := (body res)?."result" in
    let category := getFileCategory (mimetype f) in
    (category = "image" ->
     Js.keys (R?."imageAnalysis")
     = ["faceDetection"; "manipulationIndicators"; "technicalAnalysis"]) /\
    (category = "video" ->
     Js.keys (R?."videoAnalysis")
     = ["frameAnalysis"; "manipulationIndicators"; "technicalAnalysis"]
     /\ Js.has (R?."videoAnalysis") "temporalAnalysis" = false) /\
    (category = "audio" ->
     Js.keys (R?."audioAnalysis")
     = ["voiceCharacteristics"; "syntheticIndicators"; "qualityMetrics"]
     /\ Js.has (R?."audioAnalysis") "technicalMetrics" = false
     /\ Js.has (R?."audioAnalysis") "synthesisIndicators" = false).
Proof.
  intros Hrun Hsuccess.
  destruct (handleAnalyze_success _ _ _ _ _ _ _ _ _ _ Hrun Hsuccess)
    as (f & R & -> & -> & Hkind).
  exists f. split; [reflexivity |].
  change ((body (json (success_body R)))?."result") with R. cbv zeta.
  assert (Hhas : forall v k ks,
    Js.keys v = ks -> existsb (String.eqb k) ks = false -> Js.has v k = false).
  { intros v k ks <- Hk. destruct v; try reflexivity. cbn in *.
    induction fields as [| [k' x] rest IH]; [reflexivity |].
    cbn in *. destruct (String.eqb k k'); [discriminate Hk | exact (IH Hk)]. }
  destruct Hkind as [(Hc & c & isDemo & _ & _ & _ & _ & Hkeys)
                    | [(Hc & c & isDemo & _ & _ & _ & _ & Hkeys)
                      | (Hc & _ & _ & _ & Hkeys)]];
    rewrite Hc.
  - split; [intros _; exact Hkeys |]. split; discriminate.
  - split; [discriminate |]. split; [intros _ | discriminate].
    split; [exact Hkeys |]. eapply Hhas; [exact Hkeys | reflexivity].
  - split; [discriminate |]. split; [discriminate |]. intros _.
    split; [exact Hkeys |].
    split; (eapply Hhas; [exact Hkeys | reflexivity]).
Qed.

Lemma analysis_object_fields_witness :
  exists f,
    Some (example_file "voice.wav" "audio/wav") = Some f /\
    let R := (body (response_of voice_run))?."result" in
    let category := getFileCategory (mimetype f) in
    (category = "image" ->
     Js.keys (R?."imageAnalysis")
     = ["faceDetection"; "manipulationIndicators"; "technicalAnalysis"]) /\
    (category = "video" ->
     Js.keys (R?."videoAnalysis")
     = ["frameAnalysis"; "manipulationIndicators"; "technicalAnalysis"]
     /\ Js.has (R?."videoAnalysis") "temporalAnalysis" = false) /\
    (category = "audio" ->
     Js.keys (R?."audioAnalysis")
     = ["voiceCharacteristics"; "syntheticIndicators"; "qualityMetrics"]
     /\ Js.has (R?."audioAnalysis") "technicalMetrics" = false
     /\ Js.has (R?."audioAnalysis") "synthesisIndicators" = false).
Proof.
  apply (analysis_object_fields example_random example_now example_env
           example_statSync vendor_down example_toString
           (Some (example_file "voice.wav" "audio/wav")) world0
           (response_of voice_run) (final voice_run)).
  - vm_compute. reflexivity.
  - vm_compute. reflexivity.
Defined.

(** ** The deepfake flag *)




(** ** The demo scores *)

(** [r * a + b] in binary64 for a draw [r] of the unit interval, between
    the bounds [lo] and [hi] that the two ends evaluate to. *)
Lemma demo_range (a b lo hi r : Q) :
  0 <= a ->
  lo <= Num.round64 b ->
  Num.round64 (Num.round64 a + b) <= hi ->
  0 <= r < 1 ->
  lo <= Num.add (Num.mul r a) b <= hi.
Proof.
  intros Ha Hlo Hhi [Hlow Hhigh].
  destruct (Num.scaled_draw a b r Ha) as [H1 H2]; [lra |]. lra.
Qed.

(** Closes an order between two numbers that evaluate. *)
Ltac evaluated := vm_compute; first [reflexivity | discriminate].

(** The largest binary64 number below 1, the highest value a draw takes. *)
Definition top_draw : Q := 1 - 2 ^ (-53).

(** [r * a + b] in binary64 for a draw that is a binary64 number below 1:
    at most what the highest draw gives. *)
Lemma demo_range_top (a b hi r : Q) :
  0 <= a ->
  Num.round64 (Num.round64 (top_draw * a) + b) <= hi ->
  r <= top_draw ->
  Num.add (Num.mul r a) b <= hi.
Proof.
  intros Ha Hhi Hr. apply Qle_trans with (2 := Hhi).
  apply Num.round64_le.
  assert (Num.mul r a <= Num.round64 (top_draw * a)); [| lra].
  apply Num.round64_le. apply Qmult_le_compat_r; assumption.
Qed.

(** Closes an implication whose premise equates two different strings. *)
Ltac other_kind := let H := fresh in intros H; discriminate H.

Lemma demoScoreOf_range (r1 r2 : Q) :
  0 <= r2 < 1 ->
  (Num.lit 0.8 < r1 ->
   demoScoreOf r1 r2 = Num.add (Num.mul r2 (Num.lit 0.3)) (Num.lit 0.7)
   /\ Num.lit 0.7 <= demoScoreOf r1 r2 <= 1) /\
  (r1 <= Num.lit 0.8 ->
   demoScoreOf r1 r2 = Num.add (Num.mul r2 (Num.lit 0.4)) (Num.lit 0.1)
   /\ Num.lit 0.1 <= demoScoreOf r1 r2 <= 0.5).
Proof.
  intros Hr2. unfold demoScoreOf.
  destruct (r1 >? Num.lit 0.8) eqn:E;
    [apply Num.gtb_true in E | apply Num.gtb_false in E];
    split; intros H; try lra; (split; [reflexivity |]);
    apply demo_range; try exact Hr2; evaluated.
Qed.

(** The one open end that is not reached: the image fallback of a draw
    marked as a deepfake stays below 1 when the second draw is a binary64
    number below 1. *)
Lemma demoScoreOf_below_one (r1 r2 : Q) :
  Num.lit 0.8 < r1 -> r2 <= top_draw -> demoScoreOf r1 r2 < 1.
Proof.
  intros Hr1 Hr2. unfold demoScoreOf.
  apply Num.gtb_true in Hr1. rewrite Hr1.
  apply Qle_lt_trans
    with (Num.round64 (Num.round64 (top_draw * Num.lit 0.3) + Num.lit 0.7));
    [| evaluated].
  apply demo_range_top; [evaluated | apply Qle_refl | exact Hr2].
Qed.

Lemma videoErrorDemoScoreOf_range (r1 r2 : Q) :
  0 <= r2 < 1 ->
  (Num.lit 0.8 < r1 ->
   videoErrorDemoScoreOf r1 r2
   = Num.add (Num.mul r2 (Num.lit 0.25)) (Num.lit 0.05)
   /\ Num.lit 0.05 <= videoErrorDemoScoreOf r1 r2 <= Num.lit 0.3) /\
  (r1 <= Num.lit 0.8 ->
   videoErrorDemoScoreOf r1 r2
   = Num.add (Num.mul r2 (Num.lit 0.35)) (Num.lit 0.65)
   /\ Num.lit 0.65 <= videoErrorDemoScoreOf r1 r2 <= 1).
Proof.
  intros Hr2. unfold videoErrorDemoScoreOf.
  destruct (r1 >? Num.lit 0.8) eqn:E;
    [apply Num.gtb_true in E | apply Num.gtb_false in E];
    split; intros H; try lra; (split; [reflexivity |]);
    apply demo_range; try exact Hr2; evaluated.
Qed.

Lemma audioScoreOf_range (r1 r2 : Q) :
  0 <= r2 < 1 ->
  (0.5 < r1 ->
   audioScoreOf r1 r2 = Num.add (Num.mul r2 (Num.lit 0.25)) (Num.lit 0.7)
   /\ Num.lit 0.7 <= audioScoreOf r1 r2 <= Num.lit 0.95) /\
  (r1 <= 0.5 ->
   audioScoreOf r1 r2 = Num.add (Num.mul r2 (Num.lit 0.2)) (Num.lit 0.75)
   /\ Num.lit 0.75 <= audioScoreOf r1 r2 <= Num.lit 0.95).
Proof.
  intros Hr2. unfold audioScoreOf.
  destruct (r1 >? 0.5) eqn:E;
    [apply Num.gtb_true in E | apply Num.gtb_false in E];
    split; intros H; try lra; (split; [reflexivity |]);
    apply demo_range; try exact Hr2; evaluated.
Qed.

(** The literals that bound the demo scores, between 0 and 1. *)
Lemma demo_bounds_in_unit :
  0 <= Num.lit 0.05 /\ 0 <= Num.lit 0.1 /\ 0 <= Num.lit 0.65 /\
  0 <= Num.lit 0.75 /\ 0.6 <= Num.lit 0.7 /\
  Num.lit 0.3 < 0.7 /\ Num.lit 0.95 <= 1.
Proof. repeat split; evaluated. Qed.

(** A random source whose first draw is [r] and whose later draws are the
    highest one. *)
Definition draws_top (r : Q) : nat -> Q :=
  fun n => match n with O => r | S _ => top_draw end.

(** The environment without any credential. *)
Definition no_credentials : gmap string string := ∅.

(** The answer to the upload [name] of type [mime] when the first draw is
    [r] and the second the highest one, the vendor being down. *)
Definition top_answer (env : gmap string string) (r : Q) (name mime : string)
  : JsVal :=
  answer (handleAnalyze (draws_top r) example_now env example_statSync
            vendor_down example_toString (Some (example_file name mime))
            world0).

Lemma draws_top_range r : 0 <= r < 1 -> forall n, 0 <= draws_top r n < 1.
Proof. intros Hr [| n]; [exact Hr |]. split; evaluated. Qed.

(** C9, amended: with the Sightengine credentials configured and the video
    call failing, the handler answers with demo data whose confidence comes
    from [[0.05, 0.30]] when the first draw is above 0.8 (the draw the
    generator calls a deepfake) and from [[0.65, 1]] otherwise, while the
    image fallback on the same draws gives [[0.7, 1]] and [[0.1, 0.5]]; so
    with [isDeepfake = confidence > 0.7] a video flagged as a deepfake
    comes from a draw the generator calls authentic. The bounds are the
    binary64 numbers: [Num.lit 0.3] is what the source's [0.30] denotes. *)
Theorem video_fallback_inverts_scale random now env statSync axios
    numberToString file w :
  credentialsMissing env = false ->
  ~ vendor_succeeds axios SIGHTENGINE_VIDEO_CHECK ->
  getFileCategory (mimetype file) = "video" ->
  0 <= random (S (rngCalls w)) < 1 ->
  let r1 := random (rngCalls w) in
  let r2 := random (S (rngCalls w)) in
  exists res w' c,
    handleAnalyze random now env statSync axios numberToString (Some file) w
    = (Returned res, w') /\
    (body res)?."success" = JBool true /\
    (body res)?."result"?."analysisQuality" = JStr "DEMO" /\
    (body res)?."result"?."confidence" = JNum c /\
    (body res)?."result"?."isDeepfake" = JBool (c >? 0.7) /\
    (Num.lit 0.8 < r1 ->
     c = Num.add (Num.mul r2 (Num.lit 0.25)) (Num.lit 0.05)
     /\ Num.lit 0.05 <= c <= Num.lit 0.3) /\
    (r1 <= Num.lit 0.8 ->
     c = Num.add (Num.mul r2 (Num.lit 0.35)) (Num.lit 0.65)
     /\ Num.lit 0.65 <= c <= 1) /\
    ((body res)?."result"?."isDeepfake" = JBool true -> r1 <= Num.lit 0.8) /\
    (exists c',
       result (demoScore random w) = Returned c' /\
       (Num.lit 0.8 < r1 -> Num.lit 0.7 <= c' <= 1) /\
       (r1 <= Num.lit 0.8 -> Num.lit 0.1 <= c' <= 0.5)).
Proof.
  intros Hcreds Hfails Hcategory Hrange r1 r2.
  destruct (wp_never_returns _ _ _
              (handleAnalyze_video random now env statSync axios
                 numberToString file w Hcategory))
    as (res & w' & Hrun & R & c & isDemo & -> & HR & Hiff & Hscore & _).
  assert (HisDemo : isDemo = true) by (apply Hiff; right; exact Hfails).
  subst isDemo. specialize (Hscore eq_refl). rewrite Hcreds in Hscore.
  destruct HR as (_ & Hflag & Hconfidence & _ & _ & _ & Hquality & _).
  destruct (videoErrorDemoScoreOf_range r1 r2 Hrange) as [Hfake Hauthentic].
  fold r1 r2 in Hscore. unfold draw1, draw2 in Hscore. fold r1 r2 in Hscore.
  exists (json (success_body R)), w', c.
  change ((body (json (success_body R)))?."result") with R.
  split; [exact Hrun |]. split; [reflexivity |]. split; [exact Hquality |].
  split; [exact Hconfidence |]. split; [exact Hflag |].
  rewrite Hscore. split; [exact Hfake |]. split; [exact Hauthentic |]. split.
  - rewrite Hflag, Hscore. intros Htrue. injection Htrue as Htrue.
    apply Num.gtb_true in Htrue.
    destruct (Qlt_le_dec (Num.lit 0.8) r1) as [Hgt | Hle]; [| exact Hle].
    destruct (Hfake Hgt) as [_ Hbound].
    pose proof demo_bounds_in_unit as (_ & _ & _ & _ & _ & Hthird & _). lra.
  - destruct (wp_never_returns _ _ _ (demoScore_wp random w))
      as (c' & w1 & Hdemo & -> & _).
    exists (demoScoreOf (draw1 random w) (draw2 random w)).
    unfold result. rewrite Hdemo. split; [reflexivity |].
    destruct (demoScoreOf_range r1 r2 Hrange) as [Hfake' Hauthentic'].
    split; intros H; [apply Hfake' | apply Hauthentic']; exact H.
Qed.

Lemma vendor_down_fails url : ~ vendor_succeeds vendor_down url.
Proof. intros (data & Hdata & _). discriminate Hdata. Qed.

Lemma video_fallback_inverts_scale_witness :
  let r1 := example_random (rngCalls world0) in
  let r2 := example_random (S (rngCalls world0)) in
  exists res w' c,
    handleAnalyze example_random example_now example_env example_statSync
      vendor_down example_toString
      (Some (example_file "clip.mp4" "video/mp4")) world0
    = (Returned res, w') /\
    (body res)?."success" = JBool true /\
    (body res)?."result"?."analysisQuality" = JStr "DEMO" /\
    (body res)?."result"?."confidence" = JNum c /\
    (body res)?."result"?."isDeepfake" = JBool (c >? 0.7) /\
    (Num.lit 0.8 < r1 ->
     c = Num.add (Num.mul r2 (Num.lit 0.25)) (Num.lit 0.05)
     /\ Num.lit 0.05 <= c <= Num.lit 0.3) /\
    (r1 <= Num.lit 0.8 ->
     c = Num.add (Num.mul r2 (Num.lit 0.35)) (Num.lit 0.65)
     /\ Num.lit 0.65 <= c <= 1) /\
    ((body res)?."result"?."isDeepfake" = JBool true -> r1 <= Num.lit 0.8) /\
    (exists c',
       result (demoScore example_random world0) = Returned c' /\
       (Num.lit 0.8 < r1 -> Num.lit 0.7 <= c' <= 1) /\
       (r1 <= Num.lit 0.8 -> Num.lit 0.1 <= c' <= 0.5)).
Proof.
  apply (video_fallback_inverts_scale example_random example_now example_env
           example_statSync vendor_down example_toString
           (example_file "clip.mp4" "video/mp4") world0).
  - vm_compute. reflexivity.
  - apply vendor_down_fails.
  - vm_compute. reflexivity.
  - vm_compute. split; [discriminate | reflexivity].
Defined.

(** C9, as stated, fails: the open end of the range of the authentic draws
    is reached. With a first draw of 0.5 and the second draw the highest
    binary64 number below 1, the confidence of the video fallback is 1. *)
Lemma video_fallback_reaches_open_ends :
  0 <= top_draw < 1 /\ Num.round64 top_draw == top_draw /\
  credentialsMissing example_env = false /\
  ~ vendor_succeeds vendor_down SIGHTENGINE_VIDEO_CHECK /\
  exists c,
    (top_answer example_env 0.5 "clip.mp4" "video/mp4")?."result"?."confidence"
    = JNum c /\
    (top_answer example_env 0.5 "clip.mp4" "video/mp4")
      ?."result"?."analysisQuality"
    = JStr "DEMO" /\
    c == 1 /\ ~ c < 1.
Proof.
  split; [split; evaluated |]. split; [evaluated |]. split; [evaluated |].
  split; [apply vendor_down_fails |].
  eexists. split; [vm_compute; reflexivity |].
  split; [vm_compute; reflexivity |]. split; evaluated.
Qed.

(** C10, amended: with every draw of the random source in [[0, 1)], the
    demo generators answer, and the confidence of every demo result lies in
    [[0, 1]]: the image fallback gives [[0.7, 1]] when the first draw is
    above 0.8, and stays below 1 when the second draw is a binary64 number
    below 1, and it gives [[0.1, 0.5]] otherwise (and so does the video
    path without credentials); the video fallback after a failed call
    gives [[0.05, 0.30]] or [[0.65, 1]]; and the audio generator gives
    [[0.70, 0.95]] when the first draw is above one half and
    [[0.75, 0.95]] otherwise. The bounds are the binary64 numbers that the
    literals of the source denote. An audio clip, an image or a video
    without the credentials, and a video whose vendor call fails always
    get such a demo result. *)
Theorem demo_confidence_in_range random now env statSync axios
    numberToString f w :
  (forall n, 0 <= random n < 1) ->
  let category := getFileCategory (mimetype f) in
  let r1 := random (rngCalls w) in
  let r2 := random (S (rngCalls w)) in
  let run :=
    handleAnalyze random now env statSync axios numberToString (Some f) w in
  let in_range (c : Q) :=
    0 <= c <= 1 /\
    (category = "image" \/ category = "video" /\ credentialsMissing env = true ->
     (Num.lit 0.8 < r1 ->
      Num.lit 0.7 <= c <= 1 /\ (r2 <= top_draw -> c < 1)) /\
     (r1 <= Num.lit 0.8 -> Num.lit 0.1 <= c <= 0.5)) /\
    (category = "video" -> credentialsMissing env = false ->
     (Num.lit 0.8 < r1 -> Num.lit 0.05 <= c <= Num.lit 0.3) /\
     (r1 <= Num.lit 0.8 -> Num.lit 0.65 <= c <= 1)) /\
    (category = "audio" ->
     (0.5 < r1 -> Num.lit 0.7 <= c <= Num.lit 0.95) /\
     (r1 <= 0.5 -> Num.lit 0.75 <= c <= Num.lit 0.95)) in
  (forall res w',
     run = (Returned res, w') ->
     (body res)?."result"?."analysisQuality" = JStr "DEMO" ->
     exists c, (body res)?."result"?."confidence" = JNum c /\ in_range c) /\
  (category = "audio"
   \/ (category = "image" \/ category = "video")
      /\ credentialsMissing env = true
   \/ category = "video"
      /\ ~ vendor_succeeds axios SIGHTENGINE_VIDEO_CHECK ->
   exists res w' c,
     run = (Returned res, w') /\
     (body res)?."success" = JBool true /\
     (body res)?."result"?."analysisQuality" = JStr "DEMO" /\
     (body res)?."result"?."confidence" = JNum c /\
     in_range c).
Proof.
  intros Hrange category r1 r2 run in_range.
  assert (Hconditional : forall res w',
    run = (Returned res, w') ->
    (body res)?."result"?."analysisQuality" = JStr "DEMO" ->
    exists c, (body res)?."result"?."confidence" = JNum c /\ in_range c).
  { intros res w' Hrun Hdemo. unfold run in Hrun.
    assert (Hsuccess : (body res)?."success" = JBool true).
    { destruct (handleAnalyze_answers _ _ _ _ _ _ _ _ _ _ Hrun)
        as [Hok | (message & Hbody)]; [exact Hok |].
      rewrite Hbody in Hdemo. discriminate Hdemo. }
    destruct (handleAnalyze_success _ _ _ _ _ _ _ _ _ _ Hrun Hsuccess)
      as (f' & R & Hf & -> & Hkind).
    injection Hf as <-.
    change ((body (json (success_body R)))?."result") with R in *.
    pose proof (Hrange (S (rngCalls w))) as Hr2. fold r2 in Hr2.
    destruct (demoScoreOf_range r1 r2 Hr2) as [Hi1 Hi2].
    pose proof (demoScoreOf_below_one r1 r2) as Hi3.
    destruct (videoErrorDemoScoreOf_range r1 r2 Hr2) as [Hv1 Hv2].
    destruct (audioScoreOf_range r1 r2 Hr2) as [Ha1 Ha2].
    pose proof demo_bounds_in_unit as (B1 & B2 & B3 & B4 & B5 & B6 & B7).
    assert (Hdemo_flag : forall kind vendorField analysisField c d isDemo,
      analysis_result kind vendorField analysisField c d isDemo R ->
      isDemo = true /\ R?."confidence" = JNum c).
    { intros kind vendorField analysisField c d isDemo
        (_ & _ & Hconfidence & _ & _ & _ & Hquality & _).
      split; [| exact Hconfidence].
      rewrite Hquality in Hdemo.
      destruct isDemo; [reflexivity | discriminate Hdemo]. }
    assert (Himage : forall c,
      c = demoScoreOf r1 r2 ->
      0 <= c <= 1 /\
      ((Num.lit 0.8 < r1 ->
        Num.lit 0.7 <= c <= 1 /\ (r2 <= top_draw -> c < 1)) /\
       (r1 <= Num.lit 0.8 -> Num.lit 0.1 <= c <= 0.5))).
    { intros c ->.
      destruct (Qlt_le_dec (Num.lit 0.8) r1) as [Hgt | Hle].
      - destruct (Hi1 Hgt) as [_ Hb]. specialize (Hi3 Hgt).
        split; [lra |]. split; [intros _; split; [exact Hb | exact Hi3] |].
        intros; lra.
      - destruct (Hi2 Hle) as [_ Hb].
        split; [lra |]. split; intros; lra. }
    unfold in_range. fold category in Hkind.
    destruct Hkind as [(Hc & c & isDemo & HR & _ & Hscore & _)
                      | [(Hc & c & isDemo & HR & _ & Hscore & _) | (Hc & HR & _)]].
    - destruct (Hdemo_flag _ _ _ _ _ _ HR) as [-> Hconfidence].
      specialize (Hscore eq_refl). unfold draw1, draw2 in Hscore.
      fold r1 r2 in Hscore.
      exists c. split; [exact Hconfidence |].
      destruct (Himage c Hscore) as [Hunit Hranges].
      rewrite Hc. split; [exact Hunit |]. split; [intros _; exact Hranges |].
      split; [other_kind |]. other_kind.
    - destruct (Hdemo_flag _ _ _ _ _ _ HR) as [-> Hconfidence].
      specialize (Hscore eq_refl). unfold draw1, draw2 in Hscore.
      fold r1 r2 in Hscore.
      exists c. split; [exact Hconfidence |].
      rewrite Hc.
      destruct (credentialsMissing env).
      + destruct (Himage c Hscore) as [Hunit Hranges].
        split; [exact Hunit |]. split; [intros _; exact Hranges |].
        split; [intros _ Hm; discriminate Hm |]. other_kind.
      + rewrite Hscore.
        destruct (Qlt_le_dec (Num.lit 0.8) r1) as [Hgt | Hle];
          [destruct (Hv1 Hgt) as [_ Hb] | destruct (Hv2 Hle) as [_ Hb]];
          (split; [lra |]);
          (split; [intros [Hm | [_ Hm]]; discriminate Hm |]);
          (split; [intros _ _; split; intros; lra |]);
          other_kind.
    - destruct (Hdemo_flag _ _ _ _ _ _ HR) as [_ Hconfidence].
      unfold draw1, draw2 in Hconfidence. fold r1 r2 in Hconfidence.
      eexists. split; [exact Hconfidence |].
      rewrite Hc.
      destruct (Qlt_le_dec 0.5 r1) as [Hgt | Hle];
        [destruct (Ha1 Hgt) as [_ Hb] | destruct (Ha2 Hle) as [_ Hb]];
        (split; [lra |]);
        (split; [intros [Hm | [Hm _]]; discriminate Hm |]);
        (split; [other_kind |]);
        intros _; split; intros; lra. }
  split; [exact Hconditional |].
  intros Hdemo.
  destruct (handleAnalyze_returns random now env statSync axios numberToString
              (Some f) w) as (res & w' & Hrun).
  fold run in Hrun.
  assert (Hresult : exists R c d isDemo kind vendorField analysisField,
    res = json (success_body R) /\ isDemo = true /\
    analysis_result kind vendorField analysisField c d isDemo R).
  { unfold run in Hrun.
    destruct Hdemo as [Hc | [[[Hc | Hc] Hmissing] | [Hc Hfails]]].
    - destruct (wp_returned _ _ _ _ _ _
                  (handleAnalyze_audio random now env statSync axios
                     numberToString f w Hc) Hrun)
        as (R & -> & HR & _).
      exists R. do 2 eexists. exists true. do 3 eexists.
      split; [reflexivity |]. split; [reflexivity | exact HR].
    - destruct (wp_returned _ _ _ _ _ _
                  (handleAnalyze_image random now env statSync axios
                     numberToString f w Hc) Hrun)
        as [(R & c & isDemo & -> & HR & Hiff & _) | (message & _ & Hconfigured)];
        [| congruence].
      exists R, c. eexists. exists isDemo. do 3 eexists.
      split; [reflexivity |]. split; [apply Hiff; left; exact Hmissing | exact HR].
    - destruct (wp_returned _ _ _ _ _ _
                  (handleAnalyze_video random now env statSync axios
                     numberToString f w Hc) Hrun)
        as (R & c & isDemo & -> & HR & Hiff & _).
      exists R, c. eexists. exists isDemo. do 3 eexists.
      split; [reflexivity |]. split; [apply Hiff; left; exact Hmissing | exact HR].
    - destruct (wp_returned _ _ _ _ _ _
                  (handleAnalyze_video random now env statSync axios
                     numberToString f w Hc) Hrun)
        as (R & c & isDemo & -> & HR & Hiff & _).
      exists R, c. eexists. exists isDemo. do 3 eexists.
      split; [reflexivity |]. split; [apply Hiff; right; exact Hfails | exact HR]. }
  destruct Hresult as (R & c & d & isDemo & kind & vendorField & analysisField
                       & -> & -> & HR).
  destruct HR as (_ & _ & Hconfidence & _ & _ & _ & Hquality & _).
  destruct (Hconditional _ _ Hrun Hquality) as (c' & Hc' & Hin).
  change ((body (json (success_body R)))?."result") with R in *.
  assert (c' = c) by congruence. subst c'.
  exists (json (success_body R)), w', c.
  change ((body (json (success_body R)))?."result") with R.
  split; [exact Hrun |]. split; [reflexivity |]. split; [exact Hquality |].
  split; [exact Hconfidence | exact Hin].
Qed.

Lemma demo_confidence_in_range_witness :
  let f := example_file "photo.png" "image/png" in
  let category := getFileCategory (mimetype f) in
  let r1 := example_random (rngCalls world0) in
  let r2 := example_random (S (rngCalls world0)) in
  let run :=
    handleAnalyze example_random example_now no_credentials example_statSync
      vendor_down example_toString (Some f) world0 in
  let in_range (c : Q) :=
    0 <= c <= 1 /\
    (category = "image" \/ category = "video" /\ credentialsMissing no_credentials = true ->
     (Num.lit 0.8 < r1 ->
      Num.lit 0.7 <= c <= 1 /\ (r2 <= top_draw -> c < 1)) /\
     (r1 <= Num.lit 0.8 -> Num.lit 0.1 <= c <= 0.5)) /\
    (category = "video" -> credentialsMissing no_credentials = false ->
     (Num.lit 0.8 < r1 -> Num.lit 0.05 <= c <= Num.lit 0.3) /\
     (r1 <= Num.lit 0.8 -> Num.lit 0.65 <= c <= 1)) /\
    (category = "audio" ->
     (0.5 < r1 -> Num.lit 0.7 <= c <= Num.lit 0.95) /\
     (r1 <= 0.5 -> Num.lit 0.75 <= c <= Num.lit 0.95)) in
  (forall res w',
     run = (Returned res, w') ->
     (body res)?."result"?."analysisQuality" = JStr "DEMO" ->
     exists c, (body res)?."result"?."confidence" = JNum c /\ in_range c) /\
  (category = "audio"
   \/ (category = "image" \/ category = "video")
      /\ credentialsMissing no_credentials = true
   \/ category = "video"
      /\ ~ vendor_succeeds vendor_down SIGHTENGINE_VIDEO_CHECK ->
   exists res w' c,
     run = (Returned res, w') /\
     (body res)?."success" = JBool true /\
     (body res)?."result"?."analysisQuality" = JStr "DEMO" /\
     (body res)?."result"?."confidence" = JNum c /\
     in_range c).
Proof.
  apply (demo_confidence_in_range example_random example_now no_credentials
           example_statSync vendor_down example_toString
           (example_file "photo.png" "image/png") world0).
  intros n. vm_compute. split; [discriminate | reflexivity].
Defined.

(** C10, as stated, fails: open ends of the ranges are reached when the
    second draw is the highest binary64 number below 1. The image fallback
    then gives 0.5 after a first draw of 0.5, the video fallback 1, and
    the audio generator the binary64 number 0.95 on both of its
    branches. *)
Lemma demo_scores_reach_open_ends :
  (forall n, 0 <= draws_top 0.5 n < 1) /\ (forall n, 0 <= draws_top 0.6 n < 1) /\
  Num.round64 top_draw == top_draw /\
  (exists c,
     (top_answer no_credentials 0.5 "photo.png" "image/png")?."result"?."confidence"
     = JNum c /\
     (top_answer no_credentials 0.5 "photo.png" "image/png")?."result"?."analysisQuality"
     = JStr "DEMO" /\
     c == 0.5 /\ ~ c < 0.5) /\
  (exists c,
     (top_answer example_env 0.5 "clip.mp4" "video/mp4")?."result"?."confidence"
     = JNum c /\
     (top_answer example_env 0.5 "clip.mp4" "video/mp4")?."result"?."analysisQuality"
     = JStr "DEMO" /\
     c == 1 /\ ~ c < 1) /\
  (exists c,
     (top_answer example_env 0.6 "voice.wav" "audio/wav")?."result"?."confidence"
     = JNum c /\
     c == Num.lit 0.95 /\ ~ c < Num.lit 0.95) /\
  (exists c,
     (top_answer example_env 0.5 "voice.wav" "audio/wav")?."result"?."confidence"
     = JNum c /\
     c == Num.lit 0.95 /\ ~ c < Num.lit 0.95).
Proof.
  split; [apply draws_top_range; split; evaluated |].
  split; [apply draws_top_range; split; evaluated |].
  split; [evaluated |].
  split; [eexists; split; [vm_compute; reflexivity |];
          split; [vm_compute; reflexivity |]; split; evaluated |].
  split; [eexists; split; [vm_compute; reflexivity |];
          split; [vm_compute; reflexivity |]; split; evaluated |].
  split; eexists; (split; [vm_compute; reflexivity |]); split; evaluated.
Qed.

(** ** Upload validation *)

Lemma includes_In (l : list string) (x : string) :
  includes l x = true <-> In x l.
Proof.
  unfold includes. rewrite existsb_exists. split.
  - intros (y & Hy & Heq). apply String.eqb_eq in Heq. subst y. exact Hy.
  - intros Hx. exists x. split; [exact Hx | apply String.eqb_refl].
Qed.

Lemma getFileCategory_unsupported (mimeType : string) :
  getFileCategory mimeType = "unsupported" <-> ~ In mimeType ALL_SUPPORTED_TYPES.
Proof.
  unfold getFileCategory, ALL_SUPPORTED_TYPES.
  rewrite !in_app_iff, <- !includes_In.
  destruct (includes SUPPORTED_IMAGE_TYPES mimeType),
    (includes SUPPORTED_VIDEO_TYPES mimeType),
    (includes SUPPORTED_AUDIO_TYPES mimeType);
    split; intros H; try discriminate H; try reflexivity;
    try (exfalso; apply H; tauto).
  intros [Habs | [Habs | Habs]]; discriminate Habs.
Qed.

Lemma fileFilter_unsupported (part : FilePart) :
  getFileCategory (part_mimetype part) = "unsupported" ->
  exists message, fileFilter (Some part) = cb_error message.
Proof.
  intros Hcategory. unfold fileFilter. rewrite Hcategory.
  destruct (part_size part) as [s |].
  - destruct (s >? 10 * 1024 * 1024)%Z; [eexists; reflexivity |].
    destruct (s =? 0)%Z; eexists; reflexivity.
  - eexists. reflexivity.
Qed.

(** C4: an upload whose mime type is outside the whitelist (equivalently,
    one whose category is ["unsupported"]) is refused by the filter, and
    so is, by the size limit when not already by the filter, an upload of
    more than [10 * 1024 * 1024] bytes; in both cases the analyze route
    answers 400 with [success: false]. *)
Theorem upload_validation_rejects random now env statSync axios
    numberToString cwd part w :
  ~ In (part_mimetype part) ALL_SUPPORTED_TYPES
  \/ (part_length part > 10 * 1024 * 1024)%Z ->
  (getFileCategory (part_mimetype part) = "unsupported"
   <-> ~ In (part_mimetype part) ALL_SUPPORTED_TYPES) /\
  (~ In (part_mimetype part) ALL_SUPPORTED_TYPES ->
   exists message, fileFilter (Some part) = cb_error message) /\
  limits_fileSize = 10485760%Z /\
  exists res w' message,
    analyzeRoute random now env statSync axios numberToString cwd (Some part) w
    = (Returned res, w') /\
    upload_single now env numberToString cwd (Some part) w
    = (Returned (UploadError message), w') /\
    statusCode res = 400%Z /\
    body res = failure_body message /\
    (body res)?."success" = JBool false.
Proof.
  intros Hbad.
  split; [apply getFileCategory_unsupported |].
  split; [intros Hmime; apply fileFilter_unsupported,
            getFileCategory_unsupported; exact Hmime |].
  split; [reflexivity |].
  unfold analyzeRoute, upload_single, bind.
  destruct (fileFilter (Some part)) as [message |] eqn:Hfilter.
  - cbn. do 3 eexists. repeat split.
  - destruct Hbad as [Hmime | Hsize].
    + apply getFileCategory_unsupported, fileFilter_unsupported in Hmime.
      destruct Hmime as [message Hmessage]. congruence.
    + cbn. unfold limits_fileSize.
      destruct (part_length part >? 10 * 1024 * 1024)%Z eqn:Hlimit.
      * cbn. do 3 eexists. repeat split.
      * exfalso. rewrite Z.gtb_ltb, Z.ltb_ge in Hlimit. lia.
Qed.

Definition example_part : FilePart :=
  mkFilePart "setup.exe" "application/x-msdownload" None 4096.

Lemma upload_validation_rejects_witness :
  (getFileCategory (part_mimetype example_part) = "unsupported"
   <-> ~ In (part_mimetype example_part) ALL_SUPPORTED_TYPES) /\
  (~ In (part_mimetype example_part) ALL_SUPPORTED_TYPES ->
   exists message, fileFilter (Some example_part) = cb_error message) /\
  limits_fileSize = 10485760%Z /\
  exists res w' message,
    analyzeRoute example_random example_now example_env example_statSync
      vendor_up example_toString "/srv/app" (Some example_part) world0
    = (Returned res, w') /\
    upload_single example_now example_env example_toString "/srv/app"
      (Some example_part) world0
    = (Returned (UploadError message), w') /\
    statusCode res = 400%Z /\
    body res = failure_body message /\
    (body res)?."success" = JBool false.
Proof.
  apply (upload_validation_rejects example_random example_now example_env
           example_statSync vendor_up example_toString "/srv/app"
           example_part world0).
  left. vm_compute. intuition discriminate.
Defined.

(** ** Cleanup *)

(** A file is old at time [T]: modified more than 24 hours before. *)
Definition old (T mtime : Z) : Prop :=
  (T - mtime > 24 * 60 * 60 * 1000)%Z.

(** The age in hours, rounded as it is, is above 24 exactly for the old
    files. *)
Lemma ageInHours_old (T mtime : Z) :
  (ageInHours T mtime >? 24) = true <-> old T mtime.
Proof.
  rewrite Num.gtb_true. unfold old, ageInHours, Num.div, Num.sub.
  assert (Hd : inject_Z T - inject_Z mtime == inject_Z (T - mtime)).
  { unfold Qminus, Z.sub. rewrite inject_Z_plus, inject_Z_opp. reflexivity. }
  rewrite (Num.round64_comp _ _ Hd).
  set (d := (T - mtime)%Z).
  assert (E24 : Num.round64 24 == 24) by evaluated.
  assert (Eday : Num.round64 (inject_Z 86400000) == 86400000) by evaluated.
  assert (Enext : Num.round64 (inject_Z 86400001) == 86400001) by evaluated.
  assert (Eage : 24 < Num.round64 (86400001 / (1000 * 60 * 60)))
    by evaluated.
  split; intros H.
  - destruct (Z_gt_le_dec d (24 * 60 * 60 * 1000)) as [Hd' | Hd']; [exact Hd' |].
    exfalso. apply (Qlt_not_le _ _ H).
    apply Qle_trans with (Num.round64 24); [| rewrite E24; apply Qle_refl].
    apply Num.round64_le. apply Qle_shift_div_r; [reflexivity |].
    apply Qle_trans with (Num.round64 (inject_Z 86400000));
      [| rewrite Eday; evaluated].
    apply Num.round64_le. rewrite <- Zle_Qle. exact Hd'.
  - apply Qlt_le_trans with (1 := Eage). apply Num.round64_le.
    apply Qmult_le_compat_r; [| discriminate].
    apply Qle_trans with (Num.round64 (inject_Z 86400001));
      [rewrite Enext; apply Qle_refl |].
    apply Num.round64_le. rewrite <- Zle_Qle. lia.
Qed.

(** What the loop can do with an entry at time [T]: read its time and, if
    it is old, remove it; or not. *)
Definition good (T : Z) (entry : Entry) : Prop :=
  exists t, mtime entry = Some t /\ (old T t -> unlinks entry = true).

Definition bad (T : Z) (entry : Entry) : Prop :=
  mtime entry = None
  \/ exists t, mtime entry = Some t /\ old T t /\ unlinks entry = false.

(** The entry is old. *)
Definition aged (T : Z) (entry : Entry) : Prop :=
  exists t, mtime entry = Some t /\ old T t.

Lemma good_not_bad T entry : good T entry -> bad T entry -> False.
Proof.
  intros (t & Ht & Hunlinks) [Hnone | (t' & Ht' & Hold & Hstays)].
  - congruence.
  - assert (t' = t) by congruence. subst t'.
    rewrite (Hunlinks Hold) in Hstays. discriminate.
Qed.

Lemma aged_dec T entry : aged T entry \/ ~ aged T entry.
Proof.
  unfold aged. destruct (mtime entry) as [t |].
  - destruct (Z_gt_le_dec (T - t) (24 * 60 * 60 * 1000)) as [Ho | Hy].
    + left. exists t. split; [reflexivity | exact Ho].
    + right. intros (t' & Ht' & Ho). injection Ht' as <-. unfold old in Ho. lia.
  - right. intros (t & Ht & _). discriminate.
Qed.

Section CleanupProofs.

Variable now : nat -> Z.
Variable T : Z.
Hypothesis steady_clock : forall i, now i = T.

(** One turn of the loop on an entry of the directory. *)
Lemma cleanupStep_spec (st : CleanupState) (file : string) (entry : Entry) :
  dir st !! file = Some entry ->
  match cleanupStep now st file with
  | Some st' =>
      good T entry /\ clock st' = S (clock st) /\
      (aged T entry -> dir st' = delete file (dir st)
                       /\ cleanedCount st' = S (cleanedCount st)) /\
      (~ aged T entry -> dir st' = dir st
                         /\ cleanedCount st' = cleanedCount st)
  | None => bad T entry
  end.
Proof.
  intros Hfile. unfold cleanupStep. rewrite Hfile, steady_clock.
  destruct (mtime entry) as [t |] eqn:Ht; [| left; exact Ht].
  destruct (ageInHours T t >? 24) eqn:Hage.
  - apply ageInHours_old in Hage.
    assert (Haged : aged T entry) by (exists t; auto).
    destruct (unlinks entry) eqn:Hunlinks.
    + split; [exists t; auto |]. split; [reflexivity |].
      split; [intros _; split; reflexivity | intros Hyoung; contradiction].
    + right. exists t. auto.
  - assert (Hyoung : ~ old T t).
    { intros Hold. apply ageInHours_old in Hold. congruence. }
    split; [exists t; split; [exact Ht | intros Hold; contradiction] |].
    split; [reflexivity |].
    split; [| intros _; split; reflexivity].
    intros (t' & Ht' & Hold). congruence.
Qed.

(** The loop over a list of distinct names, all of them in the directory.
    It removes old entries among them and nothing else; when it runs to
    its end it has removed every old one of them and counted them; and it
    stops at the first entry that it cannot read or cannot remove. *)
Lemma cleanupLoop_spec (files : list string) :
  NoDup files ->
  forall st,
    (forall file, file ∈ files -> is_Some (dir st !! file)) ->
    exists st' finished,
      cleanupLoop now files st = (st', finished) /\
      (forall name entry,
         dir st !! name = Some entry ->
         dir st' !! name = Some entry
         \/ (dir st' !! name = None /\ name ∈ files /\ aged T entry
             /\ unlinks entry = true)) /\
      (forall name, dir st !! name = None -> dir st' !! name = None) /\
      (finished = true ->
       (forall name entry,
          dir st !! name = Some entry -> name ∈ files ->
          good T entry /\ (aged T entry -> dir st' !! name = None)) /\
       (cleanedCount st' + base.size (dir st')
        = cleanedCount st + base.size (dir st))%nat) /\
      (finished = false ->
       exists name entry,
         name ∈ files /\ dir st !! name = Some entry /\ bad T entry).
Proof.
  induction 1 as [| file rest Hfresh Hnodup IH]; intros st Hpresent.
  - exists st, true. split; [reflexivity |].
    split; [intros name entry Hname; left; exact Hname |].
    split; [auto |]. split; [| discriminate].
    intros _. split; [| reflexivity].
    intros name entry _ Hin. apply elem_of_nil in Hin. destruct Hin.
  - destruct (Hpresent file) as [entry Hfile]; [left |].
    pose proof (cleanupStep_spec st file entry Hfile) as Hstep.
    cbn [cleanupLoop].
    destruct (cleanupStep now st file) as [st1 |].
    + destruct Hstep as (Hgood & _ & Hold & Hyoung).
      assert (Hdir1 : forall name,
        name <> file -> dir st1 !! name = dir st !! name).
      { intros name Hne.
        destruct (aged_dec T entry) as [Ho | Hy].
        - destruct (Hold Ho) as [-> _]. apply lookup_delete_ne. congruence.
        - destruct (Hyoung Hy) as [-> _]. reflexivity. }
      destruct (IH st1) as (st' & finished & Hloop & Hkept & Hnone & Hend & Hstop).
      { intros f Hf. rewrite Hdir1.
        - apply Hpresent. right. exact Hf.
        - intros ->. contradiction. }
      exists st', finished. split; [exact Hloop |].
      split; [| split; [| split]].
      * intros name e Hname.
        destruct (decide (name = file)) as [-> | Hne].
        -- assert (e = entry) by congruence. subst e.
           destruct (aged_dec T entry) as [Ho | Hy].
           ++ right. split; [| split; [left | split; [exact Ho |]]].
              ** apply Hnone. destruct (Hold Ho) as [-> _].
                 apply lookup_delete_eq.
              ** destruct Hgood as (t & Ht & Hunlinks).
                 destruct Ho as (t' & Ht' & Ho).
                 apply Hunlinks. congruence.
           ++ destruct (Hyoung Hy) as [Hsame _].
              destruct (Hkept file entry) as [Hstays | (_ & Hin & _)].
              ** rewrite Hsame. exact Hfile.
              ** left. exact Hstays.
              ** contradiction.
        -- rewrite <- (Hdir1 name Hne) in Hname.
           destruct (Hkept name e Hname) as [Hstays | (Hgone & Hin & Ho)].
           ++ left. exact Hstays.
           ++ right. split; [exact Hgone |]. split; [right; exact Hin | exact Ho].
      * intros name Hname. apply Hnone.
        destruct (decide (name = file)) as [-> | Hne]; [congruence |].
        rewrite Hdir1; assumption.
      * intros Hfinished. destruct (Hend Hfinished) as [Hall Hcount].
        split.
        -- intros name e Hname Hin.
           destruct (decide (name = file)) as [-> | Hne].
           ++ assert (e = entry) by congruence. subst e.
              split; [exact Hgood |]. intros Ho. apply Hnone.
              destruct (Hold Ho) as [-> _]. apply lookup_delete_eq.
           ++ apply Hall.
              ** rewrite Hdir1; assumption.
              ** apply elem_of_cons in Hin.
                 destruct Hin as [-> | Hin]; [contradiction | exact Hin].
        -- rewrite Hcount.
           destruct (aged_dec T entry) as [Ho | Hy].
           ++ destruct (Hold Ho) as [-> ->].
              pose proof (map_size_delete_Some file (dir st)) as Hsize.
              rewrite Hsize by (exists entry; exact Hfile).
              assert (base.size (dir st) <> 0)%nat.
              { apply map_size_ne_0_lookup. exists file. exists entry.
                exact Hfile. }
              lia.
           ++ destruct (Hyoung Hy) as [-> ->]. reflexivity.
      * intros Hfinished.
        destruct (Hstop Hfinished) as (name & e & Hin & Hname & Hbad).
        exists name, e. split; [right; exact Hin |].
        split; [| exact Hbad].
        rewrite <- Hdir1; [exact Hname |]. intros ->. contradiction.
    + exists st, false. split; [reflexivity |].
      split; [intros name e Hname; left; exact Hname |].
      split; [auto |]. split; [discriminate |].
      intros _. exists file, entry. split; [left | split; assumption].
Qed.

End CleanupProofs.

(** C7, amended: with the clock read as [T] throughout the request, the
    cleanup endpoint removes nothing but old entries (modified more than
    24 hours before [T]) and adds nothing. When every entry of the uploads
    directory can be read and every old one removed (as for the regular
    files that the disk storage writes), it removes every old entry, leaves
    every other entry as it was, and answers [success: true] with the
    number of entries it removed. When [fs.statSync] throws on an entry, or
    [fs.unlinkSync] on an old one, it answers 500, ["Cleanup failed"], and
    the old entries it removed before stay removed. Without an uploads
    directory it answers [success: true] without a count, and when the
    directory cannot be listed it answers 500. *)
Theorem cleanup_deletes_exactly_old (now : nat -> Z) (T : Z)
    (uploads : gmap string Entry) :
  (forall i, now i = T) ->
  exists res uploads',
    cleanupFiles now (Directory uploads) = (res, Directory uploads') /\
    (forall name entry,
       uploads !! name = Some entry ->
       uploads' !! name = Some entry
       \/ (uploads' !! name = None /\ aged T entry /\ unlinks entry = true)) /\
    (forall name, uploads !! name = None -> uploads' !! name = None) /\
    ((forall name entry, uploads !! name = Some entry -> good T entry) ->
     exists n,
       statusCode res = 200%Z /\
       (body res)?."success" = JBool true /\
       (body res)?."cleanedCount" = JNum (inject_Z (Z.of_nat n)) /\
       (forall name entry,
          uploads !! name = Some entry ->
          (aged T entry -> uploads' !! name = None) /\
          (~ aged T entry -> uploads' !! name = Some entry)) /\
       (n + base.size uploads' = base.size uploads)%nat) /\
    ((exists name entry, uploads !! name = Some entry /\ bad T entry) ->
     statusCode res = 500%Z /\ body res = failure_body "Cleanup failed") /\
    cleanupFiles now NoDirectory
    = (json (JObj [ ("success", JBool true);
                    ("message", JStr "No uploads directory found") ]),
       NoDirectory) /\
    cleanupFiles now NotListable
    = (mkResponse 500 (failure_body "Cleanup failed"), NotListable).
Proof.
  intros Hclock. unfold cleanupFiles.
  assert (Hlisted : forall name entry,
    uploads !! name = Some entry -> name ∈ readdirSync uploads).
  { intros name entry Hname. unfold readdirSync. apply list_elem_of_fmap.
    exists (name, entry). split; [reflexivity |].
    apply elem_of_map_to_list. exact Hname. }
  destruct (cleanupLoop_spec now T Hclock (readdirSync uploads)
              (NoDup_fst_map_to_list uploads) (mkCleanupState uploads 0 0))
    as (st' & finished & Hloop & Hkept & Hnone & Hend & Hstop).
  { intros file Hfile. unfold readdirSync in Hfile.
    apply list_elem_of_fmap in Hfile. destruct Hfile as ([name entry] & -> & Hin).
    apply elem_of_map_to_list in Hin. exists entry. exact Hin. }
  cbn [dir cleanedCount] in *.
  rewrite Hloop.
  assert (Hchanges : forall name entry,
    uploads !! name = Some entry ->
    dir st' !! name = Some entry
    \/ (dir st' !! name = None /\ aged T entry /\ unlinks entry = true)).
  { intros name entry Hname.
    destruct (Hkept name entry Hname) as [Hstays | (Hgone & _ & Ho & Hu)];
      [left; exact Hstays | right; auto]. }
  destruct finished; eexists; exists (dir st');
    (split; [reflexivity |]); (split; [exact Hchanges |]);
    (split; [exact Hnone |]);
    (split; [| split; [| split; reflexivity]]).
  - (* the loop ran to its end *)
    intros _. destruct (Hend eq_refl) as [Hall Hcount].
    exists (cleanedCount st').
    split; [reflexivity |]. split; [reflexivity |]. split; [reflexivity |].
    split; [| exact Hcount].
    intros name entry Hname. split.
    + apply (Hall name entry Hname). eapply Hlisted. exact Hname.
    + intros Hyoung.
      destruct (Hchanges name entry Hname) as [Hstays | (_ & Ho & _)];
        [exact Hstays | contradiction].
  - intros (name & entry & Hname & Hbad).
    destruct (Hend eq_refl) as [Hall _].
    destruct (Hall name entry Hname (Hlisted name entry Hname)) as [Hgood _].
    destruct (good_not_bad T entry Hgood Hbad).
  - (* the loop was left by an exception *)
    intros Hgood.
    destruct (Hstop eq_refl) as (name & entry & _ & Hname & Hbad).
    destruct (good_not_bad T entry (Hgood name entry Hname) Hbad).
  - intros _. split; reflexivity.
Qed.

(** Two files, one modified 25 hours and one modified one hour before the
    request. *)
Definition example_uploads : gmap string Entry :=
  <["1699910000000-old.png" := regular 1699910000000%Z]>
    (<["1699996400000-new.png" := regular 1699996400000%Z]> ∅).

Lemma cleanup_deletes_exactly_old_witness :
  let now := fun _ : nat => 1700000000000%Z in
  let T := 1700000000000%Z in
  let uploads := example_uploads in
  exists res uploads',
    cleanupFiles now (Directory uploads) = (res, Directory uploads') /\
    (forall name entry,
       uploads !! name = Some entry ->
       uploads' !! name = Some entry
       \/ (uploads' !! name = None /\ aged T entry /\ unlinks entry = true)) /\
    (forall name, uploads !! name = None -> uploads' !! name = None) /\
    ((forall name entry, uploads !! name = Some entry -> good T entry) ->
     exists n,
       statusCode res = 200%Z /\
       (body res)?."success" = JBool true /\
       (body res)?."cleanedCount" = JNum (inject_Z (Z.of_nat n)) /\
       (forall name entry,
          uploads !! name = Some entry ->
          (aged T entry -> uploads' !! name = None) /\
          (~ aged T entry -> uploads' !! name = Some entry)) /\
       (n + base.size uploads' = base.size uploads)%nat) /\
    ((exists name entry, uploads !! name = Some entry /\ bad T entry) ->
     statusCode res = 500%Z /\ body res = failure_body "Cleanup failed") /\
    cleanupFiles now NoDirectory
    = (json (JObj [ ("success", JBool true);
                    ("message", JStr "No uploads directory found") ]),
       NoDirectory) /\
    cleanupFiles now NotListable
    = (mkResponse 500 (failure_body "Cleanup failed"), NotListable).
Proof.
  apply (cleanup_deletes_exactly_old (fun _ => 1700000000000%Z)
           1700000000000%Z example_uploads).
  intros i. reflexivity.
Defined.

(** The same request, run. *)
Example cleanup_example :
  let run :=
    cleanupFiles (fun _ => 1700000000000%Z) (Directory example_uploads) in
  (body (fst run))?."cleanedCount" = JNum 1 /\
  (body (fst run))?."message" = JStr "Cleaned up 1 old files" /\
  snd run
  = Directory (<["1699996400000-new.png" := regular 1699996400000%Z]> ∅).
Proof. vm_compute. repeat split. Qed.

(** An uploads directory with an old file and an old subdirectory, which
    [fs.unlinkSync] does not remove. *)
Definition stuck_uploads : gmap string Entry :=
  <["1699910000000-old.png" := regular 1699910000000%Z]>
    (<["thumbnails" := mkEntry (Some 1699910000000%Z) false]> ∅).

(** C7, as stated, fails: the endpoint does not always report success with
    a count. Without the uploads directory the answer has no count, and
    with an old subdirectory among the uploads the answer is a 500 and the
    subdirectory is still there. *)
Lemma cleanup_fails_or_reports_no_count :
  (let run := cleanupFiles (fun _ => 1700000000000%Z) NoDirectory in
   (body (fst run))?."success" = JBool true /\
   Js.has (body (fst run)) "cleanedCount" = false /\
   snd run = NoDirectory) /\
  (let run :=
     cleanupFiles (fun _ => 1700000000000%Z) (Directory stuck_uploads) in
   old 1700000000000 1699910000000 /\
   statusCode (fst run) = 500%Z /\
   (body (fst run))?."success" = JBool false /\
   (body (fst run))?."error" = JStr "Cleanup failed" /\
   Js.has (body (fst run)) "cleanedCount" = false /\
   exists after,
     snd run = Directory after /\
     after !! "thumbnails" = Some (mkEntry (Some 1699910000000%Z) false)).
Proof.
  split; [vm_compute; repeat split |].
  cbv zeta. split; [unfold old; lia |].
  split; [vm_compute; reflexivity |]. split; [vm_compute; reflexivity |].
  split; [vm_compute; reflexivity |]. split; [vm_compute; reflexivity |].
  eexists. split; [vm_compute; reflexivity |]. vm_compute. reflexivity.
Qed.

(** * Further properties of the server *)

(** ** The two scales of a score *)

(** The place of a level on its scale, in the order in which
    [shared/api.ts] lists the levels. *)
Definition riskRank (level : string) : nat :=
  if String.eqb level "LOW" then 0
  else if String.eqb level "MEDIUM" then 1
  else if String.eqb level "HIGH" then 2
  else 3.

Definition categoryRank (category : string) : nat :=
  if String.eqb category "VERY_LOW" then 0
  else if String.eqb category "LOW" then 1
  else if String.eqb category "MEDIUM" then 2
  else if String.eqb category "HIGH" then 3
  else 4.

(** X3: a higher score never gets a lower risk level or a lower confidence
    category. *)
Theorem levels_are_monotone (c1 c2 : Q) :
  c1 <= c2 ->
  (riskRank (getRiskLevel c1) <= riskRank (getRiskLevel c2))%nat /\
  (categoryRank (getConfidenceCategory c1)
   <= categoryRank (getConfidenceCategory c2))%nat.
Proof.
  intros Hle. unfold getRiskLevel, getConfidenceCategory.
  split; num_cases; cbn; first [lia | lra].
Qed.

Lemma levels_are_monotone_witness :
  (riskRank (getRiskLevel 0.35) <= riskRank (getRiskLevel 0.65))%nat /\
  (categoryRank (getConfidenceCategory 0.35)
   <= categoryRank (getConfidenceCategory 0.65))%nat.
Proof. apply (levels_are_monotone 0.35 0.65). vm_compute. discriminate. Defined.


(** X5: the first recommendation is a headline that names the risk level
    of the score, and it is followed by four pieces of advice from the
    level ["MEDIUM"] on and by three below. *)
Theorem recommendations_headline (c : Q) (riskLevel : string) :
  exists headline advice,
    generateRecommendations c riskLevel = headline :: advice /\
    str_includes headline (getRiskLevel c +:+ ":") = true /\
    List.length advice = (if c >=? 0.4 then 4 else 3)%nat.
Proof.
  unfold generateRecommendations, getRiskLevel.
  num_cases; try lra; do 2 eexists; (split; [reflexivity |]);
    split; reflexivity.
Qed.

(** ** The flag, the levels and the notes of a result *)

(** X6: in the result of an image or of a video, the flag [isDeepfake]
    and the two levels agree: a flagged result has the risk level ["HIGH"]
    or ["CRITICAL"] and the category ["HIGH"] or ["VERY_HIGH"], and a
    result whose risk level is ["CRITICAL"], or whose category is
    ["VERY_HIGH"], is flagged. *)
Theorem flag_agrees_with_levels random now env statSync axios
    numberToString f w res w' :
  handleAnalyze random now env statSync axios numberToString (Some f) w
  = (Returned res, w') ->
  (body res)?."success" = JBool true ->
  getFileCategory (mimetype f) <> "audio" ->
  let R := (body res)?."result" in
  (R?."isDeepfake" = JBool true ->
   (R?."riskLevel" = JStr "HIGH" \/ R?."riskLevel" = JStr "CRITICAL") /\
   (R?."confidenceCategory" = JStr "HIGH"
    \/ R?."confidenceCategory" = JStr "VERY_HIGH")) /\
  (R?."riskLevel" = JStr "CRITICAL" -> R?."isDeepfake" = JBool true) /\
  (R?."confidenceCategory" = JStr "VERY_HIGH" -> R?."isDeepfake" = JBool true).
Proof.
  intros Hrun Hsuccess Hkind.
  destruct (handleAnalyze_success _ _ _ _ _ _ _ _ _ _ Hrun Hsuccess)
    as (f' & R & Hf & -> & Hcases).
  injection Hf as <-.
  change ((body (json (success_body R)))?."result") with R. cbv zeta.
  assert (Hlevels : forall kind vendorField analysisField c isDemo,
    analysis_result kind vendorField analysisField c (c >? 0.7) isDemo R ->
    R?."isDeepfake" = JBool (c >? 0.7) /\
    R?."riskLevel" = JStr (getRiskLevel c) /\
    R?."confidenceCategory" = JStr (getConfidenceCategory c)).
  { intros kind vendorField analysisField c isDemo
      (_ & Hflag & _ & _ & Hrisk & Hcat & _). auto. }
  destruct Hcases as [(_ & c & isDemo & HR & _)
                     | [(_ & c & isDemo & HR & _) | (Hc & _)]];
    [| | contradiction];
    destruct (Hlevels _ _ _ _ _ HR) as (-> & -> & ->);
    unfold getRiskLevel, getConfidenceCategory;
    num_cases;
    (repeat split; intros; auto; try discriminate; try lra).
Qed.

Lemma flag_agrees_with_levels_witness :
  let R := (body (response_of clip_run))?."result" in
  (R?."isDeepfake" = JBool true ->
   (R?."riskLevel" = JStr "HIGH" \/ R?."riskLevel" = JStr "CRITICAL") /\
   (R?."confidenceCategory" = JStr "HIGH"
    \/ R?."confidenceCategory" = JStr "VERY_HIGH")) /\
  (R?."riskLevel" = JStr "CRITICAL" -> R?."isDeepfake" = JBool true) /\
  (R?."confidenceCategory" = JStr "VERY_HIGH" -> R?."isDeepfake" = JBool true).
Proof.
  apply (flag_agrees_with_levels example_random example_now example_env
           example_statSync vendor_down example_toString
           (example_file "clip.mp4" "video/mp4") world0
           (response_of clip_run) (final clip_run)).
  - vm_compute. reflexivity.
  - vm_compute. reflexivity.
  - vm_compute. discriminate.
Defined.





(** ** From the handler to the analyses and to the response generators *)

Lemma bind_returned {A B} (m : M A) (f : A -> M B) w b w' :
  bind m f w = (Returned b, w') ->
  exists a w1, m w = (Returned a, w1) /\ f a w1 = (Returned b, w').
Proof.
  unfold bind. destruct (m w) as [[a | e] w1]; intros H; [| discriminate H].
  exists a, w1. split; [reflexivity | exact H].
Qed.

Lemma bind_thrown {A B} (m : M A) (f : A -> M B) w e w' :
  bind m f w = (Thrown e, w') ->
  m w = (Thrown e, w')
  \/ exists a w1, m w = (Returned a, w1) /\ f a w1 = (Thrown e, w').
Proof.
  unfold bind. destruct (m w) as [[a | e1] w1]; intros H.
  - right. exists a, w1. split; [reflexivity | exact H].
  - left. injection H as <- <-. reflexivity.
Qed.

Lemma try_catch_returned {A} (m : M A) (handler : Exn -> M A) w a w' :
  try_catch m handler w = (Returned a, w') ->
  m w = (Returned a, w')
  \/ exists e w1, m w = (Thrown e, w1) /\ handler e w1 = (Returned a, w').
Proof.
  unfold try_catch. destruct (m w) as [[a1 | e] w1]; intros H.
  - left. exact H.
  - right. exists e, w1. split; [reflexivity | exact H].
Qed.

Lemma yields_returned {A} (m : M A) (P : A -> Prop) w a w' :
  yields m P -> m w = (Returned a, w') -> P a /\ frame w w'.
Proof. intros Hm Hrun. exact (wp_returned _ _ _ _ _ _ (Hm w) Hrun). Qed.

Lemma yields_returns {A} (m : M A) (P : A -> Prop) w :
  yields m P -> exists a w', m w = (Returned a, w') /\ P a /\ frame w w'.
Proof. intros Hm. exact (wp_never_returns _ _ _ (Hm w)). Qed.

(** The world after one reading of the clock. *)
Definition tick (w : World) : World :=
  mkWorld (rngCalls w) (S (clockCalls w)) (outbound w).

(** The fields of a result that the handler takes over unchanged from the
    response of the analysis. *)
Definition copied_fields : list string :=
  [ "riskLevel"; "confidenceCategory"; "analysisQuality";
    "processingDetails"; "recommendations"; "limitations" ].

Definition copies (r : JsVal) (f : MulterFile) (R : JsVal) : Prop :=
  R?."metadata" = fileMetadata r f /\
  Forall (fun k => R?.k = r?.k) copied_fields.

Section Paths.

Variable random : nat -> Q.
Variable now : nat -> Z.
Variable env : gmap string string.
Variable statSync : string -> option Z.
Variable axios : string -> HttpOutcome.
Variable numberToString : Q -> string.

Local Notation "'handler'" :=
  (handleAnalyze random now env statSync axios numberToString).

(** The handler on an image: it reads the clock, runs the analysis, reads
    the clock again and wraps the response; what the analysis throws
    becomes the message of a 500. *)
Lemma handleAnalyze_image_run f w r w1 :
  getFileCategory (mimetype f) = "image" ->
  analyzeImage random env statSync axios numberToString (path f) (tick w)
  = (Returned r, w1) ->
  exists R,
    handler (Some f) w = (Returned (json (success_body R)), tick w1) /\
    copies r f R /\
    R?."sightengineData" = r /\
    R?."modelBreakdown" = r?."modelBreakdown" /\
    R?."confidence" = r?."deepfake"?."prob" /\
    R?."isDeepfake" = JBool (Js.gtb (r?."deepfake"?."prob") 0.7) /\
    R?."type" = JStr "image".
Proof.
  intros Hkind Hrun.
  unfold handleAnalyze, try_catch, bind, Date_now. rewrite Hkind.
  rewrite String.eqb_refl. fold (tick w). rewrite Hrun. cbn.
  eexists. split; [reflexivity |]. unfold copies, copied_fields.
  repeat split; repeat constructor.
Qed.

Lemma handleAnalyze_image_throws f w e w1 :
  getFileCategory (mimetype f) = "image" ->
  analyzeImage random env statSync axios numberToString (path f) (tick w)
  = (Thrown e, w1) ->
  handler (Some f) w
  = (Returned (mkResponse 500 (failure_body (exn_message e))), w1).
Proof.
  intros Hkind Hrun.
  unfold handleAnalyze, try_catch, bind, Date_now. rewrite Hkind.
  rewrite String.eqb_refl. fold (tick w). rewrite Hrun. reflexivity.
Qed.

Lemma handleAnalyze_video_run f w r w1 :
  getFileCategory (mimetype f) = "video" ->
  analyzeVideo random env axios numberToString (path f) (tick w)
  = (Returned r, w1) ->
  exists R,
    handler (Some f) w = (Returned (json (success_body R)), tick w1) /\
    copies r f R /\
    R?."sightengineData" = r /\
    R?."modelBreakdown" = r?."modelBreakdown" /\
    R?."confidence" = r?."deepfake"?."prob" /\
    R?."isDeepfake" = JBool (Js.gtb (r?."deepfake"?."prob") 0.7) /\
    R?."type" = JStr "video".
Proof.
  intros Hkind Hrun.
  unfold handleAnalyze, try_catch, bind, Date_now. rewrite Hkind.
  change (String.eqb "video" "image") with false.
  rewrite String.eqb_refl. cbv iota. fold (tick w). rewrite Hrun. cbn.
  eexists. split; [reflexivity |]. unfold copies, copied_fields.
  repeat split; repeat constructor.
Qed.

Lemma handleAnalyze_audio_run f w r w1 :
  getFileCategory (mimetype f) = "audio" ->
  analyzeAudio random (path f) (tick w) = (Returned r, w1) ->
  exists R,
    handler (Some f) w = (Returned (json (success_body R)), tick w1) /\
    copies r f R /\
    R?."resembleData" = r /\
    R?."modelBreakdown" = JUndefined /\
    R?."confidence" = r?."confidence" /\
    R?."isDeepfake" = r?."is_synthetic" /\
    R?."type" = JStr "audio".
Proof.
  intros Hkind Hrun.
  unfold handleAnalyze, try_catch, bind, Date_now. rewrite Hkind.
  change (String.eqb "audio" "image") with false.
  change (String.eqb "audio" "video") with false.
  rewrite String.eqb_refl. cbv iota. fold (tick w). rewrite Hrun. cbn.
  eexists. split; [reflexivity |]. unfold copies, copied_fields.
  repeat split; repeat constructor.
Qed.

(** Conversely, a successful answer for a file of some kind wraps a
    response of the analysis of that kind. *)
Lemma handleAnalyze_image_inv f w res w' :
  getFileCategory (mimetype f) = "image" ->
  handler (Some f) w = (Returned res, w') ->
  (exists r w1 R,
     analyzeImage random env statSync axios numberToString (path f) (tick w)
     = (Returned r, w1) /\
     res = json (success_body R) /\ w' = tick w1 /\
     copies r f R /\
     R?."sightengineData" = r /\
     R?."modelBreakdown" = r?."modelBreakdown" /\
     R?."confidence" = r?."deepfake"?."prob" /\
     R?."isDeepfake" = JBool (Js.gtb (r?."deepfake"?."prob") 0.7) /\
     R?."type" = JStr "image")
  \/ (exists e,
        analyzeImage random env statSync axios numberToString (path f) (tick w)
        = (Thrown e, w') /\
        res = mkResponse 500 (failure_body (exn_message e))).
Proof.
  intros Hkind Hrun.
  destruct (analyzeImage random env statSync axios numberToString (path f)
              (tick w)) as [[r | e] w1] eqn:Hanalysis.
  - destruct (handleAnalyze_image_run f w r w1 Hkind Hanalysis)
      as (R & Hrun' & H).
    rewrite Hrun' in Hrun. injection Hrun as <- <-.
    left. exists r, w1, R. auto 10.
  - rewrite (handleAnalyze_image_throws f w e w1 Hkind Hanalysis) in Hrun.
    injection Hrun as <- <-. right. exists e. auto.
Qed.

Lemma analyzeVideo_returns filePath w :
  exists r w1,
    analyzeVideo random env axios numberToString filePath w = (Returned r, w1).
Proof.
  destruct (wp_never_returns _ _ _
              (analyzeVideo_wp random env axios numberToString filePath w))
    as (r & w1 & Hrun & _).
  exists r, w1. exact Hrun.
Qed.

Lemma handleAnalyze_video_inv f w res w' :
  getFileCategory (mimetype f) = "video" ->
  handler (Some f) w = (Returned res, w') ->
  exists r w1 R,
    analyzeVideo random env axios numberToString (path f) (tick w)
    = (Returned r, w1) /\
    res = json (success_body R) /\ w' = tick w1 /\
    copies r f R /\
    R?."sightengineData" = r /\
    R?."modelBreakdown" = r?."modelBreakdown" /\
    R?."confidence" = r?."deepfake"?."prob" /\
    R?."isDeepfake" = JBool (Js.gtb (r?."deepfake"?."prob") 0.7) /\
    R?."type" = JStr "video".
Proof.
  intros Hkind Hrun.
  destruct (analyzeVideo_returns (path f) (tick w)) as (r & w1 & Hanalysis).
  destruct (handleAnalyze_video_run f w r w1 Hkind Hanalysis)
    as (R & Hrun' & H).
  rewrite Hrun' in Hrun. injection Hrun as <- <-.
  exists r, w1, R. auto 10.
Qed.

Lemma analyzeAudio_returns filePath w :
  exists r w1, analyzeAudio random filePath w = (Returned r, w1).
Proof.
  destruct (wp_never_returns _ _ _ (analyzeAudio_wp random filePath w))
    as (r & w1 & Hrun & _).
  exists r, w1. exact Hrun.
Qed.

Lemma handleAnalyze_audio_inv f w res w' :
  getFileCategory (mimetype f) = "audio" ->
  handler (Some f) w = (Returned res, w') ->
  exists r w1 R,
    analyzeAudio random (path f) (tick w) = (Returned r, w1) /\
    res = json (success_body R) /\ w' = tick w1 /\
    copies r f R /\
    R?."resembleData" = r /\
    R?."modelBreakdown" = JUndefined /\
    R?."confidence" = r?."confidence" /\
    R?."isDeepfake" = r?."is_synthetic" /\
    R?."type" = JStr "audio".
Proof.
  intros Hkind Hrun.
  destruct (analyzeAudio_returns (path f) (tick w)) as (r & w1 & Hanalysis).
  destruct (handleAnalyze_audio_run f w r w1 Hkind Hanalysis)
    as (R & Hrun' & H).
  rewrite Hrun' in Hrun. injection Hrun as <- <-.
  exists r, w1, R. auto 10.
Qed.

End Paths.

(** ** What the response generators put in *)



(** The weights and the impacts of a list of confidence factors. *)
Definition factor_weights (factors : JsVal) : list Q :=
  match factors with
  | JArr items =>
      List.map (fun f => match f?."weight" with JNum q => q | _ => 0 end) items
  | _ => []
  end.

Definition factor_impacts (factors : JsVal) : list JsVal :=
  match factors with
  | JArr items => List.map (fun f => f?."impact") items
  | _ => []
  end.


Ltac draws_step :=
  lazymatch goal with
  | |- yields (bind (Math_random _) _) _ =>
      eapply yields_bind; [apply yields_Math_random | intros ? _]
  | |- yields (if _ then _ else _) _ => apply yields_if
  | |- yields (ret _) _ => apply yields_ret
  | |- yields (bind _ _) _ =>
      eapply yields_bind with (P := any);
      [solve [repeat draws_step; exact I] | intros ? _]
  end.


Lemma yields_weaken {A} (m : M A) (P P' : A -> Prop) :
  yields m P -> (forall a, P a -> P' a) -> yields m P'.
Proof.
  intros Hm HP w.
  eapply wp_mono; [apply Hm | | intros ? ? Hnever; exact Hnever].
  intros a w' [Pa F]. split; [apply HP; exact Pa | exact F].
Qed.

Section Generators.

Variable random : nat -> Q.
Variable numberToString : Q -> string.



(** The processing details of a response: the provider, the quality
    score, the warnings, and three confidence factors with their
    weights. *)
Definition processing_details (provider : string) (isDemo : bool)
    (err : option string) (weights : list Q) (raw r : JsVal) : Prop :=
  let details := r?."processingDetails" in
  details?."apiProvider" = JStr provider /\
  details?."qualityScore" = JNum (if isDemo then 0.6 else 0.9) /\
  details?."processingWarnings" = processingWarnings err /\
  factor_weights (details?."confidenceFactors") = weights /\
  Forall (fun impact =>
            In impact [JStr "POSITIVE"; JStr "NEGATIVE"; JStr "NEUTRAL"])
         (factor_impacts (details?."confidenceFactors")) /\
  r?."raw_response" = raw.

Ltac details_fields :=
  unfold processing_details; cbv zeta;
  repeat split; try reflexivity;
  cbn; repeat first [apply Forall_nil_2 | apply Forall_cons_2];
  repeat match goal with
  | |- context [if ?b then _ else _] => destruct b
  end;
  first [ left; reflexivity | right; left; reflexivity
        | right; right; left; reflexivity ].

Lemma generateEnhancedImageResponse_details confidence isDemo metadata raw err :
  yields (generateEnhancedImageResponse random numberToString confidence
            isDemo metadata raw err)
         (processing_details "Sightengine" isDemo err [0.4; 0.3; 0.3] raw).
Proof.
  unfold generateEnhancedImageResponse. cbv zeta.
  eapply yields_bind with (P := any).
  { apply yields_if; repeat draws_step; exact I. }
  intros faceDetection _.
  do 3 (eapply yields_bind; [apply yields_demo_or | intros ? _]).
  eapply yields_bind; [apply generateModelBreakdown_yields |].
  intros modelBreakdown _. apply yields_ret. details_fields.
Qed.

Lemma generateEnhancedVideoResponse_details confidence isDemo metadata raw err :
  yields (generateEnhancedVideoResponse random confidence isDemo metadata
            raw err)
         (processing_details "Sightengine" isDemo err [0.4; 0.3; 0.3] raw).
Proof.
  unfold generateEnhancedVideoResponse. cbv zeta.
  eapply yields_bind with (P := any).
  { apply yields_if.
    - draws_step.
      eapply yields_bind with (P := any).
      { apply yields_mapM. intros _. repeat draws_step. exact I. }
      intros frameScores _. repeat draws_step. exact I.
    - apply yields_ret. exact I. }
  intros frameAnalysis _.
  do 4 (eapply yields_bind; [apply yields_demo_or | intros ? _]).
  eapply yields_bind; [apply generateModelBreakdown_yields |].
  intros modelBreakdown _. apply yields_ret. details_fields.
Qed.

Lemma generateEnhancedAudioResponse_details confidence isDeepfake isDemo
    metadata raw err :
  yields (generateEnhancedAudioResponse random confidence isDeepfake isDemo
            metadata raw err)
         (processing_details "Resemble AI" isDemo err [0.4; 0.4; 0.2] raw).
Proof.
  unfold generateEnhancedAudioResponse. cbv zeta.
  eapply yields_bind with (P := any).
  { apply yields_if; repeat draws_step; exact I. }
  intros audioAnalysis _. apply yields_ret. details_fields.
Qed.

(** *** The model breakdown, with every draw in [[0, 1)] *)

Hypothesis random_range : forall n, 0 <= random n < 1.






End Generators.

(** ** The paths of the analyses *)

Lemma wp_thrown {A} (m : M A) Q E w e w' :
  wp m Q E w -> m w = (Thrown e, w') -> E e w'.
Proof. unfold wp. intros H Hrun. rewrite Hrun in H. exact H. Qed.

(** The message of the error that the image analysis throws on HTTP 429. *)
Definition rateLimitMessage (numberToString : Q -> string)
    (response : AxiosResponse) : string :=
  "API rate limit exceeded. Please wait "
  +:+ toString numberToString ((ar_headers response)?."retry-after" |? JStr "60")
  +:+ " seconds before trying again.".

(** The vendor rejected the call with the status 429. *)
Definition rate_limited (axios : string -> HttpOutcome) (url : string)
    (response : AxiosResponse) : Prop :=
  exists message,
    axios url = Rejects (AxiosError message (Some response)) /\
    ar_status response = 429%Z.

Section Analyses.

Variable random : nat -> Q.
Variable now : nat -> Z.
Variable env : gmap string string.
Variable statSync : string -> option Z.
Variable axios : string -> HttpOutcome.
Variable numberToString : Q -> string.

(** Every response of the image analysis comes out of the response
    generator: without an error message when it is built from the
    vendor's answer, and with one when it is demo data. *)
Lemma analyzeImage_generated filePath w r w' :
  analyzeImage random env statSync axios numberToString filePath w
  = (Returned r, w') ->
  exists c isDemo metadata raw err w0,
    generateEnhancedImageResponse random numberToString c isDemo metadata
      raw err w0 = (Returned r, w') /\
    (isDemo = false -> err = None) /\
    (isDemo = true -> exists m, err = Some m /\ m <> "") /\
    (credentialsMissing env = true ->
     err = Some "Sightengine API credentials not configured") /\
    (isDemo = true -> metadata = demoImageMetadata).
Proof.
  unfold analyzeImage. intros Hrun.
  destruct (credentialsMissing env).
  - apply bind_returned in Hrun as (c & w1 & _ & Hrun).
    exists c, true. do 3 eexists. exists w1.
    split; [exact Hrun |]. split; [discriminate |].
    split; [| split; reflexivity].
    intros _. eexists. split; [reflexivity | discriminate].
  - apply bind_returned in Hrun as (size & w1 & _ & Hrun).
    destruct (size =? 0)%Z; [discriminate Hrun |].
    destruct (size >? 10 * 1024 * 1024)%Z; [discriminate Hrun |].
    apply try_catch_returned in Hrun as [Hrun | (e & w2 & _ & Hrun)].
    + apply bind_returned in Hrun as (data & w2 & _ & Hrun).
      destruct (String.eqb (sd_status data) "success");
        [| discriminate Hrun].
      eexists; exists false. do 3 eexists. exists w2.
      split; [exact Hrun |]. split; [reflexivity |].
      repeat split; discriminate.
    + apply bind_returned in Hrun as (_u & w3 & _ & Hrun).
      apply bind_returned in Hrun as (c & w4 & _ & Hrun).
      exists c, true. do 3 eexists. exists w4.
      split; [exact Hrun |]. split; [discriminate |].
      split; [| split; [discriminate | reflexivity]].
      intros _. eexists. split; [reflexivity |].
      destruct e as [message | message response]; [discriminate |].
      repeat match goal with
      | |- context [bool_decide ?P] => destruct (bool_decide P)
      end; discriminate.
Qed.

Lemma analyzeVideo_generated filePath w r w' :
  analyzeVideo random env axios numberToString filePath w = (Returned r, w') ->
  exists c isDemo metadata raw err w0,
    generateEnhancedVideoResponse random c isDemo metadata raw err w0
    = (Returned r, w') /\
    (isDemo = false -> err = None) /\
    (credentialsMissing env = true ->
     err = Some "Sightengine API credentials not configured") /\
    (isDemo = true -> metadata = demoVideoMetadata).
Proof.
  unfold analyzeVideo. intros Hrun.
  destruct (credentialsMissing env).
  - apply bind_returned in Hrun as (c & w1 & _ & Hrun).
    exists c, true. do 3 eexists. exists w1.
    split; [exact Hrun |]. split; [discriminate | split; reflexivity].
  - apply try_catch_returned in Hrun as [Hrun | (e & w2 & _ & Hrun)].
    + apply bind_returned in Hrun as (data & w2 & _ & Hrun).
      destruct (String.eqb (sd_status data) "success");
        [| discriminate Hrun].
      eexists; exists false. do 3 eexists. exists w2.
      split; [exact Hrun |]. split; [reflexivity | split; discriminate].
    + apply bind_returned in Hrun as (c & w4 & _ & Hrun).
      exists c, true. do 3 eexists. exists w4.
      split; [exact Hrun |]. split; [discriminate |].
      split; [discriminate | reflexivity].
Qed.

Lemma analyzeAudio_generated filePath w r w' :
  analyzeAudio random filePath w = (Returned r, w') ->
  exists c isDeepfake w0,
    generateEnhancedAudioResponse random c isDeepfake true
      (JObj [ ("duration", JNum 8.5); ("sample_rate", JNum 44100);
              ("channels", JNum 2) ])
      JUndefined None w0 = (Returned r, w').
Proof.
  unfold analyzeAudio. intros Hrun.
  apply bind_returned in Hrun as (r1 & w1 & _ & Hrun).
  apply bind_returned in Hrun as (c & w2 & _ & Hrun). eauto 10.
Qed.


(** The video analysis on the vendor's answer. *)
Definition frameDeepfakeScores (data : SightengineData) : list Q :=
  List.filter (fun score => score >=? 0)
    (List.map (fun frame => num_coalesce frame 0)
       (default [] (sd_frames data))).

Definition summaryDeepfake (data : SightengineData) : Q :=
  num_coalesce (sd_deepfake_prob data) (num_coalesce (sd_type_deepfake data) 0).

Definition finalDeepfakeScore (data : SightengineData) : Q :=
  Qmax (max_list 0 (frameDeepfakeScores data)) (summaryDeepfake data).

Lemma analyzeVideo_api filePath w data :
  credentialsMissing env = false ->
  axios SIGHTENGINE_VIDEO_CHECK = Resolves data ->
  sd_status data = "success" ->
  exists r w' metadata raw,
    analyzeVideo random env axios numberToString filePath w
    = (Returned r, w') /\
    generateEnhancedVideoResponse random (finalDeepfakeScore data) false
      metadata raw None (posted w SIGHTENGINE_VIDEO_CHECK)
    = (Returned r, w') /\
    metadata?."frames_analyzed"
    = JNum (inject_Z (Z.of_nat (List.length (default [] (sd_frames data))))) /\
    metadata?."max_frame_score"
    = JNum (max_list 0 (frameDeepfakeScores data)).
Proof.
  intros Hmissing Haxios Hstatus.
  unfold analyzeVideo. rewrite Hmissing.
  unfold try_catch, bind, axios_post. rewrite Haxios, Hstatus.
  change (String.eqb "success" "success") with true. cbv iota zeta.
  fold (frameDeepfakeScores data). fold (summaryDeepfake data).
  fold (finalDeepfakeScore data). fold (posted w SIGHTENGINE_VIDEO_CHECK).
  match goal with
  | |- context [generateEnhancedVideoResponse ?rnd ?c ?d ?md ?raw ?err ?w0] =>
      destruct (generateEnhancedVideoResponse rnd c d md raw err w0)
        as [[r | e] w'] eqn:Hgen;
      [ exists r, w', md, raw
      | exfalso;
        exact (wp_thrown _ _ _ _ _ _
                 (generateEnhancedVideoResponse_yields _ _ _ _ _ _ _) Hgen) ]
  end.
  repeat split. exact Hgen.
Qed.

(** How the image analysis ends, case by case. *)
Definition image_refusal (filePath : string) (e : Exn) (w w' : World) : Prop :=
  credentialsMissing env = false /\
  ((statSync filePath = None /\ w' = w /\
    e = JsError ("ENOENT: no such file or directory, stat '"
                 +:+ filePath +:+ "'")) \/
   (statSync filePath = Some 0%Z /\ w' = w /\
    e = JsError "Uploaded file is empty") \/
   (exists size,
      statSync filePath = Some size /\ (size > 10 * 1024 * 1024)%Z /\
      w' = w /\ e = JsError "File size exceeds 10MB limit") \/
   (exists size response,
      statSync filePath = Some size /\ size <> 0%Z /\
      (size <= 10 * 1024 * 1024)%Z /\
      rate_limited axios SIGHTENGINE_CHECK response /\
      w' = posted w SIGHTENGINE_CHECK /\
      e = JsError (rateLimitMessage numberToString response))).

Definition image_accepted (filePath : string) : Prop :=
  credentialsMissing env = true \/
  exists size,
    statSync filePath = Some size /\ size <> 0%Z /\
    (size <= 10 * 1024 * 1024)%Z /\
    ~ exists response, rate_limited axios SIGHTENGINE_CHECK response.

Lemma analyzeImage_outcomes filePath w :
  wp (analyzeImage random env statSync axios numberToString filePath)
     (fun _ _ => image_accepted filePath)
     (fun e w' => image_refusal filePath e w w')
     w.
Proof.
  unfold analyzeImage, image_accepted, image_refusal.
  destruct (credentialsMissing env) eqn:Hmissing.
  - apply wp_bind.
    eapply wp_mono;
      [apply demoScore_wp | | intros ? ? Hnever; destruct Hnever].
    intros c w1 _. cbv beta.
    eapply wp_mono;
      [apply generateEnhancedImageResponse_yields | | intros ? ? Hnever; destruct Hnever].
    intros r w2 _. left. reflexivity.
  - unfold fs_statSync. destruct (statSync filePath) as [size |].
    2: { apply wp_bind, wp_throw. split; [reflexivity |]. left. auto. }
    apply wp_bind, wp_ret.
    destruct (size =? 0)%Z eqn:Hempty.
    { apply wp_throw. apply Z.eqb_eq in Hempty. subst size.
      split; [reflexivity |]. right; left. auto. }
    destruct (size >? 10 * 1024 * 1024)%Z eqn:Hlimit.
    { apply wp_throw. split; [reflexivity |]. right; right; left.
      exists size. rewrite Z.gtb_ltb, Z.ltb_lt in Hlimit.
      repeat split; [lia]. }
    apply Z.eqb_neq in Hempty.
    rewrite Z.gtb_ltb, Z.ltb_ge in Hlimit.
    assert (Hdemo : forall errorDetails w0,
      wp (confidence <- demoScore random;;
          generateEnhancedImageResponse random numberToString confidence
            true demoImageMetadata JNull (Some errorDetails))
         (fun _ _ => True) (fun _ _ => False) w0).
    { intros errorDetails w0. apply wp_bind.
      eapply wp_mono; [apply demoScore_wp | | intros ? ? Hnever; destruct Hnever].
      intros c w1 _. cbv beta.
      eapply wp_mono;
        [apply generateEnhancedImageResponse_yields | | intros ? ? Hnever; destruct Hnever].
      intros; exact I. }
    apply wp_try_catch, wp_bind, wp_axios_post.
    + intros data Hdata.
      assert (Hok : false = true \/
        exists size0,
          Some size = Some size0 /\ size0 <> 0%Z /\
          (size0 <= 10 * 1024 * 1024)%Z /\
          ~ exists response, rate_limited axios SIGHTENGINE_CHECK response).
      { right. exists size. repeat split; auto.
        intros (response & message & Hrej & _). congruence. }
      destruct (String.eqb (sd_status data) "success").
      * eapply wp_mono;
          [apply generateEnhancedImageResponse_yields | | intros ? ? Hnever; destruct Hnever].
        intros r w2 _. exact Hok.
      * apply wp_throw, wp_bind, wp_ret.
        eapply wp_mono; [apply Hdemo | | intros ? ? Hnever; destruct Hnever].
        intros r w2 _. exact Hok.
    + intros error Herror. cbv beta. apply wp_bind.
      destruct error as [message | message [response |]].
      * apply wp_ret.
        eapply wp_mono; [apply Hdemo | | intros ? ? Hnever; destruct Hnever].
        intros r w2 _. right. exists size. repeat split; auto.
        intros (response & message' & Hrej & _). congruence.
      * destruct (ar_status response =? 429)%Z eqn:Hstatus.
        -- apply wp_throw. split; [reflexivity |]. right; right; right.
           exists size, response. apply Z.eqb_eq in Hstatus.
           repeat split; auto. exists message. auto.
        -- apply wp_ret.
           eapply wp_mono; [apply Hdemo | | intros ? ? Hnever; destruct Hnever].
           intros r w2 _. right. exists size. repeat split; auto.
           intros (response' & message' & Hrej & H429).
           rewrite Herror in Hrej. injection Hrej as <- <-.
           apply Z.eqb_neq in Hstatus. contradiction.
      * apply wp_ret.
        eapply wp_mono; [apply Hdemo | | intros ? ? Hnever; destruct Hnever].
        intros r w2 _. right. exists size. repeat split; auto.
        intros (response & message' & Hrej & _). congruence.
Qed.

End Analyses.

(** ** Properties of every result *)

Lemma copies_field (r : JsVal) (f : MulterFile) (R : JsVal) (k : string) :
  copies r f R -> In k copied_fields -> R?.k = r?.k.
Proof.
  intros [_ Hall] Hk. rewrite List.Forall_forall in Hall. apply Hall, Hk.
Qed.

(** A successful answer comes from a file of a supported kind. *)
Lemma success_is_supported random now env statSync axios numberToString
    file w res w' :
  handleAnalyze random now env statSync axios numberToString file w
  = (Returned res, w') ->
  (body res)?."success" = JBool true ->
  exists f,
    file = Some f /\
    (getFileCategory (mimetype f) = "image"
     \/ getFileCategory (mimetype f) = "video"
     \/ getFileCategory (mimetype f) = "audio").
Proof.
  intros Hrun Hsuccess.
  destruct (handleAnalyze_success _ _ _ _ _ _ _ _ _ _ Hrun Hsuccess)
    as (f & R & -> & _ & [[Hc _] | [[Hc _] | [Hc _]]]);
    exists f; auto.
Qed.



(** What the generators say about the quality and the details of a
    response, read off one run of each. *)
Lemma image_run_details random numberToString c isDemo md raw err w0 r w' :
  generateEnhancedImageResponse random numberToString c isDemo md raw err w0
  = (Returned r, w') ->
  r?."analysisQuality" = JStr (if isDemo then "DEMO" else "API") /\
  processing_details "Sightengine" isDemo err [0.4; 0.3; 0.3] raw r.
Proof.
  intros Hgen. split.
  - destruct (yields_returned _ _ _ _ _
                (generateEnhancedImageResponse_yields random numberToString
                   c isDemo md raw err) Hgen)
      as [((_ & _ & Hq & _) & _) _].
    exact Hq.
  - exact (proj1 (yields_returned _ _ _ _ _
                    (generateEnhancedImageResponse_details random
                       numberToString c isDemo md raw err) Hgen)).
Qed.

Lemma video_run_details random c isDemo md raw err w0 r w' :
  generateEnhancedVideoResponse random c isDemo md raw err w0
  = (Returned r, w') ->
  r?."analysisQuality" = JStr (if isDemo then "DEMO" else "API") /\
  processing_details "Sightengine" isDemo err [0.4; 0.3; 0.3] raw r.
Proof.
  intros Hgen. split.
  - destruct (yields_returned _ _ _ _ _
                (generateEnhancedVideoResponse_yields random c isDemo md raw
                   err) Hgen)
      as [((_ & _ & Hq & _) & _) _].
    exact Hq.
  - exact (proj1 (yields_returned _ _ _ _ _
                    (generateEnhancedVideoResponse_details random c isDemo md
                       raw err) Hgen)).
Qed.

Lemma audio_run_details random c isDeepfake isDemo md raw err w0 r w' :
  generateEnhancedAudioResponse random c isDeepfake isDemo md raw err w0
  = (Returned r, w') ->
  r?."analysisQuality" = JStr (if isDemo then "DEMO" else "API") /\
  processing_details "Resemble AI" isDemo err [0.4; 0.4; 0.2] raw r.
Proof.
  intros Hgen. split.
  - destruct (yields_returned _ _ _ _ _
                (generateEnhancedAudioResponse_yields random c isDeepfake
                   isDemo md raw err) Hgen)
      as [((_ & _ & Hq & _) & _) _].
    exact Hq.
  - exact (proj1 (yields_returned _ _ _ _ _
                    (generateEnhancedAudioResponse_details random c
                       isDeepfake isDemo md raw err) Hgen)).
Qed.

(** The quality and the processing details of a result are those of the
    response of its analysis. *)
Lemma copies_details (r : JsVal) (f : MulterFile) (R : JsVal) :
  copies r f R ->
  R?."analysisQuality" = r?."analysisQuality" /\
  R?."processingDetails" = r?."processingDetails".
Proof.
  intros Hcopies.
  split; apply (copies_field r f R); [exact Hcopies | | exact Hcopies |];
    cbn; tauto.
Qed.

(** X10: every result carries three confidence factors whose weights add
    up to 1 and whose impacts are ["POSITIVE"], ["NEGATIVE"] or
    ["NEUTRAL"]; its quality score is 0.6 when the result is demo data and
    0.9 when it comes from the vendor; and the provider it names is
    Resemble AI for an audio clip and Sightengine otherwise. *)
Theorem confidence_factors_weigh_one random now env statSync axios
    numberToString file w res w' :
  handleAnalyze random now env statSync axios numberToString file w
  = (Returned res, w') ->
  (body res)?."success" = JBool true ->
  let R := (body res)?."result" in
  let details := R?."processingDetails" in
  let weights := factor_weights (details?."confidenceFactors") in
  List.length weights = 3%nat /\
  sum_list weights == 1 /\
  Forall (fun impact =>
            In impact [JStr "POSITIVE"; JStr "NEGATIVE"; JStr "NEUTRAL"])
         (factor_impacts (details?."confidenceFactors")) /\
  ((R?."analysisQuality" = JStr "DEMO" /\ details?."qualityScore" = JNum 0.6)
   \/ (R?."analysisQuality" = JStr "API"
       /\ details?."qualityScore" = JNum 0.9)) /\
  ((R?."type" = JStr "audio" /\ details?."apiProvider" = JStr "Resemble AI")
   \/ (R?."type" <> JStr "audio"
       /\ details?."apiProvider" = JStr "Sightengine")).
Proof.
  intros Hrun Hsuccess. cbv zeta.
  assert (Hgoal : forall provider (isDemo : bool) err weights raw r f R,
    copies r f R ->
    r?."analysisQuality" = JStr (if isDemo then "DEMO" else "API") ->
    processing_details provider isDemo err weights raw r ->
    weights = [0.4; 0.3; 0.3] \/ weights = [0.4; 0.4; 0.2] ->
    List.length (factor_weights (R?."processingDetails"?."confidenceFactors"))
    = 3%nat /\
    sum_list (factor_weights (R?."processingDetails"?."confidenceFactors"))
    == 1 /\
    Forall (fun impact =>
              In impact [JStr "POSITIVE"; JStr "NEGATIVE"; JStr "NEUTRAL"])
           (factor_impacts (R?."processingDetails"?."confidenceFactors")) /\
    ((R?."analysisQuality" = JStr "DEMO"
      /\ R?."processingDetails"?."qualityScore" = JNum 0.6)
     \/ (R?."analysisQuality" = JStr "API"
         /\ R?."processingDetails"?."qualityScore" = JNum 0.9)) /\
    R?."processingDetails"?."apiProvider" = JStr provider).
  { intros provider isDemo err weights raw r f R Hcopies Hq
      (Hprovider & Hscore & _ & Hweights & Himpacts & _) Hin.
    destruct (copies_details r f R Hcopies) as [-> ->].
    rewrite Hweights, Hq, Hscore, Hprovider.
    split; [| split; [| split; [exact Himpacts | split; [| reflexivity]]]].
    - destruct Hin as [-> | ->]; reflexivity.
    - destruct Hin as [-> | ->]; reflexivity.
    - destruct isDemo; auto. }
  destruct (success_is_supported _ _ _ _ _ _ _ _ _ _ Hrun Hsuccess)
    as (f & -> & [Hc | [Hc | Hc]]).
  - destruct (handleAnalyze_image_inv _ _ _ _ _ _ _ _ _ _ Hc Hrun)
      as [(r & w1 & R & Hanalysis & -> & -> & Hcopies & _ & _ & _ & _ & Htype)
         | (e & _ & ->)];
      [| discriminate Hsuccess].
    change ((body (json (success_body R)))?."result") with R.
    destruct (analyzeImage_generated _ _ _ _ _ _ _ _ _ Hanalysis)
      as (c & isDemo & md & raw & err & w0 & Hgen & _).
    destruct (image_run_details _ _ _ _ _ _ _ _ _ _ Hgen) as [Hq Hd].
    destruct (Hgoal _ _ _ _ _ _ _ _ Hcopies Hq Hd (or_introl eq_refl))
      as (H1 & H2 & H3 & H4 & H5).
    repeat (split; [assumption |]).
    right. split; [rewrite Htype; discriminate | exact H5].
  - destruct (handleAnalyze_video_inv _ _ _ _ _ _ _ _ _ _ Hc Hrun)
      as (r & w1 & R & Hanalysis & -> & -> & Hcopies & _ & _ & _ & _ & Htype).
    change ((body (json (success_body R)))?."result") with R.
    destruct (analyzeVideo_generated _ _ _ _ _ _ _ _ Hanalysis)
      as (c & isDemo & md & raw & err & w0 & Hgen & _).
    destruct (video_run_details _ _ _ _ _ _ _ _ _ Hgen) as [Hq Hd].
    destruct (Hgoal _ _ _ _ _ _ _ _ Hcopies Hq Hd (or_introl eq_refl))
      as (H1 & H2 & H3 & H4 & H5).
    repeat (split; [assumption |]).
    right. split; [rewrite Htype; discriminate | exact H5].
  - destruct (handleAnalyze_audio_inv _ _ _ _ _ _ _ _ _ _ Hc Hrun)
      as (r & w1 & R & Hanalysis & -> & -> & Hcopies & _ & _ & _ & _ & Htype).
    change ((body (json (success_body R)))?."result") with R.
    destruct (analyzeAudio_generated _ _ _ _ _ Hanalysis)
      as (c & isDeepfake & w0 & Hgen).
    destruct (audio_run_details _ _ _ _ _ _ _ _ _ _ Hgen) as [Hq Hd].
    destruct (Hgoal _ true _ _ _ _ _ _ Hcopies Hq Hd (or_intror eq_refl))
      as (H1 & H2 & H3 & H4 & H5).
    repeat (split; [assumption |]).
    left. split; [exact Htype | exact H5].
Qed.

Lemma confidence_factors_weigh_one_witness :
  let R := (body (response_of voice_run))?."result" in
  let details := R?."processingDetails" in
  let weights := factor_weights (details?."confidenceFactors") in
  List.length weights = 3%nat /\
  sum_list weights == 1 /\
  Forall (fun impact =>
            In impact [JStr "POSITIVE"; JStr "NEGATIVE"; JStr "NEUTRAL"])
         (factor_impacts (details?."confidenceFactors")) /\
  ((R?."analysisQuality" = JStr "DEMO" /\ details?."qualityScore" = JNum 0.6)
   \/ (R?."analysisQuality" = JStr "API"
       /\ details?."qualityScore" = JNum 0.9)) /\
  ((R?."type" = JStr "audio" /\ details?."apiProvider" = JStr "Resemble AI")
   \/ (R?."type" <> JStr "audio"
       /\ details?."apiProvider" = JStr "Sightengine")).
Proof.
  apply (confidence_factors_weigh_one example_random example_now example_env
           example_statSync vendor_down example_toString
           (Some (example_file "voice.wav" "audio/wav")) world0
           (response_of voice_run) (final voice_run)).
  - vm_compute. reflexivity.
  - vm_compute. reflexivity.
Defined.

(** X11: the processing warnings of a result. The result of an image
    carries no warning exactly when it comes from the vendor, and one
    warning, which is not empty, when it is demo data; with the
    credentials missing, the result of an image or of a video carries the
    one warning that they are not configured; the result of a video that
    comes from the vendor carries none; and the result of an audio clip,
    which is always demo data, carries none either. *)
Theorem processing_warnings_explain_demo random now env statSync axios
    numberToString f w res w' :
  handleAnalyze random now env statSync axios numberToString (Some f) w
  = (Returned res, w') ->
  (body res)?."success" = JBool true ->
  let R := (body res)?."result" in
  let quality := R?."analysisQuality" in
  let warnings := R?."processingDetails"?."processingWarnings" in
  let category := getFileCategory (mimetype f) in
  (category = "image" ->
   (warnings = JUndefined <-> quality = JStr "API") /\
   (quality = JStr "DEMO" ->
    exists warning, warnings = Js.strings [warning] /\ warning <> "")) /\
  (category = "video" -> quality = JStr "API" -> warnings = JUndefined) /\
  (category <> "audio" -> credentialsMissing env = true ->
   warnings = Js.strings ["Sightengine API credentials not configured"]) /\
  (category = "audio" -> quality = JStr "DEMO" /\ warnings = JUndefined).
Proof.
  intros Hrun Hsuccess. cbv zeta.
  destruct (success_is_supported _ _ _ _ _ _ _ _ _ _ Hrun Hsuccess)
    as (f' & Hf & Hkind).
  injection Hf as <-.
  destruct Hkind as [Hc | [Hc | Hc]]; rewrite Hc.
  - destruct (handleAnalyze_image_inv _ _ _ _ _ _ _ _ _ _ Hc Hrun)
      as [(r & w1 & R & Hanalysis & -> & -> & Hcopies & _) | (e & _ & ->)];
      [| discriminate Hsuccess].
    change ((body (json (success_body R)))?."result") with R.
    destruct (copies_details r f R Hcopies) as [-> ->].
    destruct (analyzeImage_generated _ _ _ _ _ _ _ _ _ Hanalysis)
      as (c & isDemo & md & raw & err & w0 & Hgen & Hapi & Hdemo & Hmissing & _).
    destruct (image_run_details _ _ _ _ _ _ _ _ _ _ Hgen)
      as [-> (_ & _ & -> & _)].
    split; [intros _ | split; [discriminate | split; [| discriminate]]].
    + destruct isDemo.
      * destruct (Hdemo eq_refl) as (m & -> & Hm).
        assert (Hwarning : processingWarnings (Some m) = Js.strings [m]).
        { unfold processingWarnings. apply String.eqb_neq in Hm.
          rewrite Hm. reflexivity. }
        rewrite Hwarning.
        split; [split; discriminate |].
        intros _. exists m. split; [reflexivity | exact Hm].
      * rewrite (Hapi eq_refl).
        split; [split; reflexivity | discriminate].
    + intros _ Hm. rewrite (Hmissing Hm). reflexivity.
  - destruct (handleAnalyze_video_inv _ _ _ _ _ _ _ _ _ _ Hc Hrun)
      as (r & w1 & R & Hanalysis & -> & -> & Hcopies & _).
    change ((body (json (success_body R)))?."result") with R.
    destruct (copies_details r f R Hcopies) as [-> ->].
    destruct (analyzeVideo_generated _ _ _ _ _ _ _ _ Hanalysis)
      as (c & isDemo & md & raw & err & w0 & Hgen & Hapi & Hmissing & _).
    destruct (video_run_details _ _ _ _ _ _ _ _ _ Hgen)
      as [-> (_ & _ & -> & _)].
    split; [discriminate | split; [intros _ Hq | split; [| discriminate]]].
    + destruct isDemo; [discriminate Hq |]. rewrite (Hapi eq_refl). reflexivity.
    + intros _ Hm. rewrite (Hmissing Hm). reflexivity.
  - destruct (handleAnalyze_audio_inv _ _ _ _ _ _ _ _ _ _ Hc Hrun)
      as (r & w1 & R & Hanalysis & -> & -> & Hcopies & _).
    change ((body (json (success_body R)))?."result") with R.
    destruct (copies_details r f R Hcopies) as [-> ->].
    destruct (analyzeAudio_generated _ _ _ _ _ Hanalysis)
      as (c & isDeepfake & w0 & Hgen).
    destruct (audio_run_details _ _ _ _ _ _ _ _ _ _ Hgen)
      as [-> (_ & _ & -> & _)].
    split; [discriminate | split; [discriminate | split; [contradiction |]]].
    intros _. split; reflexivity.
Qed.

Lemma processing_warnings_explain_demo_witness :
  let R := (body (response_of photo_run))?."result" in
  let quality := R?."analysisQuality" in
  let warnings := R?."processingDetails"?."processingWarnings" in
  let category :=
    getFileCategory (mimetype (example_file "photo.png" "image/png")) in
  (category = "image" ->
   (warnings = JUndefined <-> quality = JStr "API") /\
   (quality = JStr "DEMO" ->
    exists warning, warnings = Js.strings [warning] /\ warning <> "")) /\
  (category = "video" -> quality = JStr "API" -> warnings = JUndefined) /\
  (category <> "audio" -> credentialsMissing example_env = true ->
   warnings = Js.strings ["Sightengine API credentials not configured"]) /\
  (category = "audio" -> quality = JStr "DEMO" /\ warnings = JUndefined).
Proof.
  apply (processing_warnings_explain_demo example_random example_now
           example_env example_statSync vendor_down example_toString
           (example_file "photo.png" "image/png") world0
           (response_of photo_run) (final photo_run)).
  - vm_compute. reflexivity.
  - vm_compute. reflexivity.
Defined.

(** ** The metadata of a result *)

Lemma assoc_set_same (k : string) (v : JsVal) (fs : list (string * JsVal)) :
  Js.assoc k (Js.set k v fs) = v.
Proof.
  induction fs as [| [k' v'] rest IH]; cbn.
  - rewrite String.eqb_refl. reflexivity.
  - destruct (String.eqb k k') eqn:E; cbn; rewrite E; [reflexivity | exact IH].
Qed.

Lemma assoc_set_other (k k' : string) (v : JsVal) (fs : list (string * JsVal)) :
  k <> k' -> Js.assoc k (Js.set k' v fs) = Js.assoc k fs.
Proof.
  intros Hne. apply String.eqb_neq in Hne.
  induction fs as [| [k0 v0] rest IH]; cbn.
  - rewrite Hne. reflexivity.
  - destruct (String.eqb k' k0) eqn:E; cbn.
    + apply String.eqb_eq in E. subst k0. rewrite Hne. reflexivity.
    + destruct (String.eqb k k0); [reflexivity | exact IH].
Qed.

(** The names under which the handler records the upload. *)
Definition upload_fields : list string :=
  ["file_name"; "saved_filename"; "file_size"; "file_type"].

Lemma fileMetadata_fields (r : JsVal) (f : MulterFile) :
  (fileMetadata r f)?."file_name" = JStr (originalname f) /\
  (fileMetadata r f)?."saved_filename" = JStr (filename f) /\
  (fileMetadata r f)?."file_size" = JNum (inject_Z (size f)) /\
  (fileMetadata r f)?."file_type" = JStr (mimetype f) /\
  forall k, ~ In k upload_fields -> (fileMetadata r f)?.k = r?."metadata"?.k.
Proof.
  unfold fileMetadata, Js.spread. cbn [fold_left fst snd Js.get].
  set (base := match r?."metadata" with JObj fs => fs | _ => [] end).
  repeat split.
  - rewrite !assoc_set_other by discriminate. apply assoc_set_same.
  - rewrite !assoc_set_other by discriminate. apply assoc_set_same.
  - rewrite !assoc_set_other by discriminate. apply assoc_set_same.
  - apply assoc_set_same.
  - intros k Hk. unfold upload_fields in Hk. cbn in Hk.
    rewrite !assoc_set_other by (intros ->; apply Hk; tauto).
    subst base. destruct (r?."metadata"); reflexivity.
Qed.

(** The result records the size and the name of the upload. *)
Definition copies_upload (f : MulterFile) (R : JsVal) : Prop :=
  R?."metadata"?."file_size" = JNum (inject_Z (size f)) /\
  R?."metadata"?."file_name" = JStr (originalname f).

Lemma copies_records (r : JsVal) (f : MulterFile) (R : JsVal) :
  copies r f R -> copies_upload f R.
Proof.
  intros [Hmetadata _]. unfold copies_upload. rewrite Hmetadata.
  destruct (fileMetadata_fields r f) as (H1 & _ & H3 & _).
  split; assumption.
Qed.

(** X12: the metadata of every result records the upload: the original
    name of the file, the name under which it was stored, its size and its
    mime type; beside them it keeps what the analysis gave, which for demo
    data does not depend on the file: 1024 by 768 in the format ["demo"]
    for an image, 15.6 seconds at 30 frames per second for a video, and
    8.5 seconds of two channels at 44100 Hz for every audio clip. *)
Theorem metadata_records_upload random now env statSync axios numberToString
    f w res w' :
  handleAnalyze random now env statSync axios numberToString (Some f) w
  = (Returned res, w') ->
  (body res)?."success" = JBool true ->
  let R := (body res)?."result" in
  let metadata := R?."metadata" in
  let category := getFileCategory (mimetype f) in
  metadata?."file_name" = JStr (originalname f) /\
  metadata?."saved_filename" = JStr (filename f) /\
  metadata?."file_size" = JNum (inject_Z (size f)) /\
  metadata?."file_type" = JStr (mimetype f) /\
  (category = "image" -> R?."analysisQuality" = JStr "DEMO" ->
   metadata?."width" = JNum 1024 /\ metadata?."height" = JNum 768 /\
   metadata?."format" = JStr "demo") /\
  (category = "video" -> R?."analysisQuality" = JStr "DEMO" ->
   metadata?."duration" = JNum 15.6 /\ metadata?."fps" = JNum 30 /\
   metadata?."resolution" = JStr "1920x1080") /\
  (category = "audio" ->
   metadata?."duration" = JNum 8.5 /\ metadata?."sample_rate" = JNum 44100 /\
   metadata?."channels" = JNum 2).
Proof.
  intros Hrun Hsuccess. cbv zeta.
  assert (Hupload : forall r R,
    copies r f R ->
    R?."metadata"?."file_name" = JStr (originalname f) /\
    R?."metadata"?."saved_filename" = JStr (filename f) /\
    R?."metadata"?."file_size" = JNum (inject_Z (size f)) /\
    R?."metadata"?."file_type" = JStr (mimetype f) /\
    forall k, ~ In k upload_fields -> R?."metadata"?.k = r?."metadata"?.k).
  { intros r R [-> _]. apply fileMetadata_fields. }
  destruct (success_is_supported _ _ _ _ _ _ _ _ _ _ Hrun Hsuccess)
    as (f' & Hf & Hkind).
  injection Hf as <-.
  destruct Hkind as [Hc | [Hc | Hc]]; rewrite Hc.
  - destruct (handleAnalyze_image_inv _ _ _ _ _ _ _ _ _ _ Hc Hrun)
      as [(r & w1 & R & Hanalysis & -> & -> & Hcopies & _) | (e & _ & ->)];
      [| discriminate Hsuccess].
    change ((body (json (success_body R)))?."result") with R.
    destruct (Hupload r R Hcopies) as (H1 & H2 & H3 & H4 & Hother).
    repeat (split; [assumption |]).
    split; [intros _ Hq | split; [discriminate | discriminate]].
    destruct (copies_details r f R Hcopies) as [Hquality _].
    rewrite Hquality in Hq.
    destruct (analyzeImage_generated _ _ _ _ _ _ _ _ _ Hanalysis)
      as (c & isDemo & md & raw & err & w0 & Hgen & _ & _ & _ & Hmd).
    destruct (yields_returned _ _ _ _ _
                (generateEnhancedImageResponse_yields random numberToString
                   c isDemo md raw err) Hgen)
      as [((_ & _ & Hq' & _ & _ & _ & Hmeta) & _) _].
    rewrite Hq' in Hq. destruct isDemo; [| discriminate Hq].
    rewrite !Hother
      by (cbn; intros H; decompose [or] H; first [discriminate | contradiction]).
    rewrite Hmeta, (Hmd eq_refl). repeat split.
  - destruct (handleAnalyze_video_inv _ _ _ _ _ _ _ _ _ _ Hc Hrun)
      as (r & w1 & R & Hanalysis & -> & -> & Hcopies & _).
    change ((body (json (success_body R)))?."result") with R.
    destruct (Hupload r R Hcopies) as (H1 & H2 & H3 & H4 & Hother).
    repeat (split; [assumption |]).
    split; [discriminate | split; [intros _ Hq | discriminate]].
    destruct (copies_details r f R Hcopies) as [Hquality _].
    rewrite Hquality in Hq.
    destruct (analyzeVideo_generated _ _ _ _ _ _ _ _ Hanalysis)
      as (c & isDemo & md & raw & err & w0 & Hgen & _ & _ & Hmd).
    destruct (yields_returned _ _ _ _ _
                (generateEnhancedVideoResponse_yields random c isDemo md raw
                   err) Hgen)
      as [((_ & _ & Hq' & _ & _ & _ & Hmeta) & _) _].
    rewrite Hq' in Hq. destruct isDemo; [| discriminate Hq].
    rewrite !Hother
      by (cbn; intros H; decompose [or] H; first [discriminate | contradiction]).
    rewrite Hmeta, (Hmd eq_refl). repeat split.
  - destruct (handleAnalyze_audio_inv _ _ _ _ _ _ _ _ _ _ Hc Hrun)
      as (r & w1 & R & Hanalysis & -> & -> & Hcopies & _).
    change ((body (json (success_body R)))?."result") with R.
    destruct (Hupload r R Hcopies) as (H1 & H2 & H3 & H4 & Hother).
    repeat (split; [assumption |]).
    split; [discriminate | split; [discriminate | intros _]].
    destruct (analyzeAudio_generated _ _ _ _ _ Hanalysis)
      as (c & isDeepfake & w0 & Hgen).
    destruct (yields_returned _ _ _ _ _
                (generateEnhancedAudioResponse_yields random c isDeepfake
                   true _ JUndefined None) Hgen)
      as [((_ & _ & _ & _ & _ & _ & Hmeta) & _) _].
    rewrite !Hother
      by (cbn; intros H; decompose [or] H; first [discriminate | contradiction]).
    rewrite Hmeta. repeat split.
Qed.

Lemma metadata_records_upload_witness :
  let f := example_file "voice.wav" "audio/wav" in
  let R := (body (response_of voice_run))?."result" in
  let metadata := R?."metadata" in
  let category := getFileCategory (mimetype f) in
  metadata?."file_name" = JStr (originalname f) /\
  metadata?."saved_filename" = JStr (filename f) /\
  metadata?."file_size" = JNum (inject_Z (size f)) /\
  metadata?."file_type" = JStr (mimetype f) /\
  (category = "image" -> R?."analysisQuality" = JStr "DEMO" ->
   metadata?."width" = JNum 1024 /\ metadata?."height" = JNum 768 /\
   metadata?."format" = JStr "demo") /\
  (category = "video" -> R?."analysisQuality" = JStr "DEMO" ->
   metadata?."duration" = JNum 15.6 /\ metadata?."fps" = JNum 30 /\
   metadata?."resolution" = JStr "1920x1080") /\
  (category = "audio" ->
   metadata?."duration" = JNum 8.5 /\ metadata?."sample_rate" = JNum 44100 /\
   metadata?."channels" = JNum 2).
Proof.
  apply (metadata_records_upload example_random example_now example_env
           example_statSync vendor_down example_toString
           (example_file "voice.wav" "audio/wav") world0
           (response_of voice_run) (final voice_run)).
  - vm_compute. reflexivity.
  - vm_compute. reflexivity.
Defined.

(** ** The score of a result that comes from the vendor *)

Lemma yields_wp {A} (m : M A) (P : A -> Prop) w :
  yields m P -> wp m (fun a _ => P a) never w.
Proof.
  intros Hm.
  eapply wp_mono; [apply Hm | | intros ? ? Hnever; exact Hnever].
  intros a w' [Pa _]. exact Pa.
Qed.

(** [genAI] as a function of the score and of the draw it is made from. *)
Definition genAIOf (confidence r : Q) : Q :=
  Qmin (Qmax (confidence * 0.15 + r * 0.05) 0) 0.2.

Lemma generateModelBreakdown_genAI random confidence w :
  wp (generateModelBreakdown random confidence)
     (fun mb _ => mb?."genAI" = JNum (genAIOf confidence (draw1 random w)))
     never w.
Proof.
  unfold generateModelBreakdown. cbv zeta.
  apply wp_bind, wp_Math_random. apply yields_wp.
  draws_step.
  eapply yields_bind with (P := any).
  { apply yields_if;
      (eapply yields_bind with (P := any);
       [ apply yields_mapM; intros [? ?]; repeat draws_step; exact I
       | intros; apply yields_ret; exact I ]). }
  intros diffusion _.
  repeat draws_step. reflexivity.
Qed.


Lemma generateEnhancedVideoResponse_genAI random confidence metadata raw err w :
  wp (generateEnhancedVideoResponse random confidence false metadata raw err)
     (fun r _ =>
        r?."modelBreakdown"?."genAI"
        = JNum (genAIOf confidence (draw1 random w)))
     never w.
Proof.
  unfold generateEnhancedVideoResponse, demo_or. cbv zeta iota.
  apply wp_bind, wp_ret.
  do 4 apply wp_bind, wp_ret.
  apply wp_bind.
  eapply wp_mono;
    [apply generateModelBreakdown_genAI | | intros ? ? Hnever; exact Hnever].
  intros mb w1 Hmb. apply wp_ret. exact Hmb.
Qed.




(** A vendor whose answer has a zero [deepfake.prob] beside a
    [type.deepfake] of 0.85, and two frames. *)
Definition zero_prob_data : SightengineData :=
  mkSightengineData "success" (Some 0) (Some 0.85) None
    (Some [Some 0.4; None])
    (JObj [ ("status", JStr "success");
            ("deepfake", JObj [ ("prob", JNum 0) ]);
            ("type", JObj [ ("deepfake", JNum 0.85) ]);
            ("data", JObj
               [ ("frames", JArr
                    [ JObj [ ("type", JObj [ ("deepfake", JNum 0.4) ]) ];
                      JObj [] ]) ]) ]).

Definition vendor_zero_prob : string -> HttpOutcome :=
  fun _ => Resolves zero_prob_data.


(** *** Video *)

Lemma Qmax_cases (x y : Q) : Qmax x y = x \/ Qmax x y = y.
Proof.
  unfold Qmax, GenericMinMax.gmax. destruct (x ?= y); auto.
Qed.

Lemma fold_left_Qmax_ge (l : list Q) (a : Q) :
  a <= fold_left Qmax l a /\ forall x, In x l -> x <= fold_left Qmax l a.
Proof.
  revert a. induction l as [| y rest IH]; intros a; cbn.
  - split; [lra | contradiction].
  - destruct (IH (Qmax a y)) as [Hacc Hrest].
    pose proof (Q.le_max_l a y). pose proof (Q.le_max_r a y).
    split; [lra |]. intros x [<- | Hx]; [lra | apply Hrest, Hx].
Qed.

Lemma fold_left_Qmax_in (l : list Q) (a : Q) :
  fold_left Qmax l a = a \/ In (fold_left Qmax l a) l.
Proof.
  revert a. induction l as [| y rest IH]; intros a; cbn.
  - left. reflexivity.
  - destruct (IH (Qmax a y)) as [Heq | Hin]; [| right; right; exact Hin].
    rewrite Heq. destruct (Qmax_cases a y) as [-> | ->]; auto.
Qed.

Lemma max_list_ge (l : list Q) (x : Q) : In x l -> x <= max_list 0 l.
Proof.
  destruct l as [| y rest]; [contradiction |]. cbn.
  destruct (fold_left_Qmax_ge rest y) as [Hy Hrest].
  intros [<- | Hx]; [exact Hy | apply Hrest, Hx].
Qed.

Lemma max_list_in (l : list Q) : max_list 0 l = 0 \/ In (max_list 0 l) l.
Proof.
  destruct l as [| y rest]; [left; reflexivity |]. cbn.
  destruct (fold_left_Qmax_in rest y) as [-> | Hin]; auto.
Qed.

(** The frame scores the video analysis counts: those that are there and
    not negative, and 0 for a frame without a score. *)
Lemma frameDeepfakeScores_In (data : SightengineData) (s : Q) :
  In s (frameDeepfakeScores data) <->
  0 <= s /\
  (In (Some s) (default [] (sd_frames data))
   \/ (s = 0 /\ In None (default [] (sd_frames data)))).
Proof.
  unfold frameDeepfakeScores.
  rewrite List.filter_In, List.in_map_iff, Num.geb_true. split.
  - intros [(frame & Hs & Hin) Hpos]. split; [exact Hpos |].
    destruct frame as [q |]; cbn in Hs; subst; auto.
  - intros [Hpos [Hin | [-> Hin]]]; (split; [| exact Hpos]).
    + exists (Some s). split; [reflexivity | exact Hin].
    + exists None. split; [reflexivity | exact Hin].
Qed.

(** X14: with the credentials configured and a vendor that answers
    ["success"], the confidence of the result of a video is the highest
    of the frame scores that are not negative and of the summary score
    ([deepfake.prob], or else [type.deepfake], or else 0; a
    [deepfake.prob] of zero counts, unlike for an image): it is at least
    each of them, it is never negative, and it is one of them or 0; so
    the video is flagged exactly when the summary or some frame is above
    0.7. The quality is ["API"] and exactly one request went out. *)
Theorem video_score_is_highest_frame random now env statSync axios
    numberToString f w data :
  getFileCategory (mimetype f) = "video" ->
  credentialsMissing env = false ->
  axios SIGHTENGINE_VIDEO_CHECK = Resolves data ->
  sd_status data = "success" ->
  let frames := default [] (sd_frames data) in
  let summary :=
    match sd_deepfake_prob data, sd_type_deepfake data with
    | Some p, _ => p
    | None, Some t => t
    | None, None => 0
    end in
  exists R w' score,
    handleAnalyze random now env statSync axios numberToString (Some f) w
    = (Returned (json (success_body R)), w') /\
    R?."confidence" = JNum score /\
    R?."isDeepfake" = JBool (score >? 0.7) /\
    R?."analysisQuality" = JStr "API" /\
    outbound w' = outbound w ++ [SIGHTENGINE_VIDEO_CHECK] /\
    0 <= score /\ summary <= score /\
    (forall s, In (Some s) frames -> s <= score) /\
    (score = summary \/ score = 0 \/ In (Some score) frames) /\
    ((score >? 0.7) = true <->
     0.7 < summary \/ exists s, In (Some s) frames /\ 0.7 < s) /\
    R?."metadata"?."frames_analyzed"
    = JNum (inject_Z (Z.of_nat (List.length frames))).
Proof.
  intros Hc Hmissing Haxios Hstatus frames summary.
  destruct (analyzeVideo_api random env axios numberToString (path f)
              (tick w) data Hmissing Haxios Hstatus)
    as (r & w1 & md & raw & Hanalysis & Hgen & Hframes & _).
  destruct (handleAnalyze_video_run random now env statSync axios
              numberToString f w r w1 Hc Hanalysis)
    as (R & Hrun & Hcopies & Hdata & Hmb & Hconfidence & Hflag & _).
  destruct (yields_returned _ _ _ _ _
              (generateEnhancedVideoResponse_yields random
                 (finalDeepfakeScore data) false md raw None) Hgen)
    as [((_ & _ & Hquality & _ & _ & _ & Hmeta) & Hprob & _) Hframe].
  destruct (copies_details r f R Hcopies) as [HRquality _].
  assert (Hsummary : summaryDeepfake data = summary).
  { unfold summaryDeepfake, summary.
    destruct (sd_deepfake_prob data), (sd_type_deepfake data); reflexivity. }
  set (scores := frameDeepfakeScores data).
  assert (Hscore : finalDeepfakeScore data = Qmax (max_list 0 scores) summary).
  { unfold finalDeepfakeScore. rewrite Hsummary. reflexivity. }
  assert (Hmax_pos : 0 <= max_list 0 scores).
  { destruct (max_list_in scores) as [-> | Hin]; [lra |].
    apply frameDeepfakeScores_In in Hin. tauto. }
  assert (Hmax_ge : forall s, In (Some s) frames -> s <= max_list 0 scores).
  { intros s Hs. destruct (Qlt_le_dec s 0) as [Hneg | Hpos]; [lra |].
    apply max_list_ge, frameDeepfakeScores_In. auto. }
  pose proof (Q.le_max_l (max_list 0 scores) summary) as Hl.
  pose proof (Q.le_max_r (max_list 0 scores) summary) as Hr.
  exists R, (tick w1), (finalDeepfakeScore data).
  split; [exact Hrun |].
  split; [rewrite Hconfidence; exact Hprob |].
  split; [rewrite Hflag, Hprob; reflexivity |].
  split; [rewrite HRquality; exact Hquality |].
  split; [destruct Hframe as [Hout _]; cbn; rewrite Hout; reflexivity |].
  rewrite Hscore.
  split; [lra |]. split; [exact Hr |].
  split; [intros s Hs; specialize (Hmax_ge s Hs); lra |].
  split; [| split].
  - destruct (Qmax_cases (max_list 0 scores) summary) as [-> | ->]; [| auto].
    destruct (max_list_in scores) as [-> | Hin]; [auto |].
    apply frameDeepfakeScores_In in Hin as [_ [Hin | [-> _]]]; auto.
  - rewrite Num.gtb_true. split.
    + intros Hgt.
      destruct (Qmax_cases (max_list 0 scores) summary) as [Heq | Heq];
        rewrite Heq in Hgt; [| auto].
      destruct (max_list_in scores) as [Hzero | Hin];
        [rewrite Hzero in Hgt; lra |].
      apply frameDeepfakeScores_In in Hin as [_ [Hin | [Hzero _]]];
        [| rewrite Hzero in Hgt; lra].
      right. eexists. split; [exact Hin | exact Hgt].
    + intros [Hgt | (s & Hs & Hgt)]; [lra |].
      specialize (Hmax_ge s Hs). lra.
  - destruct Hcopies as [-> _].
    destruct (fileMetadata_fields r f) as (_ & _ & _ & _ & Hother).
    rewrite Hother
      by (cbn; intros H; decompose [or] H; first [discriminate | contradiction]).
    rewrite Hmeta. exact Hframes.
Qed.

Lemma video_score_is_highest_frame_witness :
  let frames := default [] (sd_frames zero_prob_data) in
  let summary :=
    match sd_deepfake_prob zero_prob_data, sd_type_deepfake zero_prob_data with
    | Some p, _ => p
    | None, Some t => t
    | None, None => 0
    end in
  exists R w' score,
    handleAnalyze example_random example_now example_env example_statSync
      vendor_zero_prob example_toString
      (Some (example_file "clip.mp4" "video/mp4")) world0
    = (Returned (json (success_body R)), w') /\
    R?."confidence" = JNum score /\
    R?."isDeepfake" = JBool (score >? 0.7) /\
    R?."analysisQuality" = JStr "API" /\
    outbound w' = outbound world0 ++ [SIGHTENGINE_VIDEO_CHECK] /\
    0 <= score /\ summary <= score /\
    (forall s, In (Some s) frames -> s <= score) /\
    (score = summary \/ score = 0 \/ In (Some score) frames) /\
    ((score >? 0.7) = true <->
     0.7 < summary \/ exists s, In (Some s) frames /\ 0.7 < s) /\
    R?."metadata"?."frames_analyzed"
    = JNum (inject_Z (Z.of_nat (List.length frames))).
Proof.
  apply (video_score_is_highest_frame example_random example_now example_env
           example_statSync vendor_zero_prob example_toString
           (example_file "clip.mp4" "video/mp4") world0 zero_prob_data).
  - vm_compute. reflexivity.
  - vm_compute. reflexivity.
  - reflexivity.
  - reflexivity.
Defined.

(** ** When an image is answered with an error *)

(** X15: the answer to an image is a 200 with a result or a 500 with a
    message. It is a 500 exactly when the credentials are configured and
    the stored file is missing, empty or above 10 MB (no request goes out
    then), or the vendor rejects the call with the status 429; the
    message then asks to wait for the number of seconds of the vendor's
    [retry-after] header, or for 60. Every other failure of the vendor is
    answered with a result. *)
Theorem image_error_answers random now env statSync axios numberToString
    f w res w' :
  getFileCategory (mimetype f) = "image" ->
  handleAnalyze random now env statSync axios numberToString (Some f) w
  = (Returned res, w') ->
  let stored := statSync (path f) in
  let refused :=
    stored = None \/ stored = Some 0%Z
    \/ exists fileSize,
         stored = Some fileSize /\ (fileSize > 10 * 1024 * 1024)%Z in
  let limited response :=
    exists message,
      axios SIGHTENGINE_CHECK = Rejects (AxiosError message (Some response)) /\
      ar_status response = 429%Z in
  ((statusCode res = 200%Z /\ (body res)?."success" = JBool true)
   \/ (statusCode res = 500%Z /\ (body res)?."success" = JBool false)) /\
  (statusCode res = 500%Z <->
   credentialsMissing env = false
   /\ (refused \/ exists response, limited response)) /\
  (credentialsMissing env = false -> refused ->
   outbound w' = outbound w /\
   (stored = Some 0%Z -> body res = failure_body "Uploaded file is empty") /\
   (forall fileSize, stored = Some fileSize -> fileSize <> 0%Z ->
      body res = failure_body "File size exceeds 10MB limit")) /\
  (credentialsMissing env = false -> ~ refused ->
   forall response, limited response ->
     outbound w' = outbound w ++ [SIGHTENGINE_CHECK] /\
     body res
     = failure_body
         ("API rate limit exceeded. Please wait "
          +:+ toString numberToString
                ((ar_headers response)?."retry-after" |? JStr "60")
          +:+ " seconds before trying again.")).
Proof.
  intros Hc Hrun. cbv zeta.
  pose proof (analyzeImage_outcomes random env statSync axios numberToString
                (path f) (tick w)) as Hout.
  destruct (handleAnalyze_image_inv _ _ _ _ _ _ _ _ _ _ Hc Hrun)
    as [(r & w1 & R & Hanalysis & -> & -> & _) | (e & Hanalysis & ->)].
  - (* a result *)
    pose proof (wp_returned _ _ _ _ _ _ Hout Hanalysis) as Hok.
    unfold image_accepted in Hok.
    split; [left; split; reflexivity |].
    split; [split; [discriminate |] |].
    + intros [Hm Hbad]. exfalso.
      destruct Hok as [Hok | (fileSize & Hstat & Hne & Hle & Hnot)];
        [congruence |].
      destruct Hbad as [[Hbad | [Hbad | (fileSize' & Hbad & Hgt)]]
                       | (response & Hlimited)].
      * congruence.
      * congruence.
      * rewrite Hstat in Hbad. injection Hbad as <-. lia.
      * apply Hnot. exists response. exact Hlimited.
    + split.
      * intros Hm Hbad. exfalso.
        destruct Hok as [Hok | (fileSize & Hstat & Hne & Hle & Hnot)];
          [congruence |].
        destruct Hbad as [Hbad | [Hbad | (fileSize' & Hbad & Hgt)]].
        -- congruence.
        -- congruence.
        -- rewrite Hstat in Hbad. injection Hbad as <-. lia.
      * intros Hm _ response Hlimited. exfalso.
        destruct Hok as [Hok | (fileSize & Hstat & Hne & Hle & Hnot)];
          [congruence |].
        apply Hnot. exists response. exact Hlimited.
  - (* an error *)
    pose proof (wp_thrown _ _ _ _ _ _ Hout Hanalysis) as [Hm Hwhy].
    split; [right; split; reflexivity |].
    split; [split; [intros _ | reflexivity] |].
    + split; [exact Hm |].
      destruct Hwhy as [(Hstat & _) | [(Hstat & _)
                        | [(fileSize & Hstat & Hgt & _)
                          | (fileSize & response & _ & _ & _ & Hlimited & _)]]].
      * left. left. exact Hstat.
      * left. right. left. exact Hstat.
      * left. right. right. exists fileSize. split; assumption.
      * right. exists response. exact Hlimited.
    + split.
      * intros _ Hbad.
        destruct Hwhy as [(Hstat & -> & ->) | [(Hstat & -> & ->)
                          | [(fileSize & Hstat & Hgt & -> & ->)
                            | (fileSize & response & Hstat & Hne & Hle & _)]]].
        -- split; [reflexivity |]. split; [congruence |].
           intros fileSize Hs. congruence.
        -- split; [reflexivity |]. split; [reflexivity |].
           intros fileSize Hs Hne. congruence.
        -- split; [reflexivity |]. split; [intros Hs; exfalso; rewrite Hstat in Hs; injection Hs as ->; lia |].
           reflexivity.
        -- exfalso.
           destruct Hbad as [Hbad | [Hbad | (fileSize' & Hbad & Hgt)]].
           ++ congruence.
           ++ congruence.
           ++ rewrite Hstat in Hbad. injection Hbad as <-. lia.
      * intros _ Hgood response (message & Hrej & H429).
        destruct Hwhy as [(Hstat & _) | [(Hstat & _)
                          | [(fileSize & Hstat & Hgt & _)
                            | (fileSize & response' & _ & _ & _
                               & (message' & Hrej' & _) & -> & ->)]]].
        -- exfalso. apply Hgood. auto.
        -- exfalso. apply Hgood. auto.
        -- exfalso. apply Hgood. right. right. exists fileSize. auto.
        -- rewrite Hrej in Hrej'. injection Hrej' as <- <-.
           split; reflexivity.
Qed.

(** A vendor that rejects every call with the status 429 and asks to
    wait for 30 seconds. *)
Definition vendor_busy : string -> HttpOutcome :=
  fun _ =>
    Rejects (AxiosError "Request failed with status code 429"
               (Some (mkAxiosResponse 429 JNull
                        (JObj [ ("retry-after", JStr "30") ])))).

Definition busy_run : Outcome Response * World :=
  Eval vm_compute in example_run vendor_busy "photo.png" "image/png".

Lemma image_error_answers_witness :
  let stored := example_statSync (path (example_file "photo.png" "image/png")) in
  let refused :=
    stored = None \/ stored = Some 0%Z
    \/ exists fileSize,
         stored = Some fileSize /\ (fileSize > 10 * 1024 * 1024)%Z in
  let limited response :=
    exists message,
      vendor_busy SIGHTENGINE_CHECK
      = Rejects (AxiosError message (Some response)) /\
      ar_status response = 429%Z in
  ((statusCode (response_of busy_run) = 200%Z
    /\ (body (response_of busy_run))?."success" = JBool true)
   \/ (statusCode (response_of busy_run) = 500%Z
       /\ (body (response_of busy_run))?."success" = JBool false)) /\
  (statusCode (response_of busy_run) = 500%Z <->
   credentialsMissing example_env = false
   /\ (refused \/ exists response, limited response)) /\
  (credentialsMissing example_env = false -> refused ->
   outbound (final busy_run) = outbound world0 /\
   (stored = Some 0%Z ->
    body (response_of busy_run) = failure_body "Uploaded file is empty") /\
   (forall fileSize, stored = Some fileSize -> fileSize <> 0%Z ->
      body (response_of busy_run)
      = failure_body "File size exceeds 10MB limit")) /\
  (credentialsMissing example_env = false -> ~ refused ->
   forall response, limited response ->
     outbound (final busy_run) = outbound world0 ++ [SIGHTENGINE_CHECK] /\
     body (response_of busy_run)
     = failure_body
         ("API rate limit exceeded. Please wait "
          +:+ toString example_toString
                ((ar_headers response)?."retry-after" |? JStr "60")
          +:+ " seconds before trying again.")).
Proof.
  apply (image_error_answers example_random example_now example_env
           example_statSync vendor_busy example_toString
           (example_file "photo.png" "image/png") world0
           (response_of busy_run) (final busy_run)).
  - vm_compute. reflexivity.
  - vm_compute. reflexivity.
Defined.

(** * The routes of [server/index.ts] *)

(** ** [/api/status] *)

(** [app.get("/api/status", ...)] *)
Definition statusRoute (env : gmap string string) : Response :=
  json (JObj
    [ ("sightengineConfigured",
        JBool (configured env "SIGHTENGINE_USER"
               && configured env "SIGHTENGINE_SECRET"));
      ("resembleConfigured", JBool (configured env "RESEMBLE_API_KEY"));
      ("message", JStr "Deepfake Detection API Ready") ]).

(** X16: what [/api/status] reports is what the analyses do: it says
    [sightengineConfigured: true] exactly when the analysis of a video
    sends its request to Sightengine, and exactly when the analysis of an
    image, if it returns, has sent one; whatever it says of Resemble, the
    analysis of an audio clip sends nothing. *)
Theorem status_tells_vendor_use random now env statSync axios numberToString
    f w res w' :
  handleAnalyze random now env statSync axios numberToString (Some f) w
  = (Returned res, w') ->
  let reported := (body (statusRoute env))?."sightengineConfigured" in
  let category := getFileCategory (mimetype f) in
  (reported = JBool true \/ reported = JBool false) /\
  (category = "video" ->
   (reported = JBool true <->
    outbound w' = outbound w ++ [SIGHTENGINE_VIDEO_CHECK]) /\
   (reported = JBool false <-> outbound w' = outbound w)) /\
  (category = "image" -> statusCode res = 200%Z ->
   (reported = JBool true <->
    outbound w' = outbound w ++ [SIGHTENGINE_CHECK]) /\
   (reported = JBool false <-> outbound w' = outbound w)) /\
  (category = "audio" -> outbound w' = outbound w).
Proof.
  intros Hrun. cbv zeta.
  assert (Hreported :
    (body (statusRoute env))?."sightengineConfigured"
    = JBool (negb (credentialsMissing env))).
  { unfold credentialsMissing. cbn.
    destruct (configured env "SIGHTENGINE_USER"),
      (configured env "SIGHTENGINE_SECRET"); reflexivity. }
  rewrite Hreported.
  assert (Hlists : forall url : string,
    outbound w ++ [url] <> outbound w).
  { intros url Heq. rewrite <- (app_nil_r (outbound w)) in Heq at 2.
    apply app_inv_head in Heq. discriminate Heq. }
  split; [destruct (credentialsMissing env); auto |].
  split; [| split].
  - intros Hc.
    destruct (wp_returned _ _ _ _ _ _
                (handleAnalyze_video random now env statSync axios
                   numberToString f w Hc) Hrun)
      as (R & c & isDemo & _ & _ & _ & _ & Hout & _).
    rewrite Hout.
    destruct (credentialsMissing env); cbn [negb];
      rewrite ?app_nil_r; repeat split; intros H;
      first [reflexivity | discriminate H | symmetry in H; destruct (Hlists _ H)
            | destruct (Hlists _ H)].
  - intros Hc Hok.
    destruct (wp_returned _ _ _ _ _ _
                (handleAnalyze_image random now env statSync axios
                   numberToString f w Hc) Hrun)
      as [(R & c & isDemo & _ & _ & _ & _ & Hout & _) | (message & -> & _)];
      [| discriminate Hok].
    rewrite Hout.
    destruct (credentialsMissing env); cbn [negb];
      rewrite ?app_nil_r; repeat split; intros H;
      first [reflexivity | discriminate H | symmetry in H; destruct (Hlists _ H)
            | destruct (Hlists _ H)].
  - intros Hc.
    destruct (wp_returned _ _ _ _ _ _
                (handleAnalyze_audio random now env statSync axios
                   numberToString f w Hc) Hrun)
      as (R & _ & _ & _ & Hout & _).
    exact Hout.
Qed.

Lemma status_tells_vendor_use_witness :
  let reported := (body (statusRoute example_env))?."sightengineConfigured" in
  let category :=
    getFileCategory (mimetype (example_file "clip.mp4" "video/mp4")) in
  (reported = JBool true \/ reported = JBool false) /\
  (category = "video" ->
   (reported = JBool true <->
    outbound (final clip_run) = outbound world0 ++ [SIGHTENGINE_VIDEO_CHECK]) /\
   (reported = JBool false <-> outbound (final clip_run) = outbound world0)) /\
  (category = "image" -> statusCode (response_of clip_run) = 200%Z ->
   (reported = JBool true <->
    outbound (final clip_run) = outbound world0 ++ [SIGHTENGINE_CHECK]) /\
   (reported = JBool false <-> outbound (final clip_run) = outbound world0)) /\
  (category = "audio" -> outbound (final clip_run) = outbound world0).
Proof.
  apply (status_tells_vendor_use example_random example_now example_env
           example_statSync vendor_down example_toString
           (example_file "clip.mp4" "video/mp4") world0
           (response_of clip_run) (final clip_run)).
  vm_compute. reflexivity.
Defined.

(** ** [/api/analyze], from the upload to the answer *)

Lemma fileFilter_accepts (part : FilePart) :
  fileFilter (Some part) = cb_accept ->
  getFileCategory (part_mimetype part) <> "unsupported" /\
  part_originalname part <> "" /\
  (String.length (part_originalname part) <= 255)%nat /\
  str_includes (toLowerCase (part_originalname part)) ".." = false /\
  str_includes (toLowerCase (part_originalname part)) "/" = false /\
  str_includes (toLowerCase (part_originalname part)) "\" = false /\
  includes suspiciousExtensions
    (toLowerCase (extname (toLowerCase (part_originalname part)))) = false.
Proof.
  unfold fileFilter.
  destruct (match part_size part with
            | Some s => (s >? 10 * 1024 * 1024)%Z
            | None => false
            end); [discriminate |].
  destruct (match part_size part with
            | Some s => (s =? 0)%Z
            | None => false
            end); [discriminate |].
  destruct (String.eqb (getFileCategory (part_mimetype part)) "unsupported")
    eqn:Hcategory; [discriminate |].
  destruct (String.eqb (part_originalname part) "") eqn:Hname;
    [discriminate |].
  destruct (255 <? String.length (part_originalname part))%nat eqn:Hlength;
    [discriminate |].
  cbn [orb].
  destruct (str_includes (toLowerCase (part_originalname part)) "..");
    [discriminate |].
  destruct (str_includes (toLowerCase (part_originalname part)) "/");
    [discriminate |].
  destruct (str_includes (toLowerCase (part_originalname part)) "\");
    [discriminate |].
  cbn [orb].
  destruct (includes suspiciousExtensions _); [discriminate |].
  intros _. apply String.eqb_neq in Hcategory, Hname.
  apply Nat.ltb_ge in Hlength. auto 10.
Qed.

(** X17: the analyze route always answers, with a 200, a 400 or a 500. A
    200 carries a result, and is given only to an upload that the filter
    accepted: a whitelisted mime type, a name of 1 to 255 characters
    without [".."], ["/"] or a backslash and without a blocked extension,
    and at most 10 MB; the result is of the kind of the mime type and
    records the size of the upload. A 400 (no file, or a refused upload)
    leaves the random source and the vendors untouched. A 500 is given
    only to an image, and only with the credentials configured: a video
    or an audio clip that passed the upload is never answered with an
    error. *)
Theorem analyze_route_outcomes random now env statSync axios numberToString
    cwd part w :
  exists res w',
    analyzeRoute random now env statSync axios numberToString cwd part w
    = (Returned res, w') /\
    (statusCode res = 200%Z \/ statusCode res = 400%Z
     \/ statusCode res = 500%Z) /\
    ((body res)?."success" = JBool true <-> statusCode res = 200%Z) /\
    (statusCode res = 200%Z ->
     exists p,
       part = Some p /\
       fileFilter (Some p) = cb_accept /\
       In (part_mimetype p) ALL_SUPPORTED_TYPES /\
       part_originalname p <> "" /\
       (String.length (part_originalname p) <= 255)%nat /\
       str_includes (toLowerCase (part_originalname p)) ".." = false /\
       str_includes (toLowerCase (part_originalname p)) "/" = false /\
       str_includes (toLowerCase (part_originalname p)) "\" = false /\
       (part_length p <= 10 * 1024 * 1024)%Z /\
       (body res)?."result"?."type"
       = JStr (getFileCategory (part_mimetype p)) /\
       (body res)?."result"?."metadata"?."file_size"
       = JNum (inject_Z (part_length p)) /\
       (body res)?."result"?."metadata"?."file_name"
       = JStr (part_originalname p)) /\
    (statusCode res = 400%Z ->
     rngCalls w' = rngCalls w /\ outbound w' = outbound w /\
     (part = None -> body res = failure_body "No file uploaded")) /\
    (statusCode res = 500%Z ->
     exists p,
       part = Some p /\ getFileCategory (part_mimetype p) = "image" /\
       credentialsMissing env = false).
Proof.
  unfold analyzeRoute, upload_single.
  destruct part as [p |].
  2: { (* no file *)
       do 2 eexists. split; [reflexivity |]. cbn.
       split; [auto |]. split; [split; discriminate |].
       split; [discriminate |]. split; [auto | discriminate]. }
  destruct (fileFilter (Some p)) as [message |] eqn:Hfilter.
  { do 2 eexists. split; [reflexivity |]. cbn.
    split; [auto |]. split; [split; discriminate |].
    split; [discriminate |].
    split; [intros _; repeat split; discriminate | discriminate]. }
  unfold bind at 1. unfold Date_now at 1. cbv beta iota.
  destruct (part_length p >? limits_fileSize)%Z eqn:Hlimit.
  { unfold bind, ret. do 2 eexists. split; [reflexivity |]. cbn.
    split; [auto |]. split; [split; discriminate |].
    split; [discriminate |].
    split; [intros _; repeat split; discriminate | discriminate]. }
  unfold bind at 1. unfold ret at 1. cbv beta iota.
  rewrite Z.gtb_ltb, Z.ltb_ge in Hlimit. unfold limits_fileSize in Hlimit.
  destruct (fileFilter_accepts p Hfilter)
    as (Hsupported & Hname & Hlength & Hdots & Hslash & Hback & _).
  assert (Hmime : In (part_mimetype p) ALL_SUPPORTED_TYPES).
  { destruct (in_dec String.string_dec (part_mimetype p) ALL_SUPPORTED_TYPES)
      as [Hin | Hout]; [exact Hin |].
    apply getFileCategory_unsupported in Hout. contradiction. }
  fold (tick w).
  set (f := mkMulterFile _ _ _ _ _).
  assert (Hsuccess : forall R,
    copies_upload f R ->
    R?."type" = JStr (getFileCategory (part_mimetype p)) ->
    exists p0,
      Some p = Some p0 /\
      fileFilter (Some p0) = cb_accept /\
      In (part_mimetype p0) ALL_SUPPORTED_TYPES /\
      part_originalname p0 <> "" /\
      (String.length (part_originalname p0) <= 255)%nat /\
      str_includes (toLowerCase (part_originalname p0)) ".." = false /\
      str_includes (toLowerCase (part_originalname p0)) "/" = false /\
      str_includes (toLowerCase (part_originalname p0)) "\" = false /\
      (part_length p0 <= 10 * 1024 * 1024)%Z /\
      R?."type" = JStr (getFileCategory (part_mimetype p0)) /\
      R?."metadata"?."file_size" = JNum (inject_Z (part_length p0)) /\
      R?."metadata"?."file_name" = JStr (part_originalname p0)).
  { intros R (Hsize & Hfile) Htype. exists p. auto 15. }
  destruct (getFileCategory_cases (part_mimetype p))
    as [Hc | [Hc | [Hc | Hc]]]; [| | | contradiction].
  - (* an image *)
    destruct (analyzeImage random env statSync axios numberToString (path f)
                (tick (tick w))) as [[r | e] w1] eqn:Hanalysis.
    + destruct (handleAnalyze_image_run random now env statSync axios
                  numberToString f (tick w) r w1 Hc Hanalysis)
        as (R & Hrun & Hcopies & _ & _ & _ & _ & Htype).
      exists (json (success_body R)), (tick w1).
      split; [exact Hrun |]. cbn [statusCode body json].
      split; [auto |]. split; [split; reflexivity |].
      split; [intros _ | split; discriminate].
      change ((success_body R)?."result") with R.
      apply Hsuccess; [exact (copies_records r f R Hcopies) |].
      rewrite Hc. exact Htype.
    + rewrite (handleAnalyze_image_throws random now env statSync axios
                 numberToString f (tick w) e w1 Hc Hanalysis).
      do 2 eexists. split; [reflexivity |]. cbn [statusCode body].
      split; [auto |]. split; [split; discriminate |].
      split; [discriminate |]. split; [discriminate |].
      intros _. exists p. split; [reflexivity |]. split; [exact Hc |].
      destruct (wp_thrown _ _ _ _ _ _
                  (analyzeImage_outcomes random env statSync axios
                     numberToString (path f) (tick (tick w))) Hanalysis)
        as [Hm _].
      exact Hm.
  - (* a video *)
    destruct (analyzeVideo_returns random env axios numberToString (path f)
                (tick (tick w))) as (r & w1 & Hanalysis).
    destruct (handleAnalyze_video_run random now env statSync axios
                numberToString f (tick w) r w1 Hc Hanalysis)
      as (R & Hrun & Hcopies & _ & _ & _ & _ & Htype).
    exists (json (success_body R)), (tick w1).
    split; [exact Hrun |]. cbn [statusCode body json].
    split; [auto |]. split; [split; reflexivity |].
    split; [intros _ | split; discriminate].
    change ((success_body R)?."result") with R.
    apply Hsuccess; [exact (copies_records r f R Hcopies) |].
    rewrite Hc. exact Htype.
  - (* an audio clip *)
    destruct (analyzeAudio_returns random (path f) (tick (tick w)))
      as (r & w1 & Hanalysis).
    destruct (handleAnalyze_audio_run random now env statSync axios
                numberToString f (tick w) r w1 Hc Hanalysis)
      as (R & Hrun & Hcopies & _ & _ & _ & _ & Htype).
    exists (json (success_body R)), (tick w1).
    split; [exact Hrun |]. cbn [statusCode body json].
    split; [auto |]. split; [split; reflexivity |].
    split; [intros _ | split; discriminate].
    change ((success_body R)?."result") with R.
    apply Hsuccess; [exact (copies_records r f R Hcopies) |].
    rewrite Hc. exact Htype.
Qed.


(** ** The middleware in front of the routes ([server/index.ts]) *)

(** What the middleware reads of a request to [/api/analyze] with a
    multipart body, which [express.json] and [express.urlencoded] pass on
    unread, besides its method. [req_contentLength] is the number
    [parseInt] reads from the [Content-Length] header: [None] when the
    header is absent or empty, or does not start with a number. *)
Record Request := mkRequest {
  req_origin : option string;        (* req.headers.origin *)
  req_contentLength : option Z;
  req_userAgent : option string;     (* req.get('User-Agent') *)
  req_file : option FilePart         (* the file of the multipart body *)
}.

Definition allowedOrigins : list string :=
  [ "http://localhost:3000"; "http://localhost:5173";
    "http://localhost:8080"; "http://localhost:8081";
    "http://127.0.0.1:3000"; "http://127.0.0.1:5173";
    "http://127.0.0.1:8080"; "http://127.0.0.1:8081" ].

(** An error handed to [next]: its message, and its [status] if it has
    one. *)
Record MiddlewareError := mkMiddlewareError {
  err_message : string;
  err_status : option Z
}.

(** The [origin] function of [corsOptions]: the error it calls back with,
    [None] when it lets the origin in. A request without an origin is let
    in. *)
Definition corsOptions_origin (origin : option string)
  : option MiddlewareError :=
  match origin with
  | None => None
  | Some o =>
      if String.eqb o "" then None
      else if includes allowedOrigins o then None
      else Some (mkMiddlewareError "Not allowed by CORS" None)
  end.

(** What a middleware does with a request: it ends it with an answer, it
    hands an error to [next], or it calls [next()]. *)
Inductive Step :=
| Ends (res : Response)
| Fails (err : MiddlewareError)
| Next.

(** [app.use('/api', cors(corsOptions))]: the error of the origin function
    goes to [next]; a preflight request is answered 204 without a body;
    every other request goes on with the CORS headers set. *)
Definition cors (method : string) (req : Request) : Step :=
  match corsOptions_origin (req_origin req) with
  | Some err => Fails err
  | None =>
      if String.eqb method "OPTIONS"
      then Ends (mkResponse 204 JUndefined)
      else Next
  end.

(** The global error handler at the end of [createServer]. *)
Definition errorHandler (err : MiddlewareError) : Response :=
  if String.eqb (err_message err) "Not allowed by CORS" then
    mkResponse 403
      (JObj [ ("success", JBool false);
              ("error", JStr "CORS policy violation");
              ("message", JStr "Origin not allowed by CORS policy") ])
  else if bool_decide (err_status err = Some 400%Z)
          || bool_decide (err_status err = Some 413%Z) then
    mkResponse (default 0%Z (err_status err))
      (JObj [ ("success", JBool false);
              ("error", JStr "Validation error");
              ("message", JStr (if String.eqb (err_message err) ""
                                then "Invalid request"
                                else err_message err)) ])
  else if bool_decide (err_status err = Some 405%Z) then
    mkResponse 405
      (JObj [ ("success", JBool false);
              ("error", JStr "Method not allowed");
              ("message", JStr (if String.eqb (err_message err) ""
                                then "HTTP method not supported"
                                else err_message err)) ])
  else
    mkResponse 500
      (JObj [ ("success", JBool false);
              ("error", JStr "Internal server error");
              ("message", JStr "An unexpected error occurred") ]).

Definition allowedMethods : list string := ["GET"; "POST"; "OPTIONS"].

(** The patterns [/bot/i], [/crawler/i], ... *)
Definition suspiciousPatterns : list string :=
  [ "bot"; "crawler"; "spider"; "scraper"; "curl"; "wget"; "python"; "java";
    "sqlmap"; "nikto"; "nmap" ].

(** [/pattern/i.test(s)] for a pattern of lower-case letters. *)
Definition test_i (pattern s : string) : bool :=
  str_includes (toLowerCase s) pattern.

(** The request validation middleware: [Some] answer when it ends the
    request, [None] when it calls [next()]. *)
Definition requestValidation (method : string) (req : Request)
  : option Response :=
  if negb (includes allowedMethods method) then
    Some (mkResponse 405
            (JObj [ ("success", JBool false);
                    ("error", JStr "Method not allowed");
                    ("message",
                      JStr ("HTTP method " +:+ method
                            +:+ " is not supported")) ]))
  else if String.eqb method "POST"
          && match req_contentLength req with
             | Some contentLength => (contentLength >? 10 * 1024 * 1024)%Z
             | None => false
             end
  then
    Some (mkResponse 413
            (JObj [ ("success", JBool false);
                    ("error", JStr "Payload too large");
                    ("message", JStr "Request body exceeds 10MB limit") ]))
  else
    let userAgent := str_or (req_userAgent req) "" in
    if existsb (fun pattern => test_i pattern userAgent) suspiciousPatterns
    then
      Some (mkResponse 403
              (JObj [ ("success", JBool false);
                      ("error", JStr "Access denied");
                      ("message",
                        JStr "Request blocked for security reasons") ]))
    else None.

Section Pipeline.

Variable random : nat -> Q.
Variable now : nat -> Z.
Variable env : gmap string string.
Variable statSync : string -> option Z.
Variable axios : string -> HttpOutcome.
Variable numberToString : Q -> string.
Variable cwd : string.

(** A POST to [/api/analyze]: the CORS middleware of [/api], whose error
    the global error handler answers; the request validation (the
    middleware that sets the security headers changes no answer); then
    the route that [app.post] registers. *)
Definition postAnalyze (req : Request) : M Response :=
  match cors "POST" req with
  | Fails err => ret (errorHandler err)
  | Ends res => ret res
  | Next =>
      match requestValidation "POST" req with
      | Some res => ret res
      | None =>
          analyzeRoute random now env statSync axios numberToString cwd
            (req_file req)
      end
  end.

End Pipeline.

(** The origin is let in by the CORS middleware: there is none, or it is
    one of the allowed origins. *)
Definition origin_allowed (req : Request) : bool :=
  match corsOptions_origin (req_origin req) with
  | None => true
  | Some _ => false
  end.

(** X18: on a POST to [/api/analyze] with a file of more than 10 MB. A
    request from an origin that is not allowed is answered 403, ["CORS
    policy violation"], before anything else. Otherwise the limit of the
    upload never gets to speak when the request declares its length: the
    declared length is at least the length of the file, so the middleware
    answers 413 before anything is read, stored or drawn. Only a request
    without a declared length reaches the upload, whose answer is then a
    400, with the message ["File too large"] when the filter accepts the
    file, unless the middleware blocks the user agent with a 403. *)
Theorem oversize_is_refused_before_upload random now env statSync axios
    numberToString cwd req p w res w' :
  req_file req = Some p ->
  (part_length p > 10 * 1024 * 1024)%Z ->
  postAnalyze random now env statSync axios numberToString cwd req w
  = (Returned res, w') ->
  (body res)?."success" = JBool false /\
  (origin_allowed req = false ->
   statusCode res = 403%Z /\
   (body res)?."error" = JStr "CORS policy violation" /\ w' = w) /\
  (origin_allowed req = true ->
   (forall contentLength,
      req_contentLength req = Some contentLength ->
      (part_length p <= contentLength)%Z ->
      statusCode res = 413%Z /\
      (body res)?."error" = JStr "Payload too large" /\ w' = w) /\
   (req_contentLength req = None ->
    (statusCode res = 403%Z /\
     (body res)?."error" = JStr "Access denied" /\ w' = w)
    \/ (statusCode res = 400%Z /\
        rngCalls w' = rngCalls w /\ outbound w' = outbound w /\
        (fileFilter (Some p) = cb_accept ->
         body res = failure_body "File too large")))).
Proof.
  intros Hfile Hsize.
  unfold postAnalyze, cors, origin_allowed.
  destruct (corsOptions_origin (req_origin req)) as [err |] eqn:Horigin.
  { (* the origin is not allowed *)
    assert (Herr : err = mkMiddlewareError "Not allowed by CORS" None).
    { unfold corsOptions_origin in Horigin.
      destruct (req_origin req) as [o |]; [| discriminate Horigin].
      destruct (String.eqb o ""); [discriminate Horigin |].
      destruct (includes allowedOrigins o); [discriminate Horigin |].
      injection Horigin as <-. reflexivity. }
    subst err. intros Hrun. injection Hrun as <- <-.
    split; [reflexivity |]. split; [| discriminate].
    intros _. repeat split. }
  change (String.eqb "POST" "OPTIONS") with false. cbv iota.
  unfold requestValidation.
  rewrite Hfile. cbn [includes allowedMethods existsb negb].
  change (String.eqb "POST" "GET") with false.
  change (String.eqb "POST" "POST") with true. cbn [orb negb andb].
  destruct (req_contentLength req) as [contentLength |].
  - destruct (contentLength >? 10 * 1024 * 1024)%Z eqn:Hlimit.
    + intros Hrun. injection Hrun as <- <-.
      split; [reflexivity |]. split; [discriminate |]. intros _.
      split; [| discriminate].
      intros n _ _. repeat split.
    + (* the declared length is small: then it cannot cover the file *)
      rewrite Z.gtb_ltb, Z.ltb_ge in Hlimit.
      destruct (existsb _ suspiciousPatterns).
      * intros Hrun. injection Hrun as <- <-.
        split; [reflexivity |]. split; [discriminate |]. intros _.
        split; [| discriminate].
        intros n Hn Hle. injection Hn as <-. lia.
      * unfold analyzeRoute, upload_single.
        destruct (fileFilter (Some p)) as [message |].
        -- intros Hrun. injection Hrun as <- <-.
           split; [reflexivity |]. split; [discriminate |]. intros _.
           split; [| discriminate].
           intros n Hn Hle. injection Hn as <-. lia.
        -- unfold bind, Date_now, ret.
           assert (Hbig : (part_length p >? limits_fileSize)%Z = true).
           { unfold limits_fileSize. rewrite Z.gtb_ltb. apply Z.ltb_lt. lia. }
           rewrite Hbig.
           intros Hrun. injection Hrun as <- <-.
           split; [reflexivity |]. split; [discriminate |]. intros _.
           split; [| discriminate].
           intros n Hn Hle. injection Hn as <-. lia.
  - destruct (existsb _ suspiciousPatterns).
    + intros Hrun. injection Hrun as <- <-.
      split; [reflexivity |]. split; [discriminate |]. intros _.
      split; [discriminate |].
      intros _. left. repeat split.
    + unfold analyzeRoute, upload_single.
      destruct (fileFilter (Some p)) as [message |].
      * intros Hrun. injection Hrun as <- <-.
        split; [reflexivity |]. split; [discriminate |]. intros _.
        split; [discriminate |].
        intros _. right. repeat split. discriminate.
      * unfold bind, Date_now, ret.
        assert (Hbig : (part_length p >? limits_fileSize)%Z = true).
        { unfold limits_fileSize. rewrite Z.gtb_ltb. apply Z.ltb_lt. lia. }
        rewrite Hbig.
        intros Hrun. injection Hrun as <- <-.
        split; [reflexivity |]. split; [discriminate |]. intros _.
        split; [discriminate |].
        intros _. right. repeat split.
Qed.

(** A browser on an allowed origin that uploads a film of 11 MB and
    declares the length of its request. *)
Definition example_request : Request :=
  mkRequest (Some "http://localhost:8080") (Some 11534636%Z)
    (Some "Mozilla/5.0 (X11; Linux x86_64) Firefox/128.0")
    (Some (mkFilePart "film.mp4" "video/mp4" None 11534336)).

Definition refused_run : Outcome Response * World :=
  Eval vm_compute in
    postAnalyze example_random example_now example_env example_statSync
      vendor_up example_toString "/srv/app" example_request world0.

Lemma oversize_is_refused_before_upload_witness :
  let p := mkFilePart "film.mp4" "video/mp4" None 11534336 in
  (body (response_of refused_run))?."success" = JBool false /\
  (origin_allowed example_request = false ->
   statusCode (response_of refused_run) = 403%Z /\
   (body (response_of refused_run))?."error" = JStr "CORS policy violation" /\
   final refused_run = world0) /\
  (origin_allowed example_request = true ->
   (forall contentLength,
      req_contentLength example_request = Some contentLength ->
      (part_length p <= contentLength)%Z ->
      statusCode (response_of refused_run) = 413%Z /\
      (body (response_of refused_run))?."error" = JStr "Payload too large" /\
      final refused_run = world0) /\
   (req_contentLength example_request = None ->
    (statusCode (response_of refused_run) = 403%Z /\
     (body (response_of refused_run))?."error" = JStr "Access denied" /\
     final refused_run = world0)
    \/ (statusCode (response_of refused_run) = 400%Z /\
        rngCalls (final refused_run) = rngCalls world0 /\
        outbound (final refused_run) = outbound world0 /\
        (fileFilter (Some p) = cb_accept ->
         body (response_of refused_run) = failure_body "File too large")))).
Proof.
  apply (oversize_is_refused_before_upload example_random example_now
           example_env example_statSync vendor_up example_toString "/srv/app"
           example_request
           (mkFilePart "film.mp4" "video/mp4" None 11534336) world0
           (response_of refused_run) (final refused_run)).
  - reflexivity.
  - vm_compute. reflexivity.
  - vm_compute. reflexivity.
Defined.

(** * The client *)

(** ** Validation before the upload (the [FileUpload] component) *)

(** A [File] of the browser, as far as the component reads it. *)
Record File := mkFile {
  file_name : string;
  file_type : string;
  file_size : Z
}.

Module FileUpload.

Definition maxFileSize : Z := 10 * 1024 * 1024.

Definition allowedTypes : list string :=
  [ "image/jpeg"; "image/png"; "image/webp";
    "video/mp4"; "video/webm"; "video/quicktime";
    "audio/wav"; "audio/mpeg"; "audio/mp4"; "audio/ogg" ].

(** [validateFile]: an error message, or [null]. The size is printed by
    [formatFileSize], which is a parameter here. *)
Definition validateFile (formatFileSize : Z -> string) (file : File)
  : option string :=
  if (file_size file >? maxFileSize)%Z then
    Some ("File size must be less than 10MB. Current size: "
          +:+ formatFileSize (file_size file))
  else if negb (includes allowedTypes (file_type file)) then
    Some ("File type not supported. Allowed types: "
          +:+ String.concat ", " allowedTypes)
  else None.

(** The part of the multipart request that [formData.append('file', file)]
    makes of a file. *)
Definition partOf (file : File) : FilePart :=
  mkFilePart (file_name file) (file_type file) None (file_size file).

End FileUpload.

(** X19: the client and the server do not agree on the mime types. A file
    that the client lets through is at most 10 MB long, as the server
    asks; but of the ten types the client allows, the server supports
    seven: a QuickTime film and audio of the types [audio/mpeg] and
    [audio/mp4] pass the client and are then refused by the route with a
    400, while the client refuses the types [video/mov], [audio/mp3] and
    [audio/m4a], which the server supports. *)
Theorem client_and_server_disagree_on_types (formatFileSize : Z -> string)
    (file : File) :
  let accepted := FileUpload.validateFile formatFileSize file = None in
  let supported := getFileCategory (file_type file) <> "unsupported" in
  (accepted ->
   (file_size file <= limits_fileSize)%Z /\
   (supported <->
    In (file_type file)
      [ "image/jpeg"; "image/png"; "image/webp"; "video/mp4"; "video/webm";
        "audio/wav"; "audio/ogg" ])) /\
  (In (file_type file) ["video/quicktime"; "audio/mpeg"; "audio/mp4"] ->
   (file_size file <= 10 * 1024 * 1024)%Z ->
   accepted /\
   forall random now env statSync axios numberToString cwd w,
     analyzeRoute random now env statSync axios numberToString cwd
       (Some (FileUpload.partOf file)) w
     = (Returned
          (mkResponse 400
             (failure_body ("Unsupported file type: " +:+ file_type file))),
        w)) /\
  (In (file_type file) ["video/mov"; "audio/mp3"; "audio/m4a"] ->
   ~ accepted /\ supported).
Proof.
  cbv zeta. unfold FileUpload.validateFile, FileUpload.maxFileSize.
  split; [| split].
  - destruct (file_size file >? 10 * 1024 * 1024)%Z eqn:Hsize;
      [discriminate |].
    rewrite Z.gtb_ltb, Z.ltb_ge in Hsize.
    destruct (includes FileUpload.allowedTypes (file_type file)) eqn:Htype;
      [| discriminate].
    intros _. split; [exact Hsize |].
    apply includes_In in Htype. cbn in Htype.
    decompose [or] Htype; try contradiction;
      match goal with H : _ = file_type file |- _ => rewrite <- H end;
      cbn; split; intros Hs;
      first [ discriminate | tauto | (exfalso; apply Hs; reflexivity)
            | (decompose [or] Hs; first [discriminate | contradiction]) ].
  - intros Htype Hsize.
    assert (Hlimit : (file_size file >? 10 * 1024 * 1024)%Z = false).
    { rewrite Z.gtb_ltb. apply Z.ltb_ge. exact Hsize. }
    rewrite Hlimit.
    cbn in Htype. decompose [or] Htype; try contradiction;
      match goal with H : _ = file_type file |- _ => rewrite <- H end;
      (split; [reflexivity |]); intros;
      unfold analyzeRoute, upload_single, FileUpload.partOf, fileFilter;
      cbn [part_size part_mimetype];
      match goal with H : _ = file_type file |- _ => rewrite <- H end;
      reflexivity.
  - intros Htype.
    cbn in Htype. decompose [or] Htype; try contradiction;
      match goal with H : _ = file_type file |- _ => rewrite <- H end;
      (split; [| cbn; discriminate]);
      destruct (file_size file >? 10 * 1024 * 1024)%Z; discriminate.
Qed.

(** ** The charts of the dashboard (the [DashboardAnalytics] component) *)

(** What the charts read of an [AnalysisResult]. *)
Record ResultRow := mkResultRow {
  row_type : string;
  row_isDeepfake : bool;
  row_confidence : Q;
  row_riskLevel : string
}.

Module DashboardAnalytics.

(** [n || d] for a count [n]. *)
Definition count_or (n d : nat) : nat := if (n =? 0)%nat then d else n.

Definition countWhere (p : ResultRow -> bool) (results : list ResultRow) : nat :=
  List.length (List.filter p results).

Definition slice (name : string) (value : nat) (color : string) : JsVal :=
  JObj [ ("name", JStr name); ("value", JNum (inject_Z (Z.of_nat value)));
         ("color", JStr color) ].

Definition getMediaDistribution (results : list ResultRow) : list JsVal :=
  let image := countWhere (fun r => String.eqb (row_type r) "image") results in
  let video := countWhere (fun r => String.eqb (row_type r) "video") results in
  let audio := countWhere (fun r => String.eqb (row_type r) "audio") results in
  [ slice "Images" (count_or image 15) "#3b82f6";
    slice "Videos" (count_or video 8) "#10b981";
    slice "Audio" (count_or audio 3) "#f59e0b" ].

Definition getRiskDistribution (results : list ResultRow) : list JsVal :=
  let LOW :=
    count_or (countWhere (fun r => String.eqb (row_riskLevel r) "LOW") results)
      18 in
  let MEDIUM :=
    count_or
      (countWhere (fun r => String.eqb (row_riskLevel r) "MEDIUM") results) 9 in
  let HIGH :=
    count_or (countWhere (fun r => String.eqb (row_riskLevel r) "HIGH") results)
      5 in
  let CRITICAL :=
    count_or
      (countWhere (fun r => String.eqb (row_riskLevel r) "CRITICAL") results)
      3 in
  [ slice "Low Risk" LOW "#10b981";
    slice "Medium Risk" MEDIUM "#f59e0b";
    slice "High Risk" HIGH "#f97316";
    slice "Critical" CRITICAL "#ef4444" ].








End DashboardAnalytics.


Lemma countWhere_app (p : ResultRow -> bool) (l1 l2 : list ResultRow) :
  DashboardAnalytics.countWhere p (l1 ++ l2)
  = (DashboardAnalytics.countWhere p l1
     + DashboardAnalytics.countWhere p l2)%nat.
Proof.
  unfold DashboardAnalytics.countWhere.
  rewrite List.filter_app, List.length_app. reflexivity.
Qed.

Lemma countWhere_cons (p : ResultRow -> bool) (r : ResultRow)
    (l : list ResultRow) :
  DashboardAnalytics.countWhere p (r :: l)
  = ((if p r then 1 else 0) + DashboardAnalytics.countWhere p l)%nat.
Proof.
  unfold DashboardAnalytics.countWhere. cbn. destruct (p r); reflexivity.
Qed.

Lemma countWhere_pos (p : ResultRow -> bool) (l : list ResultRow) :
  (0 < DashboardAnalytics.countWhere p l)%nat <->
  exists r, In r l /\ p r = true.
Proof.
  induction l as [| x rest IH].
  - cbn. split; [lia | intros (r & [] & _)].
  - rewrite countWhere_cons. split.
    + destruct (p x) eqn:Hx.
      * intros _. exists x. split; [left; reflexivity | exact Hx].
      * cbn. intros Hpos. apply IH in Hpos as (r & Hr & Hp).
        exists r. split; [right; exact Hr | exact Hp].
    + intros (r & [<- | Hr] & Hp).
      * rewrite Hp. lia.
      * assert (0 < DashboardAnalytics.countWhere p rest)%nat
          by (apply IH; exists r; auto).
        lia.
Qed.











(** The rows whose risk level, or whose type, is a given one. *)
Definition hasLevel (level : string) (row : ResultRow) : bool :=
  String.eqb (row_riskLevel row) level.

Definition hasType (type : string) (row : ResultRow) : bool :=
  String.eqb (row_type row) type.

Lemma count_or_spec (n d : nat) :
  (0 < d)%nat ->
  (0 < DashboardAnalytics.count_or n d)%nat /\
  (n <= DashboardAnalytics.count_or n d)%nat /\
  ((0 < n)%nat -> DashboardAnalytics.count_or n d = n) /\
  (n = 0%nat -> DashboardAnalytics.count_or n d = d).
Proof.
  intros Hd. unfold DashboardAnalytics.count_or.
  destruct (n =? 0)%nat eqn:E;
    [apply Nat.eqb_eq in E | apply Nat.eqb_neq in E]; lia.
Qed.

Lemma levels_partition (results : list ResultRow) :
  Forall (fun row => In (row_riskLevel row) ["LOW"; "MEDIUM"; "HIGH"; "CRITICAL"])
         results ->
  (DashboardAnalytics.countWhere (hasLevel "LOW") results
   + DashboardAnalytics.countWhere (hasLevel "MEDIUM") results
   + DashboardAnalytics.countWhere (hasLevel "HIGH") results
   + DashboardAnalytics.countWhere (hasLevel "CRITICAL") results
   = List.length results)%nat.
Proof.
  induction 1 as [| x rest Hx _ IH]; [reflexivity |].
  rewrite !countWhere_cons. cbn [List.length]. unfold hasLevel at 1 3 5 7.
  cbn in Hx. decompose [or] Hx; try contradiction;
    match goal with H : _ = row_riskLevel x |- _ => rewrite <- H end;
    cbn; lia.
Qed.

(** X21: the two pie charts of the dashboard never show a zero: the slice
    of a risk level, or of a media type, shows the number of the results
    that have it when there is one, and a sample number (18, 9, 5 and 3
    for the levels, 15, 8 and 3 for the types) when there is none. So,
    for results whose risk level is one of the four that the server
    gives, the slices of the risk chart add up to the number of the
    results exactly when every level occurs among them, and to more
    otherwise. *)
Theorem charts_never_show_zero (results : list ResultRow) :
  let number (n : nat) := JNum (inject_Z (Z.of_nat n)) in
  let level l := DashboardAnalytics.countWhere (hasLevel l) results in
  let type t := DashboardAnalytics.countWhere (hasType t) results in
  exists low medium high critical images videos audio : nat,
    List.map (fun s => s?."value") (DashboardAnalytics.getRiskDistribution results)
    = List.map number [low; medium; high; critical] /\
    List.map (fun s => s?."value") (DashboardAnalytics.getMediaDistribution results)
    = List.map number [images; videos; audio] /\
    Forall (fun n => (0 < n)%nat)
      [low; medium; high; critical; images; videos; audio] /\
    low = (if (level "LOW" =? 0)%nat then 18%nat else level "LOW") /\
    medium = (if (level "MEDIUM" =? 0)%nat then 9%nat else level "MEDIUM") /\
    high = (if (level "HIGH" =? 0)%nat then 5%nat else level "HIGH") /\
    critical
    = (if (level "CRITICAL" =? 0)%nat then 3%nat else level "CRITICAL") /\
    images = (if (type "image" =? 0)%nat then 15%nat else type "image") /\
    videos = (if (type "video" =? 0)%nat then 8%nat else type "video") /\
    audio = (if (type "audio" =? 0)%nat then 3%nat else type "audio") /\
    (Forall (fun row =>
               In (row_riskLevel row) ["LOW"; "MEDIUM"; "HIGH"; "CRITICAL"])
            results ->
     (List.length results <= low + medium + high + critical)%nat /\
     ((low + medium + high + critical = List.length results)%nat <->
      forall l, In l ["LOW"; "MEDIUM"; "HIGH"; "CRITICAL"] ->
                exists row, In row results /\ row_riskLevel row = l)).
Proof.
  cbv zeta.
  do 7 eexists.
  split; [reflexivity |]. split; [reflexivity |].
  fold (hasLevel "LOW") (hasLevel "MEDIUM") (hasLevel "HIGH")
    (hasLevel "CRITICAL") (hasType "image") (hasType "video") (hasType "audio").
  set (nl := DashboardAnalytics.countWhere (hasLevel "LOW") results).
  set (nm := DashboardAnalytics.countWhere (hasLevel "MEDIUM") results).
  set (nh := DashboardAnalytics.countWhere (hasLevel "HIGH") results).
  set (nc := DashboardAnalytics.countWhere (hasLevel "CRITICAL") results).
  set (ni := DashboardAnalytics.countWhere (hasType "image") results).
  set (nv := DashboardAnalytics.countWhere (hasType "video") results).
  set (na := DashboardAnalytics.countWhere (hasType "audio") results).
  destruct (count_or_spec nl 18) as (Pl & Gl & El & Zl); [lia |].
  destruct (count_or_spec nm 9) as (Pm & Gm & Em & Zm); [lia |].
  destruct (count_or_spec nh 5) as (Ph & Gh & Eh & Zh); [lia |].
  destruct (count_or_spec nc 3) as (Pc & Gc & Ec & Zc); [lia |].
  destruct (count_or_spec ni 15) as (Pi & _); [lia |].
  destruct (count_or_spec nv 8) as (Pv & _); [lia |].
  destruct (count_or_spec na 3) as (Pa & _); [lia |].
  split; [repeat constructor; assumption |].
  do 7 (split; [reflexivity |]).
  intros Hlevels. pose proof (levels_partition results Hlevels) as Hsum.
  fold nl nm nh nc in Hsum.
  split; [lia |]. split.
  - intros Htotal l Hl.
    assert (Hpos : (0 < nl /\ 0 < nm /\ 0 < nh /\ 0 < nc)%nat).
    { destruct (Nat.eq_dec nl 0%nat) as [Hz | Hz]; [specialize (Zl Hz); lia |].
      destruct (Nat.eq_dec nm 0%nat) as [Hz' | Hz']; [specialize (Zm Hz'); lia |].
      destruct (Nat.eq_dec nh 0%nat) as [Hz'' | Hz'']; [specialize (Zh Hz''); lia |].
      destruct (Nat.eq_dec nc 0%nat) as [Hz3 | Hz3]; [specialize (Zc Hz3); lia |].
      lia. }
    destruct Hpos as (Hl1 & Hl2 & Hl3 & Hl4).
    cbn in Hl. decompose [or] Hl; try contradiction; subst l;
      [ apply countWhere_pos in Hl1 as (row & Hin & Hrow)
      | apply countWhere_pos in Hl2 as (row & Hin & Hrow)
      | apply countWhere_pos in Hl3 as (row & Hin & Hrow)
      | apply countWhere_pos in Hl4 as (row & Hin & Hrow) ];
      exists row; (split; [exact Hin | apply String.eqb_eq; exact Hrow]).
  - intros Hall.
    assert (Hpos : forall l, In l ["LOW"; "MEDIUM"; "HIGH"; "CRITICAL"] ->
                   (0 < DashboardAnalytics.countWhere (hasLevel l) results)%nat).
    { intros l Hl. destruct (Hall l Hl) as (row & Hin & Hrow).
      apply countWhere_pos. exists row. split; [exact Hin |].
      apply String.eqb_eq. exact Hrow. }
    assert (H1 : (0 < nl)%nat) by (apply Hpos; cbn; tauto).
    assert (H2 : (0 < nm)%nat) by (apply Hpos; cbn; tauto).
    assert (H3 : (0 < nh)%nat) by (apply Hpos; cbn; tauto).
    assert (H4 : (0 < nc)%nat) by (apply Hpos; cbn; tauto).
    rewrite (El H1), (Em H2), (Eh H3), (Ec H4). exact Hsum.
Qed.

(** ** The colours of a result *)

Module ResultsDashboard.

Definition getConfidenceColor (confidence : Q) : string :=
  if confidence >=? 0.8 then "text-success"
  else if confidence >=? 0.6 then "text-warning"
  else "text-danger".

Definition getRiskLevelColor (riskLevel : string) : string :=
  if String.eqb riskLevel "CRITICAL" then "bg-red-600 text-white"
  else if String.eqb riskLevel "HIGH" then "bg-orange-500 text-white"
  else if String.eqb riskLevel "MEDIUM" then "bg-yellow-500 text-black"
  else if String.eqb riskLevel "LOW" then "bg-green-500 text-white"
  else "bg-gray-500 text-white".


End ResultsDashboard.

Module AnalysisResults.

Definition getRiskLevelColor (riskLevel : string) : string :=
  if String.eqb riskLevel "LOW"
  then "bg-green-100 text-green-800 border-green-200"
  else if String.eqb riskLevel "MEDIUM"
  then "bg-yellow-100 text-yellow-800 border-yellow-200"
  else if String.eqb riskLevel "HIGH"
  then "bg-orange-100 text-orange-800 border-orange-200"
  else if String.eqb riskLevel "CRITICAL"
  then "bg-red-100 text-red-800 border-red-200"
  else "bg-gray-100 text-gray-800 border-gray-200".

(** Called with the confidence in percent. *)
Definition getConfidenceColor (confidence : Q) : string :=
  if confidence >=? 80 then "text-green-600"
  else if confidence >=? 60 then "text-yellow-600"
  else if confidence >=? 40 then "text-orange-600"
  else "text-red-600".

End AnalysisResults.

Module ConfidenceGauge.



End ConfidenceGauge.






(** ** The figures of the home page ([client/pages/Index.tsx]) *)

Module Index.

Definition getTotalAnalyses (results : list ResultRow) : nat :=
  List.length results.

Definition getDeepfakeCount (results : list ResultRow) : nat :=
  List.length (List.filter row_isDeepfake results).

Definition getAuthenticCount (results : list ResultRow) : nat :=
  List.length (List.filter (fun r => negb (row_isDeepfake r)) results).

(** [results.reduce((sum, result) => sum + result.confidence, 0)
    / results.length], each sum and the quotient rounded to binary64. *)
Definition getAverageConfidence (results : list ResultRow) : Q :=
  match results with
  | [] => 0
  | _ =>
      Num.div
        (fold_left (fun sum result => Num.add sum (row_confidence result))
           results 0)
        (inject_Z (Z.of_nat (List.length results)))
  end.

End Index.

(** The rounded sum of [n] scores of the unit interval, from a sum that is
    at most [k] on, is at most [k + n], as long as these integers are
    binary64 numbers. *)
Lemma sum_confidence_bounds (results : list ResultRow) (a : Q) (k : Z) :
  Forall (fun r => 0 <= row_confidence r <= 1) results ->
  (0 <= k)%Z ->
  (k + Z.of_nat (List.length results) <= 2 ^ 53)%Z ->
  0 <= a <= inject_Z k ->
  0
  <= fold_left (fun sum result => Num.add sum (row_confidence result))
       results a
  <= inject_Z (k + Z.of_nat (List.length results)).
Proof.
  intros Hall. revert a k.
  induction Hall as [| x rest Hx _ IH]; intros a k Hk Hlen Ha.
  - cbn [fold_left List.length]. rewrite Z.add_0_r. exact Ha.
  - cbn [fold_left List.length] in *.
    rewrite Nat2Z.inj_succ in *.
    replace (k + Z.succ (Z.of_nat (List.length rest)))%Z
      with ((k + 1) + Z.of_nat (List.length rest))%Z by lia.
    apply IH; [lia | lia |].
    split.
    + change 0 with (Num.round64 0). apply Num.round64_le. lra.
    + rewrite <- (Num.round64_Z (k + 1)) by lia.
      apply Num.round64_le. rewrite inject_Z_plus.
      change (inject_Z 1) with 1. lra.
Qed.

(** Three results of confidence 0.1, the binary64 number. *)
Definition three_tenths : list ResultRow :=
  List.map (fun deepfake => mkResultRow "image" deepfake (Num.lit 0.1) "LOW")
    [false; false; false].

(** X23: the figures of the home page: the deepfakes and the authentic
    results together are all the analyses; the average confidence is 0
    without results, and with results whose confidences lie in
    [[0, 1]] it lies in [[0, 1]] (for fewer than [2^53] results, whose
    number is then a binary64 number). It is a rounded figure: the average
    of three results of confidence 0.1 is above 0.1. *)
Theorem home_page_figures (results : list ResultRow) :
  (Index.getDeepfakeCount results + Index.getAuthenticCount results
   = Index.getTotalAnalyses results)%nat /\
  (results = [] -> Index.getAverageConfidence results = 0) /\
  (results <> [] ->
   Forall (fun r => 0 <= row_confidence r <= 1) results ->
   (Z.of_nat (List.length results) <= 2 ^ 53)%Z ->
   0 <= Index.getAverageConfidence results <= 1) /\
  Num.lit 0.1 < Index.getAverageConfidence three_tenths.
Proof.
  split; [| split; [| split]].
  - unfold Index.getDeepfakeCount, Index.getAuthenticCount,
      Index.getTotalAnalyses.
    induction results as [| x rest IH]; [reflexivity |].
    cbn. destruct (row_isDeepfake x); cbn; lia.
  - intros ->. reflexivity.
  - intros Hne Hall Hlen.
    pose proof (sum_confidence_bounds results 0 0 Hall ltac:(lia) ltac:(lia)
                  ltac:(change (inject_Z 0) with 0; lra)) as Hsum.
    rewrite Z.add_0_l in Hsum.
    unfold Index.getAverageConfidence.
    destruct results as [| x rest]; [contradiction |].
    set (total := fold_left _ (x :: rest) 0) in *.
    set (n := inject_Z (Z.of_nat (List.length (x :: rest)))) in *.
    assert (Hn : 0 < n).
    { unfold n. cbn [List.length]. rewrite Nat2Z.inj_succ.
      unfold Z.succ. rewrite inject_Z_plus.
      assert (0 <= inject_Z (Z.of_nat (List.length rest))).
      { change 0 with (inject_Z 0). rewrite <- Zle_Qle. lia. }
      change (inject_Z 1) with 1. lra. }
    unfold Num.div. split.
    + change 0 with (Num.round64 0). apply Num.round64_le.
      apply Qle_shift_div_l; [exact Hn | lra].
    + assert (E1 : Num.round64 1 == 1) by evaluated.
      rewrite <- E1. apply Num.round64_le.
      apply Qle_shift_div_r; [exact Hn | lra].
  - evaluated.
Qed.

(** * Where the uploads are *)

(** The directory that [/api/files], [/api/cleanup-files] and the static
    route [/uploads] read: [path.join(process.cwd(), 'uploads')]. *)
Definition servedUploadsDir (cwd : string) : string := cwd +:+ "/uploads".

Lemma length_append (s t : string) :
  String.length (s +:+ t) = (String.length s + String.length t)%nat.
Proof.
  induction s as [| a s IH]; [reflexivity |].
  change (S (String.length (s +:+ t))
          = S (String.length s + String.length t)).
  f_equal. exact IH.
Qed.

Lemma append_inv_tail (s1 s2 t : string) : s1 +:+ t = s2 +:+ t -> s1 = s2.
Proof.
  revert s2. induction s1 as [| a s1 IH]; intros [| b s2] Heq.
  - reflexivity.
  - exfalso. apply (f_equal String.length) in Heq.
    rewrite !length_append in Heq. simpl in Heq. lia.
  - exfalso. apply (f_equal String.length) in Heq.
    rewrite !length_append in Heq. simpl in Heq. lia.
  - cbn in Heq. injection Heq as -> Heq. f_equal. apply IH, Heq.
Qed.

(** X24: on a serverless deployment ([VERCEL] is ["1"], or [NOW_REGION]
    or [SERVERLESS] is set) the uploads are stored under [/tmp/uploads],
    while the routes that list, serve and clean up the uploads read the
    directory [uploads] of the working directory: unless the working
    directory is [/tmp], they never see a stored upload. Elsewhere the
    two directories are the same. *)
Theorem serverless_uploads_are_out_of_reach random now env statSync axios
    numberToString cwd :
  let serverless :=
    env !! "VERCEL" = Some "1" \/ configured env "NOW_REGION" = true
    \/ configured env "SERVERLESS" = true in
  (serverless ->
   uploadsDir env cwd = "/tmp/uploads" /\
   (uploadsDir env cwd = servedUploadsDir cwd <-> cwd = "/tmp")) /\
  (~ serverless -> uploadsDir env cwd = servedUploadsDir cwd) /\
  (forall p w res w',
     analyzeRoute random now env statSync axios numberToString cwd (Some p) w
     = (Returned res, w') ->
     (body res)?."success" = JBool true ->
     exists storedName,
       (body res)?."result"?."metadata"?."saved_filename" = JStr storedName /\
       upload_single now env numberToString cwd (Some p) w
       = (Returned
            (Uploaded
               (Some (mkMulterFile (part_originalname p) (part_mimetype p)
                        (part_length p) storedName
                        (uploadsDir env cwd +:+ "/" +:+ storedName)))),
          tick w)).
Proof.
  cbv zeta.
  assert (Hdir :
    (env !! "VERCEL" = Some "1" \/ configured env "NOW_REGION" = true
     \/ configured env "SERVERLESS" = true ->
     uploadsDir env cwd = "/tmp/uploads") /\
    (~ (env !! "VERCEL" = Some "1" \/ configured env "NOW_REGION" = true
        \/ configured env "SERVERLESS" = true) ->
     uploadsDir env cwd = servedUploadsDir cwd)).
  { unfold uploadsDir, servedUploadsDir.
    destruct (bool_decide (env !! "VERCEL" = Some "1")) eqn:Hv;
      [apply bool_decide_eq_true in Hv | apply bool_decide_eq_false in Hv];
      destruct (configured env "NOW_REGION"), (configured env "SERVERLESS");
      cbn [orb]; split; intros H; try reflexivity;
      first [ (exfalso; apply H; auto; fail)
            | (decompose [or] H; first [contradiction | discriminate]) ]. }
  destruct Hdir as [Hserverless Hlocal].
  split; [| split; [exact Hlocal |]].
  - intros Hs. rewrite (Hserverless Hs). split; [reflexivity |].
    unfold servedUploadsDir. split.
    + intros Heq. symmetry.
      apply (append_inv_tail "/tmp" cwd "/uploads"). exact Heq.
    + intros ->. reflexivity.
  - intros p w res w' Hrun Hsuccess.
    unfold analyzeRoute, upload_single in *.
    destruct (fileFilter (Some p)) as [message |].
    { cbn in Hrun. injection Hrun as <- <-. discriminate Hsuccess. }
    unfold bind at 1 in Hrun. unfold Date_now at 1 in Hrun.
    unfold bind at 1. unfold Date_now at 1. cbv beta iota in Hrun |- *.
    destruct (part_length p >? limits_fileSize)%Z.
    { cbn in Hrun. injection Hrun as <- <-. discriminate Hsuccess. }
    unfold bind at 1 in Hrun. unfold ret at 1 in Hrun. cbv beta iota in Hrun.
    fold (tick w) in Hrun |- *.
    match type of Hrun with
    | handleAnalyze _ _ _ _ _ _ (Some ?file) _ = _ => set (f := file) in *
    end.
    exists (filename f).
    split; [| reflexivity].
    destruct (success_is_supported _ _ _ _ _ _ _ _ _ _ Hrun Hsuccess)
      as (f' & Hf & _).
    assert (Hsaved : forall r R,
      copies r f R -> R?."metadata"?."saved_filename" = JStr (filename f)).
    { intros r R [-> _].
      destruct (fileMetadata_fields r f) as (_ & H2 & _). exact H2. }
    destruct (getFileCategory_cases (mimetype f)) as [Hc | [Hc | [Hc | Hc]]].
    + destruct (handleAnalyze_image_inv _ _ _ _ _ _ _ _ _ _ Hc Hrun)
        as [(r & w1 & R & _ & -> & _ & Hcopies & _) | (e & _ & ->)];
        [| discriminate Hsuccess].
      exact (Hsaved r R Hcopies).
    + destruct (handleAnalyze_video_inv _ _ _ _ _ _ _ _ _ _ Hc Hrun)
        as (r & w1 & R & _ & -> & _ & Hcopies & _).
      exact (Hsaved r R Hcopies).
    + destruct (handleAnalyze_audio_inv _ _ _ _ _ _ _ _ _ _ Hc Hrun)
        as (r & w1 & R & _ & -> & _ & Hcopies & _).
      exact (Hsaved r R Hcopies).
    + exfalso.
      destruct (wp_returned _ _ _ _ _ _
                  (handleAnalyze_other random now env statSync axios
                     numberToString (Some f) (tick w) Hc) Hrun)
        as (message & Hbody & _).
      rewrite Hbody in Hsuccess. discriminate Hsuccess.
Qed.

(** * The union [AnalysisResult] ([shared/api.ts]) *)












Section Members.

Variable random : nat -> Q.
Variable numberToString : Q -> string.





End Members.

Section Shapes.

Variable random : nat -> Q.
Variable now : nat -> Z.
Variable env : gmap string string.
Variable statSync : string -> option Z.
Variable axios : string -> HttpOutcome.
Variable numberToString : Q -> string.

Local Notation "'handler'" :=
  (handleAnalyze random now env statSync axios numberToString).





End Shapes.



